(** * system/core: init builtins and the fs_mgr device-mapper helpers

    A shallow embedding of the parts of [init/builtins.cpp] and
    [fs_mgr/fs_mgr_dm_ioctl.cpp] that decide the mount, encryption
    bring-up and service-class behaviour, with the calls to the outside
    (kernel, property store, trigger engine, service list) recorded as a
    trace of events and answered by an explicit [World]. *)

From stdpp Require Import gmap strings list pretty.
From Stdlib Require Import ZArith Lia.

Open Scope Z_scope.

(** ** Machine integers *)

(** Conversion of a mathematical integer to a C [int] (32 bits, two's
    complement). *)
Definition to_int32 (z : Z) : Z := (z + 2 ^ 31) mod 2 ^ 32 - 2 ^ 31.

(** [size_t] increment on a 64-bit target. *)
Definition size_t_succ (n : N) : N := (N.succ n mod 2 ^ 64)%N.

(** ** fs_mgr_dm_ioctl.cpp *)

Module fs_mgr_dm.

(** Layout constants of [struct dm_ioctl] (linux/dm-ioctl.h). *)
Definition DM_NAME_LEN : nat := 128.
Definition sizeof_dm_ioctl : Z := 312.

(** The fields of [struct dm_ioctl] the helpers touch; [dev] is a
    [__u64]. *)
Record dm_ioctl := {
  version : Z * Z * Z;
  data_size : Z;
  data_start : Z;
  dev : Z;
  name : string;
}.

Definition dm_ioctl_zero : dm_ioctl :=
  {| version := (0, 0, 0); data_size := 0; data_start := 0; dev := 0; name := "" |}.

(** [strlcpy(dst, src, size)]: at most [size - 1] characters are kept. *)
Definition strlcpy (src : string) (size : nat) : string :=
  String.substring 0 (size - 1) src.

Definition fs_mgr_dm_ioctl_init (size : Z) (nm : string) : dm_ioctl :=
  let io := dm_ioctl_zero in
  let io := {| version := (4, 0, 0); data_size := size;
               data_start := sizeof_dm_ioctl; dev := dev io;
               name := name io |} in
  if bool_decide (nm = "") then io
  else {| version := version io; data_size := data_size io;
          data_start := data_start io; dev := dev io;
          name := strlcpy nm DM_NAME_LEN |}.

Inductive dm_request := DM_DEV_CREATE | DM_DEV_REMOVE | DM_DEV_STATUS | DM_DEV_SUSPEND.

(** The kernel's answer to [ioctl(fd, request, io)]: the return value
    and the control block as the kernel leaves it. *)
Definition dm_kernel := Z -> dm_request -> dm_ioctl -> Z * dm_ioctl.

(** What a helper leaves behind: its return value, the string stored
    through [out_dev_name] (if any) and the lines sent to [PERROR]. *)
Record dm_outcome := {
  dm_ret : bool;
  dm_out_dev_name : option string;
  dm_perror : list string;
}.

(** The decoding of the packed device number, as the [int dev_num]
    initialiser computes it. *)
Definition dev_num_of (raw : Z) : Z :=
  to_int32 (Z.lor (Z.land raw 0xff) (Z.land (Z.shiftr raw 12) 0xfff00)).

Definition fs_mgr_dm_get_device_name (k : dm_kernel) (nm : string) (fd : Z) : dm_outcome :=
  let io := fs_mgr_dm_ioctl_init sizeof_dm_ioctl nm in
  let '(rc, io) := k fd DM_DEV_STATUS io in
  if bool_decide (rc ≠ 0) then
    {| dm_ret := false; dm_out_dev_name := None;
       dm_perror := ["Error fetching device-mapper device number"] |}
  else
    let dev_num := dev_num_of (dev io) in
    {| dm_ret := true;
       dm_out_dev_name := Some ("/dev/block/dm-" +:+ pretty dev_num);
       dm_perror := [] |}.

Definition dm_simple (k : dm_kernel) (req : dm_request) (msg nm : string) (fd : Z) : dm_outcome :=
  let io := fs_mgr_dm_ioctl_init sizeof_dm_ioctl nm in
  let '(rc, _) := k fd req io in
  if bool_decide (rc ≠ 0) then
    {| dm_ret := false; dm_out_dev_name := None; dm_perror := [msg] |}
  else {| dm_ret := true; dm_out_dev_name := None; dm_perror := [] |}.

Definition fs_mgr_dm_create_device := fun k => dm_simple k DM_DEV_CREATE "Error creating device mapping".
Definition fs_mgr_dm_destroy_device := fun k => dm_simple k DM_DEV_REMOVE "Error removing device mapping".
Definition fs_mgr_dm_resume_table := fun k => dm_simple k DM_DEV_SUSPEND "Error activating device table".

(** The decoding as the specification writes it, on mathematical
    integers: [(raw & 0xff) | ((raw >> 12) & 0xfff00)]. *)
Definition spec_dev_num (raw : Z) : Z :=
  Z.lor (Z.land raw 0xff) (Z.land (Z.shiftr raw 12) 0xfff00).

End fs_mgr_dm.


(** ** init/builtins.cpp *)

Module init.

(** *** Results, errors and logging *)

(** Modelled from the spec: [android::base::ResultError] and the [Error]
    builders of android-base/result.h, which is not part of the modelled
    sources.  An error is a message and an error code; an error built from
    [errno] carries the code and has the errno text attached to its
    label. *)
Record ResultError := {
  error_message : string;
  error_code : Z;
}.

Inductive Result (A : Type) : Type :=
| Ok (a : A)
| Err (e : ResultError).
Arguments Ok {A} a.
Arguments Err {A} e.

(** Modelled from the spec: the log severities of android-base/logging.h
    (not among the modelled sources), from the most verbose on; the
    minimum severity is "above debug" when it follows [DEBUG] in this
    order. *)
Inductive LogSeverity :=
| VERBOSE | DEBUG | INFO | WARNING | ERROR | FATAL_WITHOUT_ABORT | FATAL.

Definition severity_value (s : LogSeverity) : Z :=
  match s with
  | VERBOSE => 0 | DEBUG => 1 | INFO => 2 | WARNING => 3
  | ERROR => 4 | FATAL_WITHOUT_ABORT => 5 | FATAL => 6
  end.

(** *** Constants of the system headers *)

Definition ENOENT : Z := 2.
Definition ENXIO : Z := 6.

Definition O_RDONLY : Z := 0.
Definition O_RDWR : Z := 2.
Definition O_CLOEXEC : Z := 0x80000.

Definition MS_RDONLY : Z := 1.
Definition MS_NOSUID : Z := 2.
Definition MS_NODEV : Z := 4.
Definition MS_NOEXEC : Z := 8.
Definition MS_REMOUNT : Z := 32.
Definition MS_NOATIME : Z := 1024.
Definition MS_NODIRATIME : Z := 2048.
Definition MS_BIND : Z := 4096.
Definition MS_REC : Z := 16384.
Definition MS_UNBINDABLE : Z := Z.shiftl 1 17.
Definition MS_PRIVATE : Z := Z.shiftl 1 18.
Definition MS_SLAVE : Z := Z.shiftl 1 19.
Definition MS_SHARED : Z := Z.shiftl 1 20.

Definition __ANDROID_API_Q__ : Z := 29.

(** The outcome codes of [fs_mgr_mount_all] are declared in fs_mgr.h,
    which is not part of the modelled sources: they are parameters of the
    model. *)
Record MntAllCodes := {
  FS_MGR_MNTALL_DEV_NEEDS_ENCRYPTION : Z;
  FS_MGR_MNTALL_DEV_MIGHT_BE_ENCRYPTED : Z;
  FS_MGR_MNTALL_DEV_NOT_ENCRYPTED : Z;
  FS_MGR_MNTALL_DEV_NOT_ENCRYPTABLE : Z;
  FS_MGR_MNTALL_DEV_NEEDS_RECOVERY : Z;
  FS_MGR_MNTALL_DEV_FILE_ENCRYPTED : Z;
  FS_MGR_MNTALL_DEV_IS_METADATA_ENCRYPTED : Z;
  FS_MGR_MNTALL_DEV_NEEDS_METADATA_ENCRYPTION : Z;
}.

(** The codes in the order [queue_fs_event] tests them. *)
Definition enumerated_codes (c : MntAllCodes) : list Z :=
  [ FS_MGR_MNTALL_DEV_NEEDS_ENCRYPTION c;
    FS_MGR_MNTALL_DEV_MIGHT_BE_ENCRYPTED c;
    FS_MGR_MNTALL_DEV_NOT_ENCRYPTED c;
    FS_MGR_MNTALL_DEV_NOT_ENCRYPTABLE c;
    FS_MGR_MNTALL_DEV_NEEDS_RECOVERY c;
    FS_MGR_MNTALL_DEV_FILE_ENCRYPTED c;
    FS_MGR_MNTALL_DEV_IS_METADATA_ENCRYPTED c;
    FS_MGR_MNTALL_DEV_NEEDS_METADATA_ENCRYPTION c ].

(** The header gives every outcome its own non-negative code; -1 is the
    failure code and the initial value of the recorded outcome. *)
Definition codes_wf (c : MntAllCodes) : Prop :=
  NoDup (enumerated_codes c) /\ Forall (fun x => 0 <= x) (enumerated_codes c).

Inductive MountMode := MOUNT_MODE_DEFAULT | MOUNT_MODE_EARLY | MOUNT_MODE_LATE.

(** *** The outside world *)

(** A service, as far as the class commands look at it. *)
Record Service := {
  name : string;
  classnames : gset string;
}.

Record FstabEntry := {
  blk_device : string;
  mount_point : string;
  fs_type : string;
}.
Definition Fstab := list FstabEntry.

Inductive LoopRequest := LOOP_GET_STATUS | LOOP_SET_FD | LOOP_CLR_FD.

(** The result of a system call: its non-negative return value, or -1
    with the error number it leaves in [errno]. *)
Inductive SysResult :=
| SysOk (ret : N)
| SysFail (err : Z).

(** Every call that leaves the process, in program order. *)
Inductive Event :=
| E_property_set (key value : string)
| E_QueueEventTrigger (trigger : string)
| E_TriggerShutdown (command : string)
| E_FscryptInstallKeyring
| E_write_bootloader_message (options : list string)
| E_LOG (severity : LogSeverity) (msg : string)
| E_open (path : string) (flags : Z)
| E_ioctl (device : string) (request : LoopRequest)
| E_mount (source target system : string) (flags : Z) (options : option string)
| E_wait_for_file (path : string)
| E_StartIfNotDisabled (service : string)
| E_Restart (service : string)
| E_fs_mgr_mount_all (fstab : Fstab) (mode : MountMode)
| E_fs_mgr_remount_userdata_into_checkpointing (fstab : Fstab)
| E_ParseConfig (path : string).

(** The answers of the collaborators.  A descriptor stands for the path
    it was opened on, so the loop ioctls are keyed by device path. *)
Record World := {
  w_strerror : Z -> string;
  w_GetMinimumLogSeverity : LogSeverity;
  w_GetBoolProperty : string -> bool -> bool;
  w_getpid : Z;
  w_IsGsiRunning : bool;
  w_FscryptInstallKeyring : bool;
  w_write_bootloader_message : list string -> option string;
  w_open : string -> Z -> SysResult;
  w_ioctl : string -> LoopRequest -> SysResult;
  w_mount : string -> string -> string -> Z -> option string -> SysResult;
  w_services : list Service;
  w_StartIfNotDisabled : Service -> Result unit;
  w_ReadFstabFromFile : string -> option Fstab;
  w_ReadDefaultFstab : option Fstab;
  w_fs_mgr_mount_all : Fstab -> MountMode -> Z;
  w_fs_mgr_remount_userdata_into_checkpointing : Fstab -> Z;
  w_timer_duration : Z;
  w_SelinuxGetVendorAndroidVersion : Z;
}.

(** *** Process state *)

Record InitState := {
  initial_mount_fstab_return_code : Z;
  late_import_paths : list string;
  errno : Z;
  trace : list Event;
}.

(** The state at process start: the recorded outcome holds its sentinel. *)
Definition boot_state : InitState :=
  {| initial_mount_fstab_return_code := -1; late_import_paths := [];
     errno := 0; trace := [] |}.

Definition set_initial_mount_fstab_return_code (v : Z) (s : InitState) : InitState :=
  {| initial_mount_fstab_return_code := v; late_import_paths := late_import_paths s;
     errno := errno s; trace := trace s |}.

Definition set_late_import_paths (v : list string) (s : InitState) : InitState :=
  {| initial_mount_fstab_return_code := initial_mount_fstab_return_code s;
     late_import_paths := v; errno := errno s; trace := trace s |}.

Definition set_errno (v : Z) (s : InitState) : InitState :=
  {| initial_mount_fstab_return_code := initial_mount_fstab_return_code s;
     late_import_paths := late_import_paths s; errno := v; trace := trace s |}.

Definition add_event (e : Event) (s : InitState) : InitState :=
  {| initial_mount_fstab_return_code := initial_mount_fstab_return_code s;
     late_import_paths := late_import_paths s; errno := errno s;
     trace := trace s ++ [e] |}.

Definition add_events (l : list Event) (s : InitState) : InitState :=
  {| initial_mount_fstab_return_code := initial_mount_fstab_return_code s;
     late_import_paths := late_import_paths s; errno := errno s;
     trace := trace s ++ l |}.

(** *** The command monad: state passing over [InitState] *)

Definition M (A : Type) : Type := InitState -> A * InitState.

#[global] Instance M_ret : MRet M := fun A a s => (a, s).

#[global] Instance M_bind : MBind M :=
  fun A B k m s => let '(a, s') := m s in k a s'.

Definition get {A} (f : InitState -> A) : M A := fun s => (f s, s).
Definition modify (f : InitState -> InitState) : M unit := fun s => (tt, f s).
Definition emit (e : Event) : M unit := modify (add_event e).

Definition when (b : bool) (m : M unit) : M unit := if b then m else mret tt.

(** Everything a command appended to the trace. *)
Definition emitted {A} (m : M A) (s : InitState) : list Event :=
  drop (length (trace s)) (trace (snd (m s))).

(** A system call: recorded, and [errno] set when it fails. *)
Definition syscall (e : Event) (r : SysResult) : M Z :=
  emit e;;
  match r with
  | SysOk v => mret (Z.of_N v)
  | SysFail err => modify (set_errno err);; mret (-1)
  end.

(** [for (const auto& x : l) body(x)] *)
Fixpoint for_each {A} (l : list A) (body : A -> M unit) : M unit :=
  match l with
  | [] => mret tt
  | x :: l' => body x;; for_each l' body
  end.

(** [args[i]].  The registry's arity bounds keep every index a handler
    uses in range; out of range (undefined in C++) reads as the empty
    string here. *)
Definition arg (args : list string) (i : nat) : string := default "" (args !! i).

(** [s + n] on a C string: the text after its first [n] characters. *)
Definition string_drop (n : nat) (s : string) : string :=
  String.substring n (String.length s - n) s.

Definition Error (msg : string) : ResultError :=
  {| error_message := msg; error_code := 0 |}.

(** [Error() << prefix << cause]: the cause's message is appended and its
    code kept. *)
Definition Error_from (prefix : string) (cause : ResultError) : ResultError :=
  {| error_message := prefix +:+ error_message cause; error_code := error_code cause |}.

Definition LOG (severity : LogSeverity) (msg : string) : M unit := emit (E_LOG severity msg).
Definition property_set (key value : string) : M unit := emit (E_property_set key value).
Definition QueueEventTrigger (trigger : string) : M unit := emit (E_QueueEventTrigger trigger).

(** Modelled from the spec: [TriggerShutdown] is defined outside the
    modelled sources; it is the "in-process shutdown trigger", a request
    handed to the init loop.  Its callers in builtins.cpp go on after
    the call ([reboot_into_recovery] returns its result after it), so
    the call is an event after which the handler continues. *)
Definition TriggerShutdown (command : string) : M unit := emit (E_TriggerShutdown command).

Section Builtins.

Context (codes : MntAllCodes) (w : World).

Definition ErrnoError_with (errno_to_append : Z) (msg : string) : ResultError :=
  {| error_message := msg +:+ ": " +:+ w_strerror w errno_to_append;
     error_code := errno_to_append |}.

Definition ErrnoError (msg : string) : M ResultError :=
  e ← get errno; mret (ErrnoError_with e msg).

(** [PLOG(severity) << msg]: the line ends with the text of [errno]. *)
Definition PLOG (severity : LogSeverity) (msg : string) : M unit :=
  e ← get errno; LOG severity (msg +:+ ": " +:+ w_strerror w e).

(** [class ErrorIgnoreEnoent]: the flag its constructor computes, and its
    conversion to a result. *)
Definition ignore_error_ (errno_to_append : Z) : bool :=
  (errno_to_append =? ENOENT) &&
  (severity_value DEBUG <? severity_value (w_GetMinimumLogSeverity w)).

Definition ErrorIgnoreEnoent (errno_to_append : Z) (msg : string) : Result unit :=
  if ignore_error_ errno_to_append then Ok tt
  else Err (ErrnoError_with errno_to_append msg).

Definition ErrnoErrorIgnoreEnoent (msg : string) : M (Result unit) :=
  e ← get errno; mret (ErrorIgnoreEnoent e msg).

Definition reboot_into_recovery (options : list string) : M (Result unit) :=
  LOG ERROR "Rebooting into recovery";;
  emit (E_write_bootloader_message options);;
  match w_write_bootloader_message w options with
  | Some err => mret (Err (Error ("Failed to set bootloader message: " +:+ err)))
  | None =>
    (if w_getpid w =? 1 then TriggerShutdown "reboot,recovery"
     else property_set "sys.powerctl" "reboot,recovery");;
    mret (Ok tt)
  end.

(** *** Service classes *)

Definition in_class (classname : string) (service : Service) : bool :=
  bool_decide (classname ∈ classnames service).

Definition ForEachServiceInClass (classname : string) (function : Service -> M unit) : M unit :=
  for_each (w_services w) (fun service =>
    when (in_class classname service) (function service)).

Definition Service_Restart (service : Service) : M unit := emit (E_Restart (name service)).

Definition Service_StartIfNotDisabled (service : Service) : M (Result unit) :=
  emit (E_StartIfNotDisabled (name service));;
  mret (w_StartIfNotDisabled w service).

Definition do_class_start (args : list string) : M (Result unit) :=
  if w_GetBoolProperty w ("persist.init.dont_start_class." +:+ arg args 1) false then
    mret (Ok tt)
  else
    for_each (w_services w) (fun service =>
      when (in_class (arg args 1) service)
        (result ← Service_StartIfNotDisabled service;
         match result with
         | Err e =>
           LOG ERROR ("Could not start service '" +:+ name service +:+
                      "' as part of class '" +:+ arg args 1 +:+ "': " +:+ error_message e)
         | Ok _ => mret tt
         end));;
    mret (Ok tt).

Definition do_class_restart (args : list string) : M (Result unit) :=
  if w_GetBoolProperty w ("persist.init.dont_start_class." +:+ arg args 1) false then
    mret (Ok tt)
  else
    ForEachServiceInClass (arg args 1) Service_Restart;;
    mret (Ok tt).

(** *** mount *)

Definition mount_flags : list (string * Z) :=
  [ ("noatime", MS_NOATIME);
    ("noexec", MS_NOEXEC);
    ("nosuid", MS_NOSUID);
    ("nodev", MS_NODEV);
    ("nodiratime", MS_NODIRATIME);
    ("ro", MS_RDONLY);
    ("rw", 0);
    ("remount", MS_REMOUNT);
    ("bind", MS_BIND);
    ("rec", MS_REC);
    ("unbindable", MS_UNBINDABLE);
    ("private", MS_PRIVATE);
    ("slave", MS_SLAVE);
    ("shared", MS_SHARED);
    ("defaults", 0) ].

(** The inner [for (i = 0; mount_flags[i].name; i++)] search: the flag of
    the first entry named [a], or [None] when the search reaches the
    terminating entry. *)
Fixpoint find_mount_flag (table : list (string * Z)) (a : string) : option Z :=
  match table with
  | [] => None
  | (nm, flag) :: table' =>
    if String.eqb a nm then Some flag else find_mount_flag table' a
  end.

(** The three locals the argument loop of [do_mount] fills in. *)
Record MountArgs := {
  flags : Z;
  wait : bool;
  options : option string;
}.

(** One turn of [for (size_t na = 4; na < args.size(); na++)]. *)
Definition mount_arg_step (args : list string) (acc : MountArgs) (na : nat) : MountArgs :=
  match find_mount_flag mount_flags (arg args na) with
  | Some flag =>
    {| flags := Z.lor (flags acc) flag; wait := wait acc; options := options acc |}
  | None =>
    if String.eqb (arg args na) "wait" then
      {| flags := flags acc; wait := true; options := options acc |}
    else if (na + 1 =? length args)%nat then
      {| flags := flags acc; wait := wait acc; options := Some (arg args na) |}
    else acc
  end.

Definition parse_mount_args (args : list string) : MountArgs :=
  fold_left (mount_arg_step args) (seq 4 (length args - 4))
    {| flags := 0; wait := false; options := None |}.

Definition loop_device (n : N) : string := "/dev/block/loop" +:+ pretty n.

(** The scan [for (size_t n = 0;; n++)] of the loop branch.  The C loop
    has no exit of its own; [fuel] bounds the number of devices looked at
    and [None] says the bound was reached. *)
Fixpoint loop_scan (fuel : nat) (mode : Z) (target system : string)
    (fl : Z) (opts : option string) (n : N) : M (option (Result unit)) :=
  match fuel with
  | O => mret None
  | S fuel' =>
    let tmp := loop_device n in
    loop ← syscall (E_open tmp (Z.lor mode O_CLOEXEC)) (w_open w tmp (Z.lor mode O_CLOEXEC));
    if loop <? 0 then
      e ← ErrnoError ("open(" +:+ tmp +:+ ", " +:+ pretty mode +:+ ") failed");
      mret (Some (Err e))
    else
      status ← syscall (E_ioctl tmp LOOP_GET_STATUS) (w_ioctl w tmp LOOP_GET_STATUS);
      en ← get errno;
      if (status <? 0) && (en =? ENXIO) then
        bound ← syscall (E_ioctl tmp LOOP_SET_FD) (w_ioctl w tmp LOOP_SET_FD);
        if 0 <=? bound then
          mounted ← syscall (E_mount tmp target system fl opts)
                            (w_mount w tmp target system fl opts);
          if mounted <? 0 then
            syscall (E_ioctl tmp LOOP_CLR_FD) (w_ioctl w tmp LOOP_CLR_FD);;
            e ← ErrnoError "mount() failed";
            mret (Some (Err e))
          else mret (Some (Ok tt))
        else loop_scan fuel' mode target system fl opts (size_t_succ n)
      else loop_scan fuel' mode target system fl opts (size_t_succ n)
  end.

Definition do_mount (fuel : nat) (args : list string) : M (option (Result unit)) :=
  let parsed := parse_mount_args args in
  let system := arg args 1 in
  let source := arg args 2 in
  let target := arg args 3 in
  if String.prefix "loop@" source then
    let mode := if bool_decide (Z.land (flags parsed) MS_RDONLY ≠ 0) then O_RDONLY else O_RDWR in
    let backing := string_drop 5 source in
    fd ← syscall (E_open backing (Z.lor mode O_CLOEXEC)) (w_open w backing (Z.lor mode O_CLOEXEC));
    if fd <? 0 then
      e ← ErrnoError ("open(" +:+ backing +:+ ", " +:+ pretty mode +:+ ") failed");
      mret (Some (Err e))
    else loop_scan fuel mode target system (flags parsed) (options parsed) 0%N
  else
    when (wait parsed) (emit (E_wait_for_file source));;
    mounted ← syscall (E_mount source target system (flags parsed) (options parsed))
                      (w_mount w source target system (flags parsed) (options parsed));
    if mounted <? 0 then
      r ← ErrnoErrorIgnoreEnoent "mount() failed";
      mret (Some r)
    else mret (Some (Ok tt)).

(** *** mount_all and the encryption state machine *)

Definition import_late (args : list string) (start_index end_index : nat) : M unit :=
  if (end_index <=? start_index)%nat then
    paths ← get late_import_paths;
    for_each paths (fun path => emit (E_ParseConfig path));;
    modify (set_late_import_paths [])
  else
    for_each (seq start_index (end_index - start_index))
      (fun i => emit (E_ParseConfig (arg args i))).

Definition FscryptInstallKeyring : M bool :=
  emit E_FscryptInstallKeyring;; mret (w_FscryptInstallKeyring w).

(** [if (!userdata_remount && !FscryptInstallKeyring())]: the keyring is
    installed only when the left operand holds. *)
Definition keyring_missing (userdata_remount : bool) : M bool :=
  if negb userdata_remount then installed ← FscryptInstallKeyring; mret (negb installed)
  else mret false.

(** The branches for [FILE_ENCRYPTED], [IS_METADATA_ENCRYPTED] and
    [NEEDS_METADATA_ENCRYPTION] have the same statements. *)
Definition file_encrypted_branch (userdata_remount : bool) : M (Result unit) :=
  failed ← keyring_missing userdata_remount;
  if (failed : bool) then mret (Err (Error "FscryptInstallKeyring() failed"))
  else
    property_set "ro.crypto.state" "encrypted";;
    property_set "ro.crypto.type" "file";;
    QueueEventTrigger "nonencrypted";;
    mret (Ok tt).

(** The [if (userdata_remount)] block that opens the two FDE branches. *)
Definition fde_remount_panic (userdata_remount : bool) : M unit :=
  when userdata_remount
    (LOG ERROR "Userdata remount is not supported on FDE devices. How did you get here?";;
     TriggerShutdown "reboot,requested-userdata-remount-on-fde-device").

Definition queue_fs_event (code : Z) (userdata_remount : bool) : M (Result unit) :=
  if code =? FS_MGR_MNTALL_DEV_NEEDS_ENCRYPTION codes then
    fde_remount_panic userdata_remount;;
    QueueEventTrigger "encrypt";;
    mret (Ok tt)
  else if code =? FS_MGR_MNTALL_DEV_MIGHT_BE_ENCRYPTED codes then
    fde_remount_panic userdata_remount;;
    property_set "ro.crypto.state" "encrypted";;
    property_set "ro.crypto.type" "block";;
    QueueEventTrigger "defaultcrypto";;
    mret (Ok tt)
  else if code =? FS_MGR_MNTALL_DEV_NOT_ENCRYPTED codes then
    property_set "ro.crypto.state" "unencrypted";;
    QueueEventTrigger "nonencrypted";;
    mret (Ok tt)
  else if code =? FS_MGR_MNTALL_DEV_NOT_ENCRYPTABLE codes then
    property_set "ro.crypto.state" "unsupported";;
    QueueEventTrigger "nonencrypted";;
    mret (Ok tt)
  else if code =? FS_MGR_MNTALL_DEV_NEEDS_RECOVERY codes then
    if w_IsGsiRunning w then mret (Err (Error "cannot wipe within GSI"))
    else
      PLOG ERROR "fs_mgr_mount_all suggested recovery, so wiping data via recovery.";;
      reboot_into_recovery ["--wipe_data"; "--reason=fs_mgr_mount_all"]
  else if code =? FS_MGR_MNTALL_DEV_FILE_ENCRYPTED codes then
    file_encrypted_branch userdata_remount
  else if code =? FS_MGR_MNTALL_DEV_IS_METADATA_ENCRYPTED codes then
    file_encrypted_branch userdata_remount
  else if code =? FS_MGR_MNTALL_DEV_NEEDS_METADATA_ENCRYPTION codes then
    file_encrypted_branch userdata_remount
  else
    (* [code > 0] builds an error object and drops it: nothing is logged *)
    mret (Err (Error ("Invalid code: " +:+ pretty code))).

(** The locals the option loop of [do_mount_all] fills in. *)
Record MountAllArgs := {
  import_rc : bool;
  queue_event : bool;
  mount_mode : MountMode;
  path_arg_end : nat;
  prop_post_fix : string;
}.

(** One turn of [for (na = args.size() - 1; na > 1; --na)]. *)
Definition mount_all_arg_step (args : list string) (acc : MountAllArgs) (na : nat) : MountAllArgs :=
  if String.eqb (arg args na) "--early" then
    {| import_rc := import_rc acc; queue_event := false; mount_mode := MOUNT_MODE_EARLY;
       path_arg_end := na; prop_post_fix := "early" |}
  else if String.eqb (arg args na) "--late" then
    {| import_rc := false; queue_event := queue_event acc; mount_mode := MOUNT_MODE_LATE;
       path_arg_end := na; prop_post_fix := "late" |}
  else acc.

Definition parse_mount_all_args (args : list string) : MountAllArgs :=
  fold_left (mount_all_arg_step args) (rev (seq 2 (length args - 2)))
    {| import_rc := true; queue_event := true; mount_mode := MOUNT_MODE_DEFAULT;
       path_arg_end := length args; prop_post_fix := "default" |}.

Definition do_mount_all (args : list string) : M (Result unit) :=
  let parsed := parse_mount_all_args args in
  let fstab_file := arg args 1 in
  let prop_name := "ro.boottime.init.mount_all." +:+ prop_post_fix parsed in
  match w_ReadFstabFromFile w fstab_file with
  | None => mret (Err (Error "Could not read fstab"))
  | Some fstab =>
    emit (E_fs_mgr_mount_all fstab (mount_mode parsed));;
    let mount_fstab_return_code := w_fs_mgr_mount_all w fstab (mount_mode parsed) in
    property_set prop_name (pretty (w_timer_duration w));;
    when (import_rc parsed && (w_SelinuxGetVendorAndroidVersion w <=? __ANDROID_API_Q__))
      (import_late args 2 (path_arg_end parsed));;
    if queue_event parsed then
      modify (set_initial_mount_fstab_return_code mount_fstab_return_code);;
      queue_fs_result ← queue_fs_event mount_fstab_return_code false;
      match queue_fs_result with
      | Err e => mret (Err (Error_from "queue_fs_event() failed: " e))
      | Ok _ => mret (Ok tt)
      end
    else mret (Ok tt)
  end.

Definition do_remount_userdata (args : list string) : M (Result unit) :=
  recorded ← get initial_mount_fstab_return_code;
  if recorded =? -1 then mret (Err (Error "Calling remount_userdata too early"))
  else
    match w_ReadDefaultFstab w with
    | None => mret (Err (Error "Failed to read fstab"))
    | Some fstab =>
      emit (E_fs_mgr_remount_userdata_into_checkpointing fstab);;
      let rc := w_fs_mgr_remount_userdata_into_checkpointing w fstab in
      when (rc <? 0) (TriggerShutdown "reboot,mount-userdata-failed");;
      recorded ← get initial_mount_fstab_return_code;
      result ← queue_fs_event recorded true;
      match result with
      | Err e => mret (Err (Error_from "queue_fs_event() failed: " e))
      | Ok _ => mret (Ok tt)
      end
    end.

End Builtins.

(** *** Reading a trace *)

Definition is_property_write (e : Event) : bool :=
  match e with E_property_set _ _ => true | _ => false end.

Definition is_event_trigger (e : Event) : bool :=
  match e with E_QueueEventTrigger _ => true | _ => false end.

Definition is_shutdown_trigger (e : Event) : bool :=
  match e with E_TriggerShutdown _ => true | _ => false end.

(** A mount, by [mount(2)] or by the userdata remount primitive. *)
Definition is_mount (e : Event) : bool :=
  match e with
  | E_mount _ _ _ _ _ => true
  | E_fs_mgr_remount_userdata_into_checkpointing _ => true
  | _ => false
  end.

Definition is_start_call (e : Event) : bool :=
  match e with E_StartIfNotDisabled _ => true | _ => false end.

(** The events before the first shutdown trigger (all of them if there is
    none). *)
Fixpoint before_shutdown (t : list Event) : list Event :=
  match t with
  | [] => []
  | e :: t' => if is_shutdown_trigger e then [] else e :: before_shutdown t'
  end.

End init.

(** ** Sample instances *)

Module samples.
Import init.

(** The values AOSP's fs_mgr.h gives the outcome codes. *)
Definition fs_mgr_h : MntAllCodes :=
  {| FS_MGR_MNTALL_DEV_NEEDS_ENCRYPTION := 3;
     FS_MGR_MNTALL_DEV_MIGHT_BE_ENCRYPTED := 2;
     FS_MGR_MNTALL_DEV_NOT_ENCRYPTED := 1;
     FS_MGR_MNTALL_DEV_NOT_ENCRYPTABLE := 0;
     FS_MGR_MNTALL_DEV_NEEDS_RECOVERY := 4;
     FS_MGR_MNTALL_DEV_FILE_ENCRYPTED := 5;
     FS_MGR_MNTALL_DEV_IS_METADATA_ENCRYPTED := 7;
     FS_MGR_MNTALL_DEV_NEEDS_METADATA_ENCRYPTION := 6 |}.

Definition strerror (e : Z) : string :=
  if e =? ENOENT then "No such file or directory"
  else if e =? ENXIO then "No such device or address"
  else "Unknown error " +:+ pretty e.

Definition userdata : FstabEntry :=
  {| blk_device := "/dev/block/by-name/userdata"; mount_point := "/data"; fs_type := "f2fs" |}.

Definition svc (nm : string) (classes : list string) : Service :=
  {| name := nm; classnames := list_to_set classes |}.

(** Three services of class core and one of class main. *)
Definition sample_services : list Service :=
  [ svc "logd" ["core"]; svc "zygote" ["main"]; svc "vold" ["core"; "early_hal"];
    svc "servicemanager" ["core"] ].

(** A kernel with [bound] loop devices already attached: the status query
    succeeds on /dev/block/loop0 .. loop<bound-1> and fails with ENXIO on
    the others. *)
Definition loop_ioctl (bound : N) (set_fd : SysResult) (device : string) (request : LoopRequest) : SysResult :=
  match request with
  | LOOP_GET_STATUS =>
    if bool_decide (device ∈ (loop_device <$> (N.of_nat <$> seq 0 (N.to_nat bound)))) then SysOk 0
    else SysFail ENXIO
  | LOOP_SET_FD => set_fd
  | LOOP_CLR_FD => SysOk 0
  end.

(** A device described by the answers that vary between the examples:
    the classes whose do-not-start property is set, the services whose
    start fails, the keyring installation, the default fstab, the return
    code of the userdata remount, the loop bind, [mount(2)] and the
    minimum log severity.  Everything else succeeds; two loop devices are
    already bound. *)
Definition sample_world (dont_start failing : list string) (keyring : bool)
    (default_fstab : option Fstab) (remount_rc : Z) (set_fd mount_result : SysResult)
    (min_severity : LogSeverity) : World :=
  {| w_strerror := strerror;
     w_GetMinimumLogSeverity := min_severity;
     w_GetBoolProperty := fun key default_value =>
       if bool_decide (key ∈ (fun c => "persist.init.dont_start_class." +:+ c) <$> dont_start)
       then true else default_value;
     w_getpid := 1;
     w_IsGsiRunning := false;
     w_FscryptInstallKeyring := keyring;
     w_write_bootloader_message := fun _ => None;
     w_open := fun _ _ => SysOk 3;
     w_ioctl := loop_ioctl 2 set_fd;
     w_mount := fun _ _ _ _ _ => mount_result;
     w_services := sample_services;
     w_StartIfNotDisabled := fun service =>
       if bool_decide (name service ∈ failing)
       then Err (Error "Cannot start: service is already running") else Ok tt;
     w_ReadFstabFromFile := fun _ => Some [userdata];
     w_ReadDefaultFstab := default_fstab;
     w_fs_mgr_mount_all := fun _ _ => 3;
     w_fs_mgr_remount_userdata_into_checkpointing := fun _ => remount_rc;
     w_timer_duration := 42;
     w_SelinuxGetVendorAndroidVersion := 29 |}.

(** Every collaborator succeeds. *)
Definition fair_world : World :=
  sample_world [] [] true (Some [userdata]) 0 (SysOk 0) (SysOk 0) INFO.

(** The default fstab cannot be read. *)
Definition no_fstab_world : World :=
  sample_world [] [] true None 0 (SysOk 0) (SysOk 0) INFO.

(** The userdata remount fails. *)
Definition remount_fails_world : World :=
  sample_world [] [] true (Some [userdata]) (-1) (SysOk 0) (SysOk 0) INFO.

(** [mount(2)] fails because the device does not exist. *)
Definition missing_device_world : World :=
  sample_world [] [] true (Some [userdata]) 0 (SysOk 0) (SysFail ENOENT) INFO.

(** The loop bind fails on every device. *)
Definition bind_fails_world : World :=
  sample_world [] [] true (Some [userdata]) 0 (SysFail 16) (SysOk 0) INFO.

(** The class core must not be started, and vold fails to start. *)
Definition gated_core_world : World :=
  sample_world ["core"] ["vold"] true (Some [userdata]) 0 (SysOk 0) (SysOk 0) INFO.

Definition failing_vold_world : World :=
  sample_world [] ["vold"] true (Some [userdata]) 0 (SysOk 0) (SysOk 0) INFO.

(** The keyring cannot be installed. *)
Definition no_keyring_world : World :=
  sample_world [] [] false (Some [userdata]) 0 (SysOk 0) (SysOk 0) INFO.

(** A process that has mounted a loop image but has not run
    [mount_all]. *)
Definition early_state : InitState :=
  {| initial_mount_fstab_return_code := -1; late_import_paths := ["/vendor/etc/init"];
     errno := ENXIO;
     trace := [ E_mount "/dev/block/loop2" "/mnt" "ext4" MS_RDONLY None ] |}.

(** The state after a [mount_all] that recorded [code]. *)
Definition recorded (code : Z) : InitState :=
  set_initial_mount_fstab_return_code code boot_state.

(** A device-mapper kernel that answers every request with success and
    reports the packed device number [raw]. *)
Definition dm_reports (raw : Z) : fs_mgr_dm.dm_kernel :=
  fun _ _ io =>
    (0, {| fs_mgr_dm.version := fs_mgr_dm.version io;
           fs_mgr_dm.data_size := fs_mgr_dm.data_size io;
           fs_mgr_dm.data_start := fs_mgr_dm.data_start io;
           fs_mgr_dm.dev := raw;
           fs_mgr_dm.name := fs_mgr_dm.name io |}).

End samples.

(** ** Vocabulary of the statements *)

Module expected.
Import init.

(** What [class_start] leaves in the trace for a list of services: one
    start call per service of the class, in list order, each failing
    call followed by its log line. *)
Definition class_start_trace (w : World) (classname : string) (services : list Service) : list Event :=
  services ≫= fun service =>
    if in_class classname service then
      E_StartIfNotDisabled (name service) ::
      match w_StartIfNotDisabled w service with
      | Err e =>
        [E_LOG ERROR ("Could not start service '" +:+ name service +:+
                      "' as part of class '" +:+ classname +:+ "': " +:+ error_message e)]
      | Ok _ => []
      end
    else [].

Definition dont_start_class (w : World) (classname : string) : bool :=
  w_GetBoolProperty w ("persist.init.dont_start_class." +:+ classname) false.

(** The events of the [if (userdata_remount)] block of the two FDE
    rows. *)
Definition fde_panic (userdata_remount : bool) : list Event :=
  if userdata_remount then
    [ E_LOG ERROR "Userdata remount is not supported on FDE devices. How did you get here?";
      E_TriggerShutdown "reboot,requested-userdata-remount-on-fde-device" ]
  else [].

(** The row of the three file-encryption outcomes: first the keyring
    (skipped on re-entry), then the two properties and the event. *)
Definition file_encrypted_row (w : World) (userdata_remount : bool) : Result unit * list Event :=
  let writes := [ E_property_set "ro.crypto.state" "encrypted";
                  E_property_set "ro.crypto.type" "file";
                  E_QueueEventTrigger "nonencrypted" ] in
  if userdata_remount then (Ok tt, writes)
  else if w_FscryptInstallKeyring w then (Ok tt, E_FscryptInstallKeyring :: writes)
  else (Err (Error "FscryptInstallKeyring() failed"), [E_FscryptInstallKeyring]).

(** The recovery row: refused inside a GSI; otherwise the bootloader
    message is written and, if that worked, shutdown is requested, by the
    in-process trigger in pid 1 and through sys.powerctl elsewhere. *)
Definition recovery_row (w : World) (s : InitState) : Result unit * list Event :=
  if w_IsGsiRunning w then (Err (Error "cannot wipe within GSI"), [])
  else
    let start :=
      [ E_LOG ERROR ("fs_mgr_mount_all suggested recovery, so wiping data via recovery."
                     +:+ ": " +:+ w_strerror w (errno s));
        E_LOG ERROR "Rebooting into recovery";
        E_write_bootloader_message ["--wipe_data"; "--reason=fs_mgr_mount_all"] ] in
    match w_write_bootloader_message w ["--wipe_data"; "--reason=fs_mgr_mount_all"] with
    | Some err => (Err (Error ("Failed to set bootloader message: " +:+ err)), start)
    | None =>
      (Ok tt, start ++ [ if w_getpid w =? 1 then E_TriggerShutdown "reboot,recovery"
                         else E_property_set "sys.powerctl" "reboot,recovery" ])
    end.

(** The re-entry claim as the specification words it: a remount_userdata
    run performs no mount, fires the shutdown trigger exactly once and
    writes no property before the trigger. *)
Definition reentry_escalates_without_mount (codes : MntAllCodes) (w : World) (s : InitState) : Prop :=
  let t := emitted (do_remount_userdata codes w ["remount_userdata"]) s in
  filter (fun e => is_mount e = true) t = []
  /\ length (filter (fun e => is_shutdown_trigger e = true) t) = 1%nat
  /\ filter (fun e => is_property_write e = true) (before_shutdown t) = [].

(** A token that is neither in the flag table nor the word wait. *)
Definition unmatched (t : string) : Prop :=
  find_mount_flag mount_flags t = None /\ t <> "wait".

(** The parsing claim as the specification words it: an unmatched token
    that is not the last argument makes the command fail. *)
Definition nonfinal_unmatched_is_error (w : World) (fuel : nat) (args : list string)
    (s : InitState) : Prop :=
  forall i t, (4 <= i)%nat -> args !! i = Some t -> unmatched t ->
              (i + 1 < length args)%nat ->
              exists e, fst (do_mount w fuel args s) = Some (Err e).

(** The three results of the argument loop of [do_mount], read off the
    tokens after the (type, source, target) triple: the OR of the flags
    of the tokens the table knows, whether wait occurs, and the last
    token when it is unmatched. *)
Definition flag_bits (tokens : list string) : Z :=
  fold_left Z.lor (omap (find_mount_flag mount_flags) tokens) 0.

Definition wait_given (tokens : list string) : bool :=
  existsb (fun a => String.eqb a "wait") tokens.

Definition option_string (tokens : list string) : option string :=
  match last tokens with
  | Some t => if bool_decide (unmatched t) then Some t else None
  | None => None
  end.

(** The arguments of a loop mount of the image [backing]. *)
Definition loop_args (system backing target : string) (rest : list string) : list string :=
  "mount" :: system :: ("loop@" +:+ backing) :: target :: rest.

(** The open mode [do_mount] derives from the parsed flags. *)
Definition loop_mode (args : list string) : Z :=
  if bool_decide (Z.land (flags (parse_mount_args args)) MS_RDONLY ≠ 0) then O_RDONLY else O_RDWR.

Definition opens (w : World) (path : string) (mode : Z) : Prop :=
  exists fd, w_open w path (Z.lor mode O_CLOEXEC) = SysOk fd.

(** A loop device with no backing file: its status query fails with
    ENXIO. *)
Definition unbound (w : World) (device : string) : Prop :=
  w_ioctl w device LOOP_GET_STATUS = SysFail ENXIO.

(** The events of looking at the [d] devices from number [n] on and
    passing each over. *)
Fixpoint passed_over (mode : Z) (n : N) (d : nat) : list Event :=
  match d with
  | O => []
  | S d' =>
    E_open (loop_device n) (Z.lor mode O_CLOEXEC) ::
    E_ioctl (loop_device n) LOOP_GET_STATUS ::
    passed_over mode (N.succ n) d'
  end.

(** No [mount(2)] on [device] is in the trace. *)
Definition no_mount_on (device : string) (t : list Event) : Prop :=
  forall target system fl opts, E_mount device target system fl opts ∉ t.

(** A command that neither reads nor writes the recorded outcome: it
    runs the same whatever value is stored and leaves that value in
    place. *)
Definition ignores_last_outcome {A} (m : M A) : Prop :=
  forall v s, m (set_initial_mount_fstab_return_code v s) =
              let '(r, s') := m s in (r, set_initial_mount_fstab_return_code v s').

(** A command that leaves the recorded outcome as it found it. *)
Definition keeps_last_outcome {A} (m : M A) : Prop :=
  forall s, initial_mount_fstab_return_code (snd (m s)) = initial_mount_fstab_return_code s.

(** Whether a [mount_all] invocation reaches the statement that records
    the outcome. *)
Definition records_outcome (w : World) (args : list string) : bool :=
  queue_event (parse_mount_all_args args) &&
  bool_decide (is_Some (w_ReadFstabFromFile w (arg args 1))).

(** A handler's result paired with the state it leaves, given the
    events it appends. *)
Definition appending {A} (row : Result A * list Event) (s : InitState) : Result A * InitState :=
  (fst row, add_events (snd row) s).

End expected.

(** ** init/builtins.cpp: further builtins *)

Module init_more.
Import init.

(** [*s >= '0' && *s <= '7'] *)
Definition is_octal_digit (c : Ascii.ascii) : bool :=
  (48 <=? Ascii.N_of_ascii c)%N && (Ascii.N_of_ascii c <=? 55)%N.

(** [*s - '0'] *)
Definition digit_value (c : Ascii.ascii) : Z := Z.of_N (Ascii.N_of_ascii c) - 48.

(** The loop of [get_mode] from the accumulator [mode] on.  [mode_t] is
    an unsigned type of [bits] bits (16 or 32 depending on the target);
    the loop ends at the terminating NUL of the C string, and a
    character that is not an octal digit returns [(mode_t)-1]. *)
Fixpoint get_mode_from (bits : Z) (mode : Z) (s : string) : Z :=
  match s with
  | EmptyString => mode
  | String c s' =>
    if (Ascii.N_of_ascii c =? 0)%N then mode
    else if is_octal_digit c then
      get_mode_from bits (Z.lor (Z.shiftl mode 3) (digit_value c) mod 2 ^ bits) s'
    else (-1) mod 2 ^ bits
  end.

Definition get_mode (bits : Z) (s : string) : Z := get_mode_from bits 0 s.

(** The [switch] of [do_loglevel]. *)
Definition loglevel_severity (log_level : Z) : option LogSeverity :=
  match log_level with
  | 7 => Some DEBUG
  | 6 => Some INFO
  | 5 | 4 => Some WARNING
  | 3 => Some ERROR
  | 2 | 1 | 0 => Some FATAL
  | _ => None
  end.

(** [do_loglevel], with the process's minimum log severity passed in
    and out.  [ParseInt] is android-base's parser ([None]: the text is
    not an [int], and [log_level] keeps its initial -1). *)
Definition do_loglevel (ParseInt : string -> option Z) (args : list string)
    (minimum : LogSeverity) : Result unit * LogSeverity :=
  let log_level := default (-1) (ParseInt (arg args 1)) in
  match loglevel_severity log_level with
  | Some severity => (Ok tt, severity)
  | None => (Err (Error ("invalid log level " +:+ pretty log_level)), minimum)
  end.



(** A system call that the trace does not record: [errno] is set when
    it fails. *)
Definition answer (r : SysResult) : M Z :=
  match r with
  | SysOk v => mret (Z.of_N v)
  | SysFail err => modify (set_errno err);; mret (-1)
  end.

(** [do_chmod]; [fchmodat path mode] is the answer of
    [fchmodat(AT_FDCWD, path, mode, AT_SYMLINK_NOFOLLOW)]. *)
Definition do_chmod (w : World) (bits : Z) (fchmodat : string -> Z -> SysResult)
    (args : list string) : M (Result unit) :=
  let mode := get_mode bits (arg args 1) in
  r ← answer (fchmodat (arg args 2) mode);
  if r <? 0 then ErrnoErrorIgnoreEnoent w "fchmodat() failed"
  else mret (Ok tt).

End init_more.

(** ** Further sample instances *)

Module more_samples.
Import init samples.

(** [w] with another answer to [open(2)]. *)
Definition with_open (open : string -> Z -> SysResult) (w : World) : World :=
  {| w_strerror := w_strerror w;
     w_GetMinimumLogSeverity := w_GetMinimumLogSeverity w;
     w_GetBoolProperty := w_GetBoolProperty w;
     w_getpid := w_getpid w;
     w_IsGsiRunning := w_IsGsiRunning w;
     w_FscryptInstallKeyring := w_FscryptInstallKeyring w;
     w_write_bootloader_message := w_write_bootloader_message w;
     w_open := open;
     w_ioctl := w_ioctl w;
     w_mount := w_mount w;
     w_services := w_services w;
     w_StartIfNotDisabled := w_StartIfNotDisabled w;
     w_ReadFstabFromFile := w_ReadFstabFromFile w;
     w_ReadDefaultFstab := w_ReadDefaultFstab w;
     w_fs_mgr_mount_all := w_fs_mgr_mount_all w;
     w_fs_mgr_remount_userdata_into_checkpointing :=
       w_fs_mgr_remount_userdata_into_checkpointing w;
     w_timer_duration := w_timer_duration w;
     w_SelinuxGetVendorAndroidVersion := w_SelinuxGetVendorAndroidVersion w |}.

(** [w] with other answers to the loop ioctls. *)
Definition with_ioctl (ioctl : string -> LoopRequest -> SysResult) (w : World) : World :=
  {| w_strerror := w_strerror w;
     w_GetMinimumLogSeverity := w_GetMinimumLogSeverity w;
     w_GetBoolProperty := w_GetBoolProperty w;
     w_getpid := w_getpid w;
     w_IsGsiRunning := w_IsGsiRunning w;
     w_FscryptInstallKeyring := w_FscryptInstallKeyring w;
     w_write_bootloader_message := w_write_bootloader_message w;
     w_open := w_open w;
     w_ioctl := ioctl;
     w_mount := w_mount w;
     w_services := w_services w;
     w_StartIfNotDisabled := w_StartIfNotDisabled w;
     w_ReadFstabFromFile := w_ReadFstabFromFile w;
     w_ReadDefaultFstab := w_ReadDefaultFstab w;
     w_fs_mgr_mount_all := w_fs_mgr_mount_all w;
     w_fs_mgr_remount_userdata_into_checkpointing :=
       w_fs_mgr_remount_userdata_into_checkpointing w;
     w_timer_duration := w_timer_duration w;
     w_SelinuxGetVendorAndroidVersion := w_SelinuxGetVendorAndroidVersion w |}.

(** The image of the loop mount does not exist. *)
Definition no_image_world : World :=
  with_open (fun path _ => if String.eqb path "/system/app.img" then SysFail ENOENT else SysOk 3)
    fair_world.

(** Two bound loop devices, a third that refuses the bind, and no
    device node beyond it. *)
Definition three_nodes_world : World :=
  with_open (fun path _ => if String.eqb path "/dev/block/loop3" then SysFail ENOENT else SysOk 3)
    bind_fails_world.

(** loop0 is bound, loop1 is unbound but refuses the bind (EBUSY), the
    devices from loop2 on are unbound and accept it; unbinding fails
    with ENXIO. *)
Definition picky_ioctl (device : string) (request : LoopRequest) : SysResult :=
  match request with
  | LOOP_GET_STATUS => if String.eqb device "/dev/block/loop0" then SysOk 0 else SysFail ENXIO
  | LOOP_SET_FD => if String.eqb device "/dev/block/loop1" then SysFail 16 else SysOk 0
  | LOOP_CLR_FD => SysFail ENXIO
  end.

(** The picky loop driver, on a device where [mount(2)] fails with
    EINVAL. *)
Definition picky_world : World :=
  with_ioctl picky_ioctl
    (sample_world [] [] true (Some [userdata]) 0 (SysOk 0) (SysFail 22) INFO).

(** [w] with another return code of [fs_mgr_mount_all]. *)
Definition with_mount_all (rc : Z) (w : World) : World :=
  {| w_strerror := w_strerror w;
     w_GetMinimumLogSeverity := w_GetMinimumLogSeverity w;
     w_GetBoolProperty := w_GetBoolProperty w;
     w_getpid := w_getpid w;
     w_IsGsiRunning := w_IsGsiRunning w;
     w_FscryptInstallKeyring := w_FscryptInstallKeyring w;
     w_write_bootloader_message := w_write_bootloader_message w;
     w_open := w_open w;
     w_ioctl := w_ioctl w;
     w_mount := w_mount w;
     w_services := w_services w;
     w_StartIfNotDisabled := w_StartIfNotDisabled w;
     w_ReadFstabFromFile := w_ReadFstabFromFile w;
     w_ReadDefaultFstab := w_ReadDefaultFstab w;
     w_fs_mgr_mount_all := fun _ _ => rc;
     w_fs_mgr_remount_userdata_into_checkpointing :=
       w_fs_mgr_remount_userdata_into_checkpointing w;
     w_timer_duration := w_timer_duration w;
     w_SelinuxGetVendorAndroidVersion := w_SelinuxGetVendorAndroidVersion w |}.

(** [fs_mgr_mount_all] fails. *)
Definition mount_all_fails_world : World := with_mount_all (-1) fair_world.

(** [fs_mgr_mount_all] finds file-based encryption. *)
Definition file_encrypted_world : World := with_mount_all 5 fair_world.

(** [w] with another minimum log severity. *)
Definition with_min_severity (severity : LogSeverity) (w : World) : World :=
  {| w_strerror := w_strerror w;
     w_GetMinimumLogSeverity := severity;
     w_GetBoolProperty := w_GetBoolProperty w;
     w_getpid := w_getpid w;
     w_IsGsiRunning := w_IsGsiRunning w;
     w_FscryptInstallKeyring := w_FscryptInstallKeyring w;
     w_write_bootloader_message := w_write_bootloader_message w;
     w_open := w_open w;
     w_ioctl := w_ioctl w;
     w_mount := w_mount w;
     w_services := w_services w;
     w_StartIfNotDisabled := w_StartIfNotDisabled w;
     w_ReadFstabFromFile := w_ReadFstabFromFile w;
     w_ReadDefaultFstab := w_ReadDefaultFstab w;
     w_fs_mgr_mount_all := w_fs_mgr_mount_all w;
     w_fs_mgr_remount_userdata_into_checkpointing :=
       w_fs_mgr_remount_userdata_into_checkpointing w;
     w_timer_duration := w_timer_duration w;
     w_SelinuxGetVendorAndroidVersion := w_SelinuxGetVendorAndroidVersion w |}.

(** A decimal parser for the texts "0" to "9", enough for the log
    levels. *)
Definition parse_digit (text : string) : option Z :=
  match text with
  | String c EmptyString =>
    if (48 <=? Ascii.N_of_ascii c)%N && (Ascii.N_of_ascii c <=? 57)%N
    then Some (Z.of_N (Ascii.N_of_ascii c) - 48) else None
  | _ => None
  end.

End more_samples.

(** ** Vocabulary of the further statements *)

Module further.
Import init expected.

(** The events of one turn of the loop scan on a device that is looked
    at and left: the open, the status query and, on an unbound device,
    the bind attempt. *)
Definition turn_events (w : World) (mode : Z) (n : N) : list Event :=
  E_open (loop_device n) (Z.lor mode O_CLOEXEC) ::
  E_ioctl (loop_device n) LOOP_GET_STATUS ::
  match w_ioctl w (loop_device n) LOOP_GET_STATUS with
  | SysFail e => if e =? ENXIO then [E_ioctl (loop_device n) LOOP_SET_FD] else []
  | SysOk _ => []
  end.

(** The events of leaving the [d] devices from number [n] on. *)
Fixpoint left_behind (w : World) (mode : Z) (n : N) (d : nat) : list Event :=
  match d with
  | O => []
  | S d' => turn_events w mode n ++ left_behind w mode (N.succ n) d'
  end.

(** A device the scan looks at and leaves: it opens, and if it is
    unbound it refuses the bind. *)
Definition left (w : World) (mode : Z) (device : string) : Prop :=
  opens w device mode /\
  (unbound w device -> exists e, w_ioctl w device LOOP_SET_FD = SysFail e).

(** The events the loop branch of [do_mount] can produce. *)
Definition is_loop_event (e : Event) : bool :=
  match e with
  | E_open _ _ | E_ioctl _ _ | E_mount _ _ _ _ _ => true
  | _ => false
  end.

(** A property write, a queued event or a shutdown request. *)
Definition is_visible_effect (e : Event) : bool :=
  is_property_write e || is_event_trigger e || is_shutdown_trigger e.

(** The request that ends a successful recovery row. *)
Definition is_reboot_request (e : Event) : bool :=
  match e with
  | E_TriggerShutdown "reboot,recovery" => true
  | E_property_set "sys.powerctl" "reboot,recovery" => true
  | _ => false
  end.

(** The three events the state machine queues. *)
Definition is_fs_trigger (e : Event) : bool :=
  match e with
  | E_QueueEventTrigger "encrypt" => true
  | E_QueueEventTrigger "defaultcrypto" => true
  | E_QueueEventTrigger "nonencrypted" => true
  | _ => false
  end.

(** An option of [mount_all]. *)
Definition is_mount_all_option (a : string) : Prop := a = "--early" \/ a = "--late".

(** The paths [args[start]], ..., [args[end - 1]]. *)
Definition args_range (args : list string) (start_index end_index : nat) : list string :=
  arg args <$> seq start_index (end_index - start_index).

(** The configuration files a [mount_all] invocation imports: none when
    --late is given or the vendor is newer than Q, otherwise the paths
    before the first option or, when there are none, the queued
    paths. *)
Definition imported (w : World) (args : list string) (s : InitState) : list string :=
  if import_rc (parse_mount_all_args args) &&
     (w_SelinuxGetVendorAndroidVersion w <=? __ANDROID_API_Q__)
  then
    if (path_arg_end (parse_mount_all_args args) <=? 2)%nat then late_import_paths s
    else args_range args 2 (path_arg_end (parse_mount_all_args args))
  else [].

Definition is_keyring_install (e : Event) : bool :=
  match e with E_FscryptInstallKeyring => true | _ => false end.

(** Number of keyring installations in a trace. *)
Definition keyring_installs (t : list Event) : nat :=
  length (filter (fun e => is_keyring_install e = true) t).

(** The state [mount_all] reaches before it looks at the outcome: the
    mount, the boot-time property and the imports are in the trace, and
    the queue of late paths is empty if it was the source of the
    imports. *)
Definition mounted_and_imported (w : World) (args : list string) (fstab : Fstab)
    (s : InitState) : InitState :=
  let parsed := parse_mount_all_args args in
  let s1 :=
    add_events
      ([ E_fs_mgr_mount_all fstab (mount_mode parsed);
         E_property_set ("ro.boottime.init.mount_all." +:+ prop_post_fix parsed)
           (pretty (w_timer_duration w)) ] ++
       (E_ParseConfig <$> imported w args s)) s in
  if import_rc parsed && (w_SelinuxGetVendorAndroidVersion w <=? __ANDROID_API_Q__) &&
     (path_arg_end parsed <=? 2)%nat
  then set_late_import_paths [] s1 else s1.

(** The kernel's packing of a device number into the 64-bit [dev] field
    ([huge_encode_dev] of linux/kdev_t.h): the low byte of the minor,
    the major from bit 8, the rest of the minor from bit 20. *)
Definition huge_encode_dev (major minor : Z) : Z :=
  Z.lor (Z.lor (Z.land minor 0xff) (Z.shiftl major 8))
        (Z.shiftl (Z.land minor (Z.lnot 0xff)) 12).

(** The value of a text read as an octal numeral. *)
Definition octal_value (s : string) : Z :=
  fold_left (fun acc c => 8 * acc + init_more.digit_value c) (String.list_ascii_of_string s) 0.

Definition all_octal (s : string) : Prop :=
  Forall (fun c => init_more.is_octal_digit c = true) (String.list_ascii_of_string s).

End further.

(** * Properties *)

(** ** Device-mapper device names *)

Section dm_facts.
Import fs_mgr_dm.

Lemma spec_dev_num_range (raw : Z) : 0 <= spec_dev_num raw < 2 ^ 20.
Proof.
  set (x := spec_dev_num raw).
  assert (Hx : x = x mod 2 ^ 20).
  { rewrite <- Z.land_ones by lia.
    apply Z.bits_inj'; intros n Hn.
    rewrite Z.land_spec.
    destruct (Z.ltb_spec n 20) as [Hlt | Hge].
    - rewrite Z.ones_spec_low by lia. by rewrite andb_true_r.
    - rewrite Z.ones_spec_high by lia. rewrite andb_false_r.
      unfold x, spec_dev_num.
      rewrite Z.lor_spec, !Z.land_spec.
      rewrite (Z.bits_above_log2 0xff n), (Z.bits_above_log2 0xfff00 n);
        [ by rewrite !andb_false_r | lia | simpl; lia | lia | simpl; lia ]. }
  rewrite Hx. apply Z.mod_pos_bound. lia.
Qed.

Lemma dev_num_of_spec (raw : Z) : dev_num_of raw = spec_dev_num raw.
Proof.
  pose proof (spec_dev_num_range raw) as H.
  unfold dev_num_of, to_int32. fold (spec_dev_num raw).
  rewrite Z.mod_small; lia.
Qed.

(** C9: whenever the status query succeeds and leaves the packed number
    [raw] in the control block, [fs_mgr_dm_get_device_name] returns true
    and stores "/dev/block/dm-" followed by the decimal form of
    [(raw & 0xff) | ((raw >> 12) & 0xfff00)]; the conversion to [int]
    never wraps, and 0x1234 decodes to 52. *)
Theorem get_device_name_decodes (k : dm_kernel) (nm : string) (fd raw : Z) (io' : dm_ioctl) :
  k fd DM_DEV_STATUS (fs_mgr_dm_ioctl_init sizeof_dm_ioctl nm) = (0, io') ->
  dev io' = raw ->
  fs_mgr_dm_get_device_name k nm fd =
    {| dm_ret := true;
       dm_out_dev_name := Some ("/dev/block/dm-" +:+ pretty (spec_dev_num raw));
       dm_perror := [] |}
  /\ (raw = 0x1234 ->
      spec_dev_num raw = 52 /\
      dm_out_dev_name (fs_mgr_dm_get_device_name k nm fd) = Some "/dev/block/dm-52").
Proof.
  intros Hk Hdev.
  assert (Hrun : fs_mgr_dm_get_device_name k nm fd =
    {| dm_ret := true;
       dm_out_dev_name := Some ("/dev/block/dm-" +:+ pretty (spec_dev_num raw));
       dm_perror := [] |}).
  { unfold fs_mgr_dm_get_device_name. rewrite Hk. simpl.
    by rewrite Hdev, dev_num_of_spec. }
  split; [exact Hrun |].
  intros ->. rewrite Hrun. split; reflexivity.
Qed.

Lemma get_device_name_decodes_witness :
  fs_mgr_dm_get_device_name (samples.dm_reports 0x1234) "system" 3 =
    {| dm_ret := true;
       dm_out_dev_name := Some ("/dev/block/dm-" +:+ pretty (spec_dev_num 0x1234));
       dm_perror := [] |}
  /\ (0x1234 = 0x1234 ->
      spec_dev_num 0x1234 = 52 /\
      dm_out_dev_name (fs_mgr_dm_get_device_name (samples.dm_reports 0x1234) "system" 3)
        = Some "/dev/block/dm-52").
Proof.
  apply (get_device_name_decodes (samples.dm_reports 0x1234) "system" 3 0x1234
           (snd (samples.dm_reports 0x1234 3 DM_DEV_STATUS
                   (fs_mgr_dm_ioctl_init sizeof_dm_ioctl "system"))));
    reflexivity.
Defined.

End dm_facts.

(** ** The command monad *)

Section monad_facts.
Import init.

Lemma add_events_nil (s : InitState) : add_events [] s = s.
Proof. destruct s; unfold add_events; simpl. by rewrite app_nil_r. Qed.

Lemma add_events_app (l1 l2 : list Event) (s : InitState) :
  add_events l2 (add_events l1 s) = add_events (l1 ++ l2) s.
Proof. unfold add_events; simpl. by rewrite app_assoc. Qed.

Lemma add_event_events (e : Event) (s : InitState) : add_event e s = add_events [e] s.
Proof. reflexivity. Qed.

Lemma add_events_cons (e : Event) (l : list Event) (s : InitState) :
  add_events (e :: l) s = add_events l (add_event e s).
Proof. by rewrite add_event_events, add_events_app. Qed.

Lemma emitted_add_events {A} (m : M A) (s : InitState) (r : A) (l : list Event) :
  m s = (r, add_events l s) -> emitted m s = l.
Proof.
  intros H. unfold emitted. rewrite H. simpl. by rewrite drop_app_length.
Qed.

End monad_facts.

(** Unfolds the monadic plumbing of a goal. *)
Ltac run :=
  unfold mbind, mret, init.M_bind, init.M_ret, init.when, init.LOG, init.property_set,
    init.QueueEventTrigger, init.TriggerShutdown, init.emit, init.get, init.modify in *;
  simpl.

(** ** Service classes *)

Section class_facts.
Import init expected.

Lemma class_start_trace_cons (w : World) (classname : string) (service : Service)
    (services : list Service) :
  class_start_trace w classname (service :: services) =
  class_start_trace w classname [service] ++ class_start_trace w classname services.
Proof. unfold class_start_trace. simpl. by rewrite app_nil_r. Qed.

Lemma class_start_loop (w : World) (classname : string) (services : list Service) (s : InitState) :
  for_each services (fun service =>
      when (in_class classname service)
        (result ← Service_StartIfNotDisabled w service;
         match result with
         | Err e =>
           LOG ERROR ("Could not start service '" +:+ name service +:+
                      "' as part of class '" +:+ classname +:+ "': " +:+ error_message e)
         | Ok _ => mret tt
         end)) s
  = (tt, add_events (class_start_trace w classname services) s).
Proof.
  revert s. induction services as [| service services IH]; intros s.
  - simpl. by rewrite add_events_nil.
  - rewrite class_start_trace_cons. unfold class_start_trace at 1. simpl.
    unfold Service_StartIfNotDisabled in *.
    destruct (in_class classname service); run.
    + destruct (w_StartIfNotDisabled w service) as [u | e]; run;
        rewrite IH, !add_event_events, !add_events_app; reflexivity.
    + rewrite IH. reflexivity.
Qed.

Lemma class_start_calls (w : World) (classname : string) (services : list Service) :
  filter (fun e => is_start_call e = true) (class_start_trace w classname services)
  = (fun service => E_StartIfNotDisabled (name service)) <$>
      filter (fun service => classname ∈ classnames service) services.
Proof.
  induction services as [| service services IH]; [reflexivity |].
  rewrite class_start_trace_cons, filter_app, IH, filter_cons.
  unfold class_start_trace, in_class. simpl.
  case_bool_decide; case_decide; try done.
  destruct (w_StartIfNotDisabled w service); reflexivity.
Qed.

Lemma class_start_logs (w : World) (classname : string) (services : list Service)
    (service : Service) (e : ResultError) :
  service ∈ services ->
  classname ∈ classnames service ->
  w_StartIfNotDisabled w service = Err e ->
  E_LOG ERROR ("Could not start service '" +:+ name service +:+
               "' as part of class '" +:+ classname +:+ "': " +:+ error_message e)
    ∈ class_start_trace w classname services.
Proof.
  intros Hin Hclass Hfail. unfold class_start_trace.
  apply list_elem_of_bind. exists service. split; [| done].
  unfold in_class. rewrite bool_decide_eq_true_2 by done.
  rewrite Hfail. set_solver.
Qed.

(** C7: with the do-not-start property of the class set, [class_start]
    returns success and leaves the state as it was (no start call);
    with it unset, it returns success after one [StartIfNotDisabled]
    call for every service whose class set contains the class, in list
    order, whatever the individual calls answer, and every failing call
    is logged. *)
Theorem class_start_gate (w : World) (classname : string) (s : InitState) :
  do_class_start w ["class_start"; classname] s =
    (Ok tt, if dont_start_class w classname then s
            else add_events (class_start_trace w classname (w_services w)) s)
  /\ filter (fun e => is_start_call e = true) (class_start_trace w classname (w_services w))
     = (fun service => E_StartIfNotDisabled (name service)) <$>
         filter (fun service => classname ∈ classnames service) (w_services w)
  /\ forall service e,
       service ∈ w_services w ->
       classname ∈ classnames service ->
       w_StartIfNotDisabled w service = Err e ->
       E_LOG ERROR ("Could not start service '" +:+ name service +:+
                    "' as part of class '" +:+ classname +:+ "': " +:+ error_message e)
         ∈ class_start_trace w classname (w_services w).
Proof.
  split; [| split].
  - unfold do_class_start, dont_start_class. simpl.
    destruct (w_GetBoolProperty w _ false); [reflexivity |].
    unfold mbind at 1, M_bind. by rewrite class_start_loop.
  - apply class_start_calls.
  - intros service e. apply class_start_logs.
Qed.

Lemma class_restart_loop (w : World) (classname : string) (services : list Service) (s : InitState) :
  for_each services (fun service =>
      when (in_class classname service) (Service_Restart service)) s
  = (tt, add_events ((fun service => E_Restart (name service)) <$>
                       filter (fun service => classname ∈ classnames service) services) s).
Proof.
  revert s. induction services as [| service services IH]; intros s.
  - simpl. by rewrite add_events_nil.
  - rewrite filter_cons. cbn [for_each]. unfold Service_Restart in *.
    destruct (decide (classname ∈ classnames service)) as [Hin | Hout].
    + assert (in_class classname service = true) as ->
        by (by apply bool_decide_eq_true_2).
      run. by rewrite IH, add_events_cons.
    + assert (in_class classname service = false) as ->
        by (by apply bool_decide_eq_false_2).
      run. by rewrite IH.
Qed.

(** C10: [class_restart] consults the same do-not-start property: with
    it set the command returns success and leaves the state as it was
    (no restart call); otherwise every service of the class is
    restarted. *)
Theorem class_restart_gate (w : World) (classname : string) (s : InitState) :
  do_class_restart w ["class_restart"; classname] s =
    (Ok tt, if dont_start_class w classname then s
            else add_events ((fun service => E_Restart (name service)) <$>
                   filter (fun service => classname ∈ classnames service) (w_services w)) s).
Proof.
  unfold do_class_restart, dont_start_class, ForEachServiceInClass. simpl.
  destruct (w_GetBoolProperty w _ false); [reflexivity |].
  unfold mbind at 1, M_bind. by rewrite class_restart_loop.
Qed.

Lemma class_start_gate_witness :
  do_class_start samples.gated_core_world ["class_start"; "core"] boot_state = (Ok tt, boot_state)
  /\ do_class_start samples.failing_vold_world ["class_start"; "core"] boot_state =
     (Ok tt, add_events
        [ E_StartIfNotDisabled "logd";
          E_StartIfNotDisabled "vold";
          E_LOG ERROR ("Could not start service 'vold' as part of class 'core': " +:+
                       "Cannot start: service is already running");
          E_StartIfNotDisabled "servicemanager" ] boot_state).
Proof.
  split.
  - exact (proj1 (class_start_gate samples.gated_core_world "core" boot_state)).
  - exact (proj1 (class_start_gate samples.failing_vold_world "core" boot_state)).
Defined.

Lemma class_restart_gate_witness :
  do_class_restart samples.gated_core_world ["class_restart"; "core"] boot_state =
    (Ok tt, boot_state).
Proof.
  exact (class_restart_gate samples.gated_core_world "core" boot_state).
Defined.

End class_facts.

(** ** The encryption state machine *)

Section state_machine_facts.
Import init expected.

Lemma codes_wf_distinct (codes : MntAllCodes) :
  codes_wf codes ->
  NoDup (enumerated_codes codes) /\ (forall c, c ∈ enumerated_codes codes -> c <> -1).
Proof.
  intros [Hnd Hpos]. split; [done |].
  intros c Hc. rewrite Forall_forall in Hpos. specialize (Hpos c Hc). lia.
Qed.

End state_machine_facts.

(** Breaks the well-formedness of the codes into the disequalities the
    tests of [queue_fs_event] need. *)
Ltac split_codes codes H :=
  destruct codes as [c_ne c_mbe c_nen c_nea c_rec c_fe c_ime c_nme];
  destruct H as [Hnodup Hnonneg];
  unfold init.enumerated_codes in Hnodup, Hnonneg; simpl in Hnodup, Hnonneg;
  rewrite !NoDup_cons, !not_elem_of_cons in Hnodup;
  clear Hnonneg; destruct_and?.

(** Settles the code tests of a goal from the facts at hand. *)
Ltac decide_tests :=
  repeat match goal with
         | |- context [Z.eqb ?a ?b] =>
           destruct (Z.eqb_spec a b); [try (exfalso; congruence) | try (exfalso; congruence)]
         end.

(** Closes a goal that compares the state a run leaves with a list of
    appended events. *)
Ltac same_state :=
  unfold init.add_events, init.add_event, init.set_errno; simpl;
  rewrite <- ?app_assoc; simpl; try reflexivity.

Section state_machine_rows.
Import init expected.

Lemma fde_remount_panic_run (userdata_remount : bool) (s : InitState) :
  fde_remount_panic userdata_remount s = (tt, add_events (fde_panic userdata_remount) s).
Proof.
  unfold fde_remount_panic, fde_panic. destruct userdata_remount; run.
  - f_equal. same_state.
  - by rewrite add_events_nil.
Qed.

Lemma file_encrypted_branch_run (w : World) (userdata_remount : bool) (s : InitState) :
  file_encrypted_branch w userdata_remount s
  = appending (file_encrypted_row w userdata_remount) s.
Proof.
  unfold file_encrypted_branch, keyring_missing, FscryptInstallKeyring,
    file_encrypted_row, appending.
  destruct userdata_remount; run.
  - f_equal. same_state.
  - destruct (w_FscryptInstallKeyring w); simpl; f_equal; same_state.
Qed.

Lemma recovery_branch_run (w : World) (s : InitState) :
  (if w_IsGsiRunning w then mret (Err (Error "cannot wipe within GSI"))
   else
     PLOG w ERROR "fs_mgr_mount_all suggested recovery, so wiping data via recovery.";;
     reboot_into_recovery w ["--wipe_data"; "--reason=fs_mgr_mount_all"]) s
  = appending (recovery_row w s) s.
Proof.
  unfold recovery_row, appending, PLOG, reboot_into_recovery.
  destruct (w_IsGsiRunning w); run.
  - by rewrite add_events_nil.
  - destruct (w_write_bootloader_message w _) as [err |]; simpl.
    + f_equal. same_state.
    + destruct (w_getpid w =? 1); simpl; f_equal; same_state.
Qed.

Lemma needs_encryption_row (codes : MntAllCodes) (w : World) (userdata_remount : bool)
    (s : InitState) :
  queue_fs_event codes w (FS_MGR_MNTALL_DEV_NEEDS_ENCRYPTION codes) userdata_remount s =
    (Ok tt, add_events (fde_panic userdata_remount ++ [E_QueueEventTrigger "encrypt"]) s).
Proof.
  unfold queue_fs_event. rewrite Z.eqb_refl. run. rewrite fde_remount_panic_run.
  f_equal. by rewrite !add_event_events, !add_events_app.
Qed.

(** C1: the outcome table of [queue_fs_event].  For codes that are
    pairwise distinct and non-negative, each of the eight enumerated
    outcomes produces exactly the property writes and the event of its
    row (the two FDE rows after the shutdown request of a re-entry, the
    three file-encryption rows after the keyring, the recovery row with
    no crypto property and no event), and every other code, negative or
    positive, returns the error "Invalid code: <code>" and leaves the
    state as it was. *)
Theorem queue_fs_event_table (codes : MntAllCodes) (w : World) (code : Z)
    (userdata_remount : bool) (s : InitState) :
  codes_wf codes ->
  (code = FS_MGR_MNTALL_DEV_NEEDS_ENCRYPTION codes ->
   queue_fs_event codes w code userdata_remount s =
     (Ok tt, add_events (fde_panic userdata_remount ++
                         [E_QueueEventTrigger "encrypt"]) s))
  /\ (code = FS_MGR_MNTALL_DEV_MIGHT_BE_ENCRYPTED codes ->
      queue_fs_event codes w code userdata_remount s =
        (Ok tt, add_events (fde_panic userdata_remount ++
                            [E_property_set "ro.crypto.state" "encrypted";
                             E_property_set "ro.crypto.type" "block";
                             E_QueueEventTrigger "defaultcrypto"]) s))
  /\ (code = FS_MGR_MNTALL_DEV_NOT_ENCRYPTED codes ->
      queue_fs_event codes w code userdata_remount s =
        (Ok tt, add_events [E_property_set "ro.crypto.state" "unencrypted";
                            E_QueueEventTrigger "nonencrypted"] s))
  /\ (code = FS_MGR_MNTALL_DEV_NOT_ENCRYPTABLE codes ->
      queue_fs_event codes w code userdata_remount s =
        (Ok tt, add_events [E_property_set "ro.crypto.state" "unsupported";
                            E_QueueEventTrigger "nonencrypted"] s))
  /\ (code = FS_MGR_MNTALL_DEV_NEEDS_RECOVERY codes ->
      queue_fs_event codes w code userdata_remount s = appending (recovery_row w s) s)
  /\ (code = FS_MGR_MNTALL_DEV_FILE_ENCRYPTED codes \/
      code = FS_MGR_MNTALL_DEV_IS_METADATA_ENCRYPTED codes \/
      code = FS_MGR_MNTALL_DEV_NEEDS_METADATA_ENCRYPTION codes ->
      queue_fs_event codes w code userdata_remount s =
        appending (file_encrypted_row w userdata_remount) s)
  /\ (code ∉ enumerated_codes codes ->
      queue_fs_event codes w code userdata_remount s =
        (Err (Error ("Invalid code: " +:+ pretty code)), s)).
Proof.
  intros Hwf. split_codes codes Hwf.
  pose proof (recovery_branch_run w s) as Hrec.
  pose proof (file_encrypted_branch_run w userdata_remount s) as Hfile.
  unfold queue_fs_event; simpl.
  repeat split.
  - intros ->. apply (needs_encryption_row
      {| FS_MGR_MNTALL_DEV_NEEDS_ENCRYPTION := c_ne;
         FS_MGR_MNTALL_DEV_MIGHT_BE_ENCRYPTED := c_mbe;
         FS_MGR_MNTALL_DEV_NOT_ENCRYPTED := c_nen;
         FS_MGR_MNTALL_DEV_NOT_ENCRYPTABLE := c_nea;
         FS_MGR_MNTALL_DEV_NEEDS_RECOVERY := c_rec;
         FS_MGR_MNTALL_DEV_FILE_ENCRYPTED := c_fe;
         FS_MGR_MNTALL_DEV_IS_METADATA_ENCRYPTED := c_ime;
         FS_MGR_MNTALL_DEV_NEEDS_METADATA_ENCRYPTION := c_nme |}).
  - intros ->. decide_tests. run. rewrite fde_remount_panic_run.
    f_equal. rewrite !add_event_events, !add_events_app. done.
  - intros ->. decide_tests. run. f_equal. same_state.
  - intros ->. decide_tests. run. f_equal. same_state.
  - intros ->. decide_tests. exact Hrec.
  - intros [-> | [-> | ->]]; decide_tests; exact Hfile.
  - unfold enumerated_codes; simpl. rewrite !not_elem_of_cons.
    intros Hout. destruct_and?. decide_tests. reflexivity.
Qed.

End state_machine_rows.

Section state_machine_claims.
Import init expected samples.

Lemma fs_mgr_h_wf : codes_wf fs_mgr_h.
Proof.
  split.
  - unfold enumerated_codes; simpl.
    rewrite !NoDup_cons, !not_elem_of_cons.
    repeat split; try discriminate; try apply not_elem_of_nil. apply NoDup_nil_2.
  - unfold enumerated_codes; simpl. repeat constructor; lia.
Qed.

Lemma queue_fs_event_table_witness :
  codes_wf fs_mgr_h /\
  queue_fs_event fs_mgr_h fair_world 2 false boot_state =
    (Ok tt, add_events [E_property_set "ro.crypto.state" "encrypted";
                        E_property_set "ro.crypto.type" "block";
                        E_QueueEventTrigger "defaultcrypto"] boot_state).
Proof.
  split; [exact fs_mgr_h_wf |].
  apply (queue_fs_event_table fs_mgr_h fair_world 2 false boot_state fs_mgr_h_wf).
  reflexivity.
Defined.

(** C5: for the three file-encryption outcomes the keyring is installed
    before anything else, except on a re-entry, where it is not
    installed at all; when the installation fails the handler returns
    the error "FscryptInstallKeyring() failed" and nothing follows the
    installation attempt: no property is written and no event queued. *)
Theorem keyring_installed_first (codes : MntAllCodes) (w : World) (code : Z)
    (userdata_remount : bool) (s : InitState) :
  codes_wf codes ->
  code ∈ [ FS_MGR_MNTALL_DEV_FILE_ENCRYPTED codes;
           FS_MGR_MNTALL_DEV_IS_METADATA_ENCRYPTED codes;
           FS_MGR_MNTALL_DEV_NEEDS_METADATA_ENCRYPTION codes ] ->
  queue_fs_event codes w code userdata_remount s =
    if userdata_remount then
      (Ok tt, add_events [ E_property_set "ro.crypto.state" "encrypted";
                           E_property_set "ro.crypto.type" "file";
                           E_QueueEventTrigger "nonencrypted" ] s)
    else if w_FscryptInstallKeyring w then
      (Ok tt, add_events [ E_FscryptInstallKeyring;
                           E_property_set "ro.crypto.state" "encrypted";
                           E_property_set "ro.crypto.type" "file";
                           E_QueueEventTrigger "nonencrypted" ] s)
    else
      (Err (Error "FscryptInstallKeyring() failed"), add_events [E_FscryptInstallKeyring] s).
Proof.
  intros Hwf Hcode.
  pose proof (file_encrypted_branch_run w userdata_remount s) as Hfile.
  assert (Hrow : queue_fs_event codes w code userdata_remount s =
                 appending (file_encrypted_row w userdata_remount) s).
  { split_codes codes Hwf. simpl in Hcode.
    rewrite !elem_of_cons, elem_of_nil in Hcode.
    unfold queue_fs_event; simpl.
    destruct Hcode as [-> | [-> | [-> | []]]]; decide_tests; exact Hfile. }
  rewrite Hrow. unfold appending, file_encrypted_row.
  destruct userdata_remount; [reflexivity |].
  destruct (w_FscryptInstallKeyring w); reflexivity.
Qed.

Lemma keyring_installed_first_witness :
  codes_wf fs_mgr_h /\
  5 ∈ [ FS_MGR_MNTALL_DEV_FILE_ENCRYPTED fs_mgr_h;
        FS_MGR_MNTALL_DEV_IS_METADATA_ENCRYPTED fs_mgr_h;
        FS_MGR_MNTALL_DEV_NEEDS_METADATA_ENCRYPTION fs_mgr_h ] /\
  queue_fs_event fs_mgr_h no_keyring_world 5 false boot_state =
    (Err (Error "FscryptInstallKeyring() failed"),
     add_events [E_FscryptInstallKeyring] boot_state).
Proof.
  assert (Hin : 5 ∈ [ FS_MGR_MNTALL_DEV_FILE_ENCRYPTED fs_mgr_h;
                      FS_MGR_MNTALL_DEV_IS_METADATA_ENCRYPTED fs_mgr_h;
                      FS_MGR_MNTALL_DEV_NEEDS_METADATA_ENCRYPTION fs_mgr_h ])
    by (simpl; apply list_elem_of_here).
  split; [exact fs_mgr_h_wf |]. split; [exact Hin |].
  exact (keyring_installed_first fs_mgr_h no_keyring_world 5 false boot_state
           fs_mgr_h_wf Hin).
Defined.

(** C2 as stated fails on the code in each of its parts: on a
    device where everything succeeds the userdata remount is performed
    before the state machine runs; when that remount fails the shutdown
    trigger fires twice; and when the default fstab cannot be read no
    shutdown trigger fires at all. *)
Lemma reentry_escalates_without_mount_fails :
  (emitted (do_remount_userdata fs_mgr_h fair_world ["remount_userdata"]) (recorded 3) =
     [ E_fs_mgr_remount_userdata_into_checkpointing [userdata];
       E_LOG ERROR "Userdata remount is not supported on FDE devices. How did you get here?";
       E_TriggerShutdown "reboot,requested-userdata-remount-on-fde-device";
       E_QueueEventTrigger "encrypt" ]
   /\ ~ reentry_escalates_without_mount fs_mgr_h fair_world (recorded 3))
  /\ (emitted (do_remount_userdata fs_mgr_h remount_fails_world ["remount_userdata"]) (recorded 3) =
       [ E_fs_mgr_remount_userdata_into_checkpointing [userdata];
         E_TriggerShutdown "reboot,mount-userdata-failed";
         E_LOG ERROR "Userdata remount is not supported on FDE devices. How did you get here?";
         E_TriggerShutdown "reboot,requested-userdata-remount-on-fde-device";
         E_QueueEventTrigger "encrypt" ]
      /\ ~ reentry_escalates_without_mount fs_mgr_h remount_fails_world (recorded 3))
  /\ (do_remount_userdata fs_mgr_h no_fstab_world ["remount_userdata"] (recorded 3) =
       (Err (Error "Failed to read fstab"), recorded 3)
      /\ ~ reentry_escalates_without_mount fs_mgr_h no_fstab_world (recorded 3)).
Proof.
  repeat split; try reflexivity;
    intros (Hmount & Hshutdown & Hwrites); vm_compute in Hmount, Hshutdown;
    discriminate.
Qed.

(** C2 (amended): with NeedsBlockEncryption recorded, the state machine
    entered by a re-entry performs no mount and writes no property: it
    logs, fires the shutdown trigger once, queues "encrypt" and returns
    success.  The command first reads the default fstab (an unreadable
    fstab ends it with an error and no trigger) and runs the userdata
    remount before the state machine, with one more shutdown trigger
    when the remount fails. *)
Theorem reentry_needs_encryption (codes : MntAllCodes) (w : World) (s : InitState) :
  codes_wf codes ->
  initial_mount_fstab_return_code s = FS_MGR_MNTALL_DEV_NEEDS_ENCRYPTION codes ->
  queue_fs_event codes w (FS_MGR_MNTALL_DEV_NEEDS_ENCRYPTION codes) true s =
    (Ok tt, add_events
      [ E_LOG ERROR "Userdata remount is not supported on FDE devices. How did you get here?";
        E_TriggerShutdown "reboot,requested-userdata-remount-on-fde-device";
        E_QueueEventTrigger "encrypt" ] s)
  /\ do_remount_userdata codes w ["remount_userdata"] s =
     match w_ReadDefaultFstab w with
     | None => (Err (Error "Failed to read fstab"), s)
     | Some fstab =>
       (Ok tt, add_events
         ([ E_fs_mgr_remount_userdata_into_checkpointing fstab ] ++
          (if w_fs_mgr_remount_userdata_into_checkpointing w fstab <? 0
           then [ E_TriggerShutdown "reboot,mount-userdata-failed" ] else []) ++
          [ E_LOG ERROR "Userdata remount is not supported on FDE devices. How did you get here?";
            E_TriggerShutdown "reboot,requested-userdata-remount-on-fde-device";
            E_QueueEventTrigger "encrypt" ]) s)
     end.
Proof.
  intros Hwf Hrec.
  assert (Hne : FS_MGR_MNTALL_DEV_NEEDS_ENCRYPTION codes <> -1).
  { apply (codes_wf_distinct codes Hwf). unfold enumerated_codes. apply list_elem_of_here. }
  assert (Hq : forall s', queue_fs_event codes w (FS_MGR_MNTALL_DEV_NEEDS_ENCRYPTION codes) true s' =
    (Ok tt, add_events
      [ E_LOG ERROR "Userdata remount is not supported on FDE devices. How did you get here?";
        E_TriggerShutdown "reboot,requested-userdata-remount-on-fde-device";
        E_QueueEventTrigger "encrypt" ] s')).
  { intros s'. apply (needs_encryption_row codes w true s'). }
  split; [apply Hq |].
  unfold do_remount_userdata.
  unfold mbind at 1, M_bind, get. rewrite Hrec.
  destruct (Z.eqb_spec (FS_MGR_MNTALL_DEV_NEEDS_ENCRYPTION codes) (-1)) as [Heq | _];
    [contradiction |].
  destruct (w_ReadDefaultFstab w) as [fstab |]; [| reflexivity].
  destruct (w_fs_mgr_remount_userdata_into_checkpointing w fstab <? 0); run;
    rewrite Hrec, Hq; simpl; f_equal; same_state.
Qed.

Lemma reentry_needs_encryption_witness :
  codes_wf fs_mgr_h /\
  initial_mount_fstab_return_code (recorded 3) = FS_MGR_MNTALL_DEV_NEEDS_ENCRYPTION fs_mgr_h /\
  do_remount_userdata fs_mgr_h remount_fails_world ["remount_userdata"] (recorded 3) =
    (Ok tt, add_events
       [ E_fs_mgr_remount_userdata_into_checkpointing [userdata];
         E_TriggerShutdown "reboot,mount-userdata-failed";
         E_LOG ERROR "Userdata remount is not supported on FDE devices. How did you get here?";
         E_TriggerShutdown "reboot,requested-userdata-remount-on-fde-device";
         E_QueueEventTrigger "encrypt" ] (recorded 3)).
Proof.
  split; [exact fs_mgr_h_wf |]. split; [reflexivity |].
  exact (proj2 (reentry_needs_encryption fs_mgr_h remount_fails_world (recorded 3)
                  fs_mgr_h_wf eq_refl)).
Defined.

End state_machine_claims.

(** ** The recorded outcome *)

Section last_outcome_facts.
Import init expected.

Lemma ignores_ret {A} (a : A) : ignores_last_outcome (mret a : M A).
Proof. intros v s. reflexivity. Qed.

Lemma ignores_bind {A B} (m : M A) (k : A -> M B) :
  ignores_last_outcome m -> (forall a, ignores_last_outcome (k a)) ->
  ignores_last_outcome (m ≫= k).
Proof.
  intros Hm Hk v s. unfold mbind, M_bind. rewrite Hm.
  destruct (m s) as [a s']. apply Hk.
Qed.

Lemma ignores_emit (e : Event) : ignores_last_outcome (emit e).
Proof. intros v s. reflexivity. Qed.

Lemma ignores_get_errno : ignores_last_outcome (get errno).
Proof. intros v s. reflexivity. Qed.

Lemma ignores_set_errno (e : Z) : ignores_last_outcome (modify (set_errno e)).
Proof. intros v s. reflexivity. Qed.

Lemma ignores_when (b : bool) (m : M unit) :
  ignores_last_outcome m -> ignores_last_outcome (when b m).
Proof. destruct b; [done | intros _; apply ignores_ret]. Qed.

Lemma ignores_for_each {A} (l : list A) (body : A -> M unit) :
  (forall x, ignores_last_outcome (body x)) -> ignores_last_outcome (for_each l body).
Proof.
  intros Hbody. induction l as [| x l IH]; simpl.
  - apply ignores_ret.
  - apply ignores_bind; [apply Hbody | intros _; exact IH].
Qed.

Lemma ignores_syscall (e : Event) (r : SysResult) : ignores_last_outcome (syscall e r).
Proof.
  unfold syscall. apply ignores_bind; [apply ignores_emit |]. intros _.
  destruct r; [apply ignores_ret |].
  apply ignores_bind; [apply ignores_set_errno | intros _; apply ignores_ret].
Qed.

End last_outcome_facts.

Create HintDb ignores.

#[local] Hint Resolve ignores_ret ignores_emit ignores_get_errno ignores_set_errno
  ignores_syscall : ignores.

(** Decomposes a monadic command into the pieces the [ignores] hints
    know. *)
Ltac ignores :=
  repeat first
    [ apply ignores_bind; [| intros ?]
    | apply ignores_when
    | apply ignores_for_each; intros ?
    | solve [auto with ignores]
    | match goal with
      | |- expected.ignores_last_outcome (if ?b then _ else _) => destruct b
      | |- expected.ignores_last_outcome (match ?x with _ => _ end) => destruct x
      end ].

Section last_outcome.
Import init expected.

Lemma ignores_keeps {A} (m : M A) : ignores_last_outcome m -> keeps_last_outcome m.
Proof.
  intros Hm s. specialize (Hm (initial_mount_fstab_return_code s) s).
  assert (Hs : set_initial_mount_fstab_return_code (initial_mount_fstab_return_code s) s = s)
    by (by destruct s).
  rewrite Hs in Hm. destruct (m s) as [r s']. simpl.
  injection Hm as Hs'. rewrite Hs'. reflexivity.
Qed.

Lemma ignores_get_late_import_paths : ignores_last_outcome (get late_import_paths).
Proof. intros v s. reflexivity. Qed.

Lemma ignores_set_late_import_paths (l : list string) :
  ignores_last_outcome (modify (set_late_import_paths l)).
Proof. intros v s. reflexivity. Qed.

Lemma ignores_queue_fs_event (codes : MntAllCodes) (w : World) (code : Z) (userdata_remount : bool) :
  ignores_last_outcome (queue_fs_event codes w code userdata_remount).
Proof.
  unfold queue_fs_event, fde_remount_panic, file_encrypted_branch, keyring_missing,
    FscryptInstallKeyring, PLOG, reboot_into_recovery, LOG, property_set,
    QueueEventTrigger, TriggerShutdown.
  ignores.
Qed.

Lemma ignores_loop_scan (w : World) (fuel : nat) (mode : Z) (target system : string)
    (fl : Z) (opts : option string) (n : N) :
  ignores_last_outcome (loop_scan w fuel mode target system fl opts n).
Proof.
  revert n. induction fuel as [| fuel IH]; intros n; simpl.
  - apply ignores_ret.
  - unfold ErrnoError. ignores; apply IH.
Qed.

Lemma ignores_do_mount (w : World) (fuel : nat) (args : list string) :
  ignores_last_outcome (do_mount w fuel args).
Proof.
  unfold do_mount, ErrnoError, ErrnoErrorIgnoreEnoent.
  destruct (String.prefix _ _).
  - ignores. apply ignores_loop_scan.
  - ignores.
Qed.

Lemma ignores_do_class_start (w : World) (args : list string) :
  ignores_last_outcome (do_class_start w args).
Proof.
  unfold do_class_start, Service_StartIfNotDisabled, LOG. ignores.
Qed.

Lemma ignores_do_class_restart (w : World) (args : list string) :
  ignores_last_outcome (do_class_restart w args).
Proof.
  unfold do_class_restart, ForEachServiceInClass, Service_Restart. ignores.
Qed.

Lemma do_mount_all_records (codes : MntAllCodes) (w : World) (args : list string)
    (v : Z) (s : InitState) :
  do_mount_all codes w args (set_initial_mount_fstab_return_code v s) =
    (fst (do_mount_all codes w args s),
     if records_outcome w args then snd (do_mount_all codes w args s)
     else set_initial_mount_fstab_return_code v (snd (do_mount_all codes w args s)))
  /\ initial_mount_fstab_return_code (snd (do_mount_all codes w args s)) =
     match w_ReadFstabFromFile w (arg args 1) with
     | Some fstab =>
       if queue_event (parse_mount_all_args args)
       then w_fs_mgr_mount_all w fstab (mount_mode (parse_mount_all_args args))
       else initial_mount_fstab_return_code s
     | None => initial_mount_fstab_return_code s
     end.
Proof.
  unfold do_mount_all, records_outcome.
  set (parsed := parse_mount_all_args args).
  destruct (w_ReadFstabFromFile w (arg args 1)) as [fstab |];
    [| rewrite andb_false_r; split; reflexivity].
  rewrite bool_decide_eq_true_2 by eauto. rewrite andb_true_r.
  set (rc := w_fs_mgr_mount_all w fstab (mount_mode parsed)).
  set (prefix := (emit (E_fs_mgr_mount_all fstab (mount_mode parsed));;
                  property_set ("ro.boottime.init.mount_all." +:+ prop_post_fix parsed)
                    (pretty (w_timer_duration w));;
                  when (import_rc parsed &&
                        (w_SelinuxGetVendorAndroidVersion w <=? __ANDROID_API_Q__))
                    (import_late args 2 (path_arg_end parsed))) : M unit).
  assert (Hprefix : ignores_last_outcome prefix).
  { unfold prefix, import_late, property_set.
    pose proof ignores_get_late_import_paths. pose proof ignores_set_late_import_paths.
    ignores. }
  pose proof (ignores_keeps _ Hprefix s) as Hkeep.
  specialize (Hprefix v s).
  assert (Hsplit : forall s0,
    (emit (E_fs_mgr_mount_all fstab (mount_mode parsed));;
     property_set ("ro.boottime.init.mount_all." +:+ prop_post_fix parsed)
       (pretty (w_timer_duration w));;
     when (import_rc parsed && (w_SelinuxGetVendorAndroidVersion w <=? __ANDROID_API_Q__))
       (import_late args 2 (path_arg_end parsed));;
     (if queue_event parsed then
        modify (set_initial_mount_fstab_return_code rc);;
        queue_fs_result ← queue_fs_event codes w rc false;
        match queue_fs_result with
        | Err e => mret (Err (Error_from "queue_fs_event() failed: " e))
        | Ok _ => mret (Ok tt)
        end
      else mret (Ok tt))) s0
    = (let '(_, s1) := prefix s0 in
       if queue_event parsed then
         let '(r, s2) := queue_fs_event codes w rc false
                           (set_initial_mount_fstab_return_code rc s1) in
         (match r with
          | Err e => Err (Error_from "queue_fs_event() failed: " e)
          | Ok _ => Ok tt
          end, s2)
       else (Ok tt, s1))).
  { intros s0. unfold prefix. run.
    destruct (import_rc parsed && _); simpl.
    - destruct (import_late args 2 (path_arg_end parsed) _) as [u s1].
      destruct (queue_event parsed); [| reflexivity].
      destruct (queue_fs_event codes w rc false _) as [[u' | e] s2]; reflexivity.
    - destruct (queue_event parsed); [| reflexivity].
      destruct (queue_fs_event codes w rc false _) as [[u' | e] s2]; reflexivity. }
  rewrite !Hsplit, Hprefix. clear Hsplit Hprefix.
  destruct (prefix s) as [u s1]. simpl in Hkeep.
  destruct (queue_event parsed); simpl; [| by split].
  pose proof (ignores_keeps _ (ignores_queue_fs_event codes w rc false)
                (set_initial_mount_fstab_return_code rc s1)) as Hrc.
  destruct (queue_fs_event codes w rc false _) as [r s2]. simpl in *.
  split; [reflexivity | exact Hrc].
Qed.

Lemma do_remount_userdata_keeps (codes : MntAllCodes) (w : World) (args : list string) :
  keeps_last_outcome (do_remount_userdata codes w args).
Proof.
  intros s. unfold do_remount_userdata. run.
  destruct (initial_mount_fstab_return_code s =? -1); [reflexivity |].
  destruct (w_ReadDefaultFstab w) as [fstab |]; [| reflexivity].
  destruct (w_fs_mgr_remount_userdata_into_checkpointing w fstab <? 0); simpl;
    match goal with
    | |- context [queue_fs_event codes w ?c true ?s0] =>
      pose proof (ignores_keeps _ (ignores_queue_fs_event codes w c true) s0) as Hq;
      destruct (queue_fs_event codes w c true s0) as [[u | e] s2]; exact Hq
    end.
Qed.

(** C8: the recorded outcome starts at -1; [mount], [class_start],
    [class_restart] and the state machine itself neither read nor write
    it; [mount_all] never reads it and writes it exactly when it reads
    its fstab and queues the event, storing the return code of
    [fs_mgr_mount_all]; [remount_userdata] never writes it and, finding
    -1, fails with "Calling remount_userdata too early" before doing
    anything. *)
Theorem last_outcome_single_writer (codes : MntAllCodes) (w : World) :
  initial_mount_fstab_return_code boot_state = -1
  /\ (forall fuel args, ignores_last_outcome (do_mount w fuel args))
  /\ (forall args, ignores_last_outcome (do_class_start w args))
  /\ (forall args, ignores_last_outcome (do_class_restart w args))
  /\ (forall code userdata_remount,
        ignores_last_outcome (queue_fs_event codes w code userdata_remount))
  /\ (forall args v s,
        do_mount_all codes w args (set_initial_mount_fstab_return_code v s) =
          (fst (do_mount_all codes w args s),
           if records_outcome w args then snd (do_mount_all codes w args s)
           else set_initial_mount_fstab_return_code v (snd (do_mount_all codes w args s))))
  /\ (forall args s,
        initial_mount_fstab_return_code (snd (do_mount_all codes w args s)) =
          match w_ReadFstabFromFile w (arg args 1) with
          | Some fstab =>
            if queue_event (parse_mount_all_args args)
            then w_fs_mgr_mount_all w fstab (mount_mode (parse_mount_all_args args))
            else initial_mount_fstab_return_code s
          | None => initial_mount_fstab_return_code s
          end)
  /\ (forall args, keeps_last_outcome (do_remount_userdata codes w args))
  /\ (forall args s,
        initial_mount_fstab_return_code s = -1 ->
        do_remount_userdata codes w args s =
          (Err (Error "Calling remount_userdata too early"), s)).
Proof.
  split; [reflexivity |].
  split; [intros; apply ignores_do_mount |].
  split; [intros; apply ignores_do_class_start |].
  split; [intros; apply ignores_do_class_restart |].
  split; [intros; apply ignores_queue_fs_event |].
  split; [intros; apply do_mount_all_records |].
  split; [intros; apply do_mount_all_records; exact 0 |].
  split; [intros; apply do_remount_userdata_keeps |].
  intros args s Hboot. unfold do_remount_userdata. run. by rewrite Hboot.
Qed.

Lemma last_outcome_single_writer_witness :
  initial_mount_fstab_return_code samples.early_state = -1 /\
  do_remount_userdata samples.fs_mgr_h samples.fair_world ["remount_userdata"]
    samples.early_state =
    (Err (Error "Calling remount_userdata too early"), samples.early_state).
Proof.
  split; [reflexivity |].
  apply (last_outcome_single_writer samples.fs_mgr_h samples.fair_world).
  reflexivity.
Defined.

End last_outcome.

(** ** mount: argument parsing *)

Section mount_parsing.
Import init expected.

Lemma arg_middle (pre rest : list string) (a : string) :
  arg (pre ++ a :: rest) (length pre) = a.
Proof. unfold arg. by rewrite list_lookup_middle. Qed.

Lemma fold_lor_from (l : list Z) (a : Z) :
  fold_left Z.lor l a = Z.lor a (fold_left Z.lor l 0).
Proof.
  revert a. induction l as [| x l IH]; intros a; simpl.
  - by rewrite Z.lor_0_r.
  - rewrite Z.lor_0_l, IH, (IH x). by rewrite Z.lor_assoc.
Qed.

Lemma flag_bits_app (l1 l2 : list string) :
  flag_bits (l1 ++ l2) = Z.lor (flag_bits l1) (flag_bits l2).
Proof.
  unfold flag_bits. rewrite omap_app, fold_left_app. apply fold_lor_from.
Qed.

Lemma parse_loop_closed (rest pre : list string) (acc : MountArgs) :
  fold_left (mount_arg_step (pre ++ rest)) (seq (length pre) (length rest)) acc =
  {| flags := fold_left Z.lor (omap (find_mount_flag mount_flags) rest) (flags acc);
     wait := wait acc || wait_given rest;
     options := match last rest with
                | Some t => if bool_decide (unmatched t) then Some t else options acc
                | None => options acc
                end |}.
Proof.
  revert pre acc. induction rest as [| a rest IH]; intros pre acc.
  - destruct acc; simpl. by rewrite orb_false_r.
  - cbn [length seq fold_left].
    replace (pre ++ a :: rest) with ((pre ++ [a]) ++ rest) by (by rewrite <- app_assoc).
    replace (S (length pre)) with (length (pre ++ [a])) by (rewrite length_app; simpl; lia).
    rewrite IH. clear IH.
    replace ((pre ++ [a]) ++ rest) with (pre ++ a :: rest) by (by rewrite <- app_assoc).
    unfold mount_arg_step. rewrite arg_middle.
    assert (Hlast : (length pre + 1 =? length (pre ++ a :: rest))%nat
                    = bool_decide (rest = [])).
    { rewrite length_app. simpl. destruct rest; simpl.
      - apply Nat.eqb_eq. lia.
      - apply Nat.eqb_neq. lia. }
    rewrite Hlast. clear Hlast.
    assert (Hl : last (a :: rest) = match rest with [] => Some a | _ => last rest end)
      by (by destruct rest).
    rewrite Hl. clear Hl.
    unfold wait_given. cbn [existsb omap list_omap]. fold (wait_given rest).
    destruct (find_mount_flag mount_flags a) as [flag |] eqn:Hfind.
    + assert (Hw : String.eqb a "wait" = false).
      { apply String.eqb_neq. intros ->. discriminate Hfind. }
      rewrite Hw. cbn [flags wait options fold_left orb]. f_equal.
      destruct rest; [| reflexivity].
      rewrite bool_decide_eq_false_2; [reflexivity |].
      unfold unmatched. rewrite Hfind. intros [H _]. discriminate.
    + destruct (String.eqb_spec a "wait") as [-> | Hne].
      * cbn [flags wait options orb]. rewrite orb_true_r. f_equal.
        destruct rest; [| reflexivity].
        rewrite bool_decide_eq_false_2; [reflexivity |]. by intros [_ H].
      * destruct rest; cbn [flags wait options orb bool_decide decide_rel];
          [| by destruct acc].
        rewrite bool_decide_eq_true_2 by done.
        rewrite (bool_decide_eq_true_2 (unmatched a)) by done. reflexivity.
Qed.

Lemma parse_mount_args_closed (system source target : string) (rest : list string) :
  parse_mount_args ("mount" :: system :: source :: target :: rest) =
  {| flags := flag_bits rest; wait := wait_given rest; options := option_string rest |}.
Proof.
  unfold parse_mount_args.
  change ("mount" :: system :: source :: target :: rest)
    with (["mount"; system; source; target] ++ rest).
  rewrite length_app. simpl length at 1.
  replace (4 + length rest - 4)%nat with (length rest) by lia.
  change 4%nat with (length ["mount"; system; source; target]) at 1.
  rewrite parse_loop_closed. reflexivity.
Qed.

Lemma flag_bits_unmatched (t : string) : unmatched t -> flag_bits [t] = 0.
Proof. intros [Hfind _]. unfold flag_bits. cbn [omap list_omap]. by rewrite Hfind. Qed.

Lemma wait_given_unmatched (t : string) : unmatched t -> wait_given [t] = false.
Proof.
  intros [_ Hne]. unfold wait_given. simpl. rewrite orb_false_r.
  by apply String.eqb_neq.
Qed.

Lemma wait_given_app (l1 l2 : list string) :
  wait_given (l1 ++ l2) = wait_given l1 || wait_given l2.
Proof. apply existsb_app. Qed.

Lemma last_skip (pre post : list string) (t : string) :
  post <> [] -> last (pre ++ t :: post) = last (pre ++ post).
Proof.
  intros Hpost. rewrite !last_app, last_cons.
  destruct post as [| x post]; [done |].
  destruct (last (x :: post)) eqn:Hl; [reflexivity |].
  by apply last_None in Hl.
Qed.

(** C3 as stated fails on the code: the unmatched token "bogus",
    followed by "ro", is passed over and the mount is performed with
    the read-only flag and no option string. *)
Lemma nonfinal_unmatched_is_error_fails :
  do_mount samples.fair_world 0
    ["mount"; "ext4"; "/dev/block/sda1"; "/mnt"; "bogus"; "ro"] boot_state =
    (Some (Ok tt),
     add_events [E_mount "/dev/block/sda1" "/mnt" "ext4" MS_RDONLY None] boot_state)
  /\ ~ nonfinal_unmatched_is_error samples.fair_world 0
        ["mount"; "ext4"; "/dev/block/sda1"; "/mnt"; "bogus"; "ro"] boot_state.
Proof.
  split; [reflexivity |].
  intros Hclaim. destruct (Hclaim 4%nat "bogus") as [e He].
  - lia.
  - reflexivity.
  - split; [reflexivity | discriminate].
  - simpl. lia.
  - vm_compute in He. discriminate.
Qed.

(** C3 (amended): after the (type, source, target) triple, an unmatched
    token in final position becomes the option string verbatim, the
    flags and the wait modifier being those of the tokens before it; an
    unmatched token in any other position is passed over: parsing and
    the whole command behave as if it were absent, and no error is
    raised for it.  Flags combine by bitwise OR; noatime, ro, rec give
    MS_NOATIME|MS_RDONLY|MS_REC. *)
Theorem mount_args_parsing (w : World) (fuel : nat) (system source target : string)
    (pre post : list string) (t : string) (s : InitState) :
  unmatched t ->
  parse_mount_args (["mount"; system; source; target] ++ pre ++ [t]) =
    {| flags := flags (parse_mount_args (["mount"; system; source; target] ++ pre));
       wait := wait (parse_mount_args (["mount"; system; source; target] ++ pre));
       options := Some t |}
  /\ (post <> [] ->
      parse_mount_args (["mount"; system; source; target] ++ pre ++ t :: post) =
        parse_mount_args (["mount"; system; source; target] ++ pre ++ post)
      /\ do_mount w fuel (["mount"; system; source; target] ++ pre ++ t :: post) s =
         do_mount w fuel (["mount"; system; source; target] ++ pre ++ post) s)
  /\ flags (parse_mount_args (["mount"; system; source; target] ++ ["noatime"; "ro"; "rec"])) =
     Z.lor (Z.lor MS_NOATIME MS_RDONLY) MS_REC
  /\ flags (parse_mount_args (["mount"; system; source; target] ++ pre ++ post)) =
     Z.lor (flags (parse_mount_args (["mount"; system; source; target] ++ pre)))
           (flags (parse_mount_args (["mount"; system; source; target] ++ post))).
Proof.
  intros Ht. cbn [app].
  assert (Hskip : post <> [] ->
    parse_mount_args ("mount" :: system :: source :: target :: pre ++ t :: post) =
    parse_mount_args ("mount" :: system :: source :: target :: pre ++ post)).
  { intros Hpost. rewrite !parse_mount_args_closed.
    unfold option_string. rewrite (last_skip pre post t Hpost).
    change (t :: post) with ([t] ++ post).
    rewrite !flag_bits_app, !wait_given_app.
    rewrite (flag_bits_unmatched t Ht), (wait_given_unmatched t Ht).
    by rewrite Z.lor_0_l. }
  split; [| split; [| split]].
  - rewrite !parse_mount_args_closed. cbn [flags wait options].
    rewrite flag_bits_app, wait_given_app.
    rewrite (flag_bits_unmatched t Ht), (wait_given_unmatched t Ht).
    rewrite Z.lor_0_r, orb_false_r. unfold option_string.
    rewrite last_snoc. by rewrite bool_decide_eq_true_2.
  - intros Hpost. split; [by apply Hskip |].
    unfold do_mount. rewrite (Hskip Hpost). reflexivity.
  - reflexivity.
  - rewrite !parse_mount_args_closed. apply flag_bits_app.
Qed.

Lemma mount_args_parsing_witness :
  unmatched "bogus" /\
  do_mount samples.fair_world 0
    (["mount"; "ext4"; "/dev/block/sda1"; "/mnt"] ++ ["noatime"] ++ "bogus" :: ["ro"])
    boot_state =
  do_mount samples.fair_world 0
    (["mount"; "ext4"; "/dev/block/sda1"; "/mnt"] ++ ["noatime"] ++ ["ro"]) boot_state.
Proof.
  assert (Hu : unmatched "bogus") by (split; [reflexivity | discriminate]).
  split; [exact Hu |].
  apply (mount_args_parsing samples.fair_world 0 "ext4" "/dev/block/sda1" "/mnt"
           ["noatime"] ["ro"] "bogus" boot_state Hu).
  discriminate.
Defined.

End mount_parsing.

(** ** mount: the direct branch *)

Section direct_mount.
Import init expected.

(** C6: when the source is not a loop@ specification and [mount(2)]
    fails with error number [e], [do_mount] returns the empty success
    result if [e] is ENOENT and the minimum log severity is above DEBUG,
    and otherwise an error whose message is "mount() failed" with the
    errno text attached and whose code is [e]. *)
Theorem direct_mount_error_policy (w : World) (fuel : nat) (system source target : string)
    (rest : list string) (e : Z) (s : InitState) :
  String.prefix "loop@" source = false ->
  w_mount w source target system
    (flags (parse_mount_args ("mount" :: system :: source :: target :: rest)))
    (options (parse_mount_args ("mount" :: system :: source :: target :: rest)))
    = SysFail e ->
  (e = ENOENT /\ severity_value DEBUG < severity_value (w_GetMinimumLogSeverity w) ->
   fst (do_mount w fuel ("mount" :: system :: source :: target :: rest) s) = Some (Ok tt))
  /\ (e <> ENOENT \/ severity_value (w_GetMinimumLogSeverity w) <= severity_value DEBUG ->
      fst (do_mount w fuel ("mount" :: system :: source :: target :: rest) s) =
        Some (Err {| error_message := "mount() failed: " +:+ w_strerror w e;
                     error_code := e |})).
Proof.
  intros Hdirect Hmount.
  assert (Hrun : fst (do_mount w fuel ("mount" :: system :: source :: target :: rest) s) =
                 Some (ErrorIgnoreEnoent w e "mount() failed")).
  { unfold do_mount.
    set (parsed := parse_mount_args _) in *.
    change (arg ("mount" :: system :: source :: target :: rest) 1) with system.
    change (arg ("mount" :: system :: source :: target :: rest) 2) with source.
    change (arg ("mount" :: system :: source :: target :: rest) 3) with target.
    rewrite Hdirect, Hmount. unfold ErrnoErrorIgnoreEnoent.
    destruct (wait parsed); reflexivity. }
  rewrite Hrun. unfold ErrorIgnoreEnoent, ignore_error_, ErrnoError_with.
  split.
  - intros [-> Hsev]. simpl (ENOENT =? ENOENT).
    destruct (Z.ltb_spec (severity_value DEBUG) (severity_value (w_GetMinimumLogSeverity w)));
      [reflexivity | lia].
  - intros [Hne | Hsev].
    + destruct (Z.eqb_spec e ENOENT); [contradiction | reflexivity].
    + destruct (Z.ltb_spec (severity_value DEBUG) (severity_value (w_GetMinimumLogSeverity w)));
        [lia |].
      by rewrite andb_false_r.
Qed.

Lemma direct_mount_error_policy_witness :
  String.prefix "loop@" "/dev/block/sda9" = false /\
  w_mount samples.missing_device_world "/dev/block/sda9" "/mnt" "ext4"
    (flags (parse_mount_args ["mount"; "ext4"; "/dev/block/sda9"; "/mnt"; "ro"]))
    (options (parse_mount_args ["mount"; "ext4"; "/dev/block/sda9"; "/mnt"; "ro"]))
    = SysFail ENOENT /\
  fst (do_mount samples.missing_device_world 0
         ["mount"; "ext4"; "/dev/block/sda9"; "/mnt"; "ro"] boot_state) = Some (Ok tt).
Proof.
  split; [reflexivity |]. split; [reflexivity |].
  apply (direct_mount_error_policy samples.missing_device_world 0 "ext4"
           "/dev/block/sda9" "/mnt" ["ro"] ENOENT boot_state eq_refl eq_refl).
  split; [reflexivity | simpl; lia].
Defined.

End direct_mount.

(** ** mount: the loop branch *)

Section loop_mount.
Import init expected.

Context (w : World) (mode : Z) (target system : string) (fl : Z) (opts : option string).

Lemma syscall_run (e : Event) (r : SysResult) (s : InitState) :
  syscall e r s =
  match r with
  | SysOk v => (Z.of_N v, add_event e s)
  | SysFail err => (-1, set_errno err (add_event e s))
  end.
Proof. by destruct r. Qed.

Lemma of_N_not_negative (v : N) : (Z.of_N v <? 0) = false.
Proof. apply Z.ltb_ge. lia. Qed.

Lemma size_t_succ_small (n : N) : (N.succ n < 2 ^ 64)%N -> size_t_succ n = N.succ n.
Proof. intros H. unfold size_t_succ. by apply N.mod_small. Qed.

(** One turn of the scan on a device that opens and is not unbound: the
    device is passed over. *)
Lemma loop_scan_turn (fuel : nat) (n : N) (s : InitState) :
  opens w (loop_device n) mode ->
  ~ unbound w (loop_device n) ->
  exists s1,
    loop_scan w (S fuel) mode target system fl opts n s =
      loop_scan w fuel mode target system fl opts (size_t_succ n) s1
    /\ trace s1 = trace s ++ passed_over mode n 1.
Proof.
  intros [fd Hopen] Hbound. unfold unbound in Hbound.
  cbn [loop_scan]. unfold mbind, M_bind, get.
  rewrite !syscall_run, Hopen, of_N_not_negative, syscall_run.
  destruct (w_ioctl w (loop_device n) LOOP_GET_STATUS) as [v | err] eqn:Hstatus.
  - rewrite of_N_not_negative. simpl. eexists; split; [reflexivity |].
    simpl. by rewrite <- app_assoc.
  - simpl. destruct (Z.eqb_spec err ENXIO) as [-> | Hne]; [done |].
    eexists; split; [reflexivity |]. simpl. by rewrite <- app_assoc.
Qed.

Lemma loop_scan_pass (d : nat) : forall (fuel : nat) (n : N) (s : InitState),
  (n + N.of_nat d < 2 ^ 64)%N ->
  (forall i, (n <= i < n + N.of_nat d)%N ->
             opens w (loop_device i) mode /\ ~ unbound w (loop_device i)) ->
  exists s1,
    loop_scan w (d + fuel) mode target system fl opts n s =
      loop_scan w fuel mode target system fl opts (n + N.of_nat d)%N s1
    /\ trace s1 = trace s ++ passed_over mode n d.
Proof.
  induction d as [| d IH]; intros fuel n s Hsmall Hpass.
  - exists s. rewrite N.add_0_r, app_nil_r. by split.
  - destruct (Hpass n ltac:(lia)) as [Hopen Hbound].
    destruct (loop_scan_turn (d + fuel) n s Hopen Hbound) as (s1 & Hturn & Htrace1).
    rewrite size_t_succ_small in Hturn by lia.
    destruct (IH fuel (N.succ n) s1 ltac:(lia)) as (s2 & Hrest & Htrace2).
    { intros i Hi. apply Hpass. lia. }
    exists s2. split.
    + change (S d + fuel)%nat with (S (d + fuel)). rewrite Hturn, Hrest.
      f_equal. lia.
    + rewrite Htrace2, Htrace1. simpl. by rewrite <- app_assoc.
Qed.

(** The turn on an unbound device that accepts the bind. *)
Lemma loop_scan_bind (fuel : nat) (n : N) (b : N) (s : InitState) :
  opens w (loop_device n) mode ->
  unbound w (loop_device n) ->
  w_ioctl w (loop_device n) LOOP_SET_FD = SysOk b ->
  trace (snd (loop_scan w (S fuel) mode target system fl opts n s)) =
    trace s ++
    [ E_open (loop_device n) (Z.lor mode O_CLOEXEC);
      E_ioctl (loop_device n) LOOP_GET_STATUS;
      E_ioctl (loop_device n) LOOP_SET_FD;
      E_mount (loop_device n) target system fl opts ] ++
    match w_mount w (loop_device n) target system fl opts with
    | SysOk _ => []
    | SysFail _ => [ E_ioctl (loop_device n) LOOP_CLR_FD ]
    end
  /\ fst (loop_scan w (S fuel) mode target system fl opts n s) =
     match w_mount w (loop_device n) target system fl opts with
     | SysOk _ => Some (Ok tt)
     | SysFail e =>
       Some (Err (ErrnoError_with w
                    match w_ioctl w (loop_device n) LOOP_CLR_FD with
                    | SysOk _ => e
                    | SysFail e' => e'
                    end "mount() failed"))
     end.
Proof.
  intros [fd Hopen] Hunbound Hbind. unfold unbound in Hunbound.
  cbn [loop_scan]. unfold mbind, M_bind, get, ErrnoError.
  rewrite !syscall_run, Hopen, of_N_not_negative, syscall_run, Hunbound.
  simpl. rewrite syscall_run, Hbind.
  assert (Hb : (0 <=? Z.of_N b) = true) by (apply Z.leb_le; lia).
  rewrite Hb, syscall_run.
  destruct (w_mount w (loop_device n) target system fl opts) as [v | e].
  - rewrite of_N_not_negative. simpl. split; [| reflexivity].
    rewrite <- !app_assoc. reflexivity.
  - simpl. rewrite syscall_run.
    destruct (w_ioctl w (loop_device n) LOOP_CLR_FD) as [v | e']; simpl;
      (split; [rewrite <- !app_assoc; reflexivity | reflexivity]).
Qed.

Lemma no_mount_on_snoc (device : string) (t : list Event) (e : Event) :
  no_mount_on device t ->
  (forall tg sy f o, e <> E_mount device tg sy f o) ->
  no_mount_on device (t ++ [e]).
Proof.
  intros Ht He tg sy f o Hin. apply elem_of_app in Hin as [Hin | Hin].
  - by apply (Ht tg sy f o).
  - apply list_elem_of_singleton in Hin. by apply (He tg sy f o).
Qed.

(** The scan never mounts a device that refuses the bind. *)
Lemma loop_scan_no_mount (device : string) (e : Z) (fuel : nat) :
  w_ioctl w device LOOP_SET_FD = SysFail e ->
  forall (n : N) (s : InitState),
    no_mount_on device (trace s) ->
    no_mount_on device (trace (snd (loop_scan w fuel mode target system fl opts n s))).
Proof.
  intros Hrefuse. induction fuel as [| fuel IH]; intros n s Hs; [exact Hs |].
  cbn [loop_scan]. unfold mbind, M_bind, get, ErrnoError.
  rewrite !syscall_run.
  destruct (w_open w (loop_device n) _) as [fd | err]; simpl.
  2: { apply no_mount_on_snoc; [exact Hs | discriminate]. }
  rewrite of_N_not_negative, syscall_run.
  assert (Hs2 : no_mount_on device
                  ((trace s ++ [E_open (loop_device n) (Z.lor mode O_CLOEXEC)]) ++
                   [E_ioctl (loop_device n) LOOP_GET_STATUS])).
  { apply no_mount_on_snoc; [apply no_mount_on_snoc; [exact Hs |] |]; discriminate. }
  destruct (w_ioctl w (loop_device n) LOOP_GET_STATUS) as [v | err]; simpl.
  { rewrite of_N_not_negative. simpl. apply IH. exact Hs2. }
  destruct (err =? ENXIO); simpl; [| apply IH; exact Hs2].
  rewrite syscall_run.
  destruct (w_ioctl w (loop_device n) LOOP_SET_FD) as [b | err'] eqn:Hbind; simpl.
  2: { apply IH. simpl. apply no_mount_on_snoc; [exact Hs2 | discriminate]. }
  assert (Hb : (0 <=? Z.of_N b) = true) by (apply Z.leb_le; lia).
  rewrite Hb, syscall_run.
  assert (Hs4 : no_mount_on device
                  ((((trace s ++ [E_open (loop_device n) (Z.lor mode O_CLOEXEC)]) ++
                     [E_ioctl (loop_device n) LOOP_GET_STATUS]) ++
                    [E_ioctl (loop_device n) LOOP_SET_FD]) ++
                   [E_mount (loop_device n) target system fl opts])).
  { apply no_mount_on_snoc; [apply no_mount_on_snoc; [exact Hs2 | discriminate] |].
    intros tg sy f o [= Hdev _ _ _ _]. rewrite Hdev in Hbind. congruence. }
  destruct (w_mount w (loop_device n) target system fl opts) as [v | err']; simpl.
  { rewrite of_N_not_negative. simpl. exact Hs4. }
  rewrite syscall_run.
  destruct (w_ioctl w (loop_device n) LOOP_CLR_FD); simpl;
    (apply no_mount_on_snoc; [exact Hs4 | discriminate]).
Qed.

End loop_mount.

Section loop_mount_command.
Import init expected.

Lemma substring_all (s : string) : String.substring 0 (String.length s) s = s.
Proof. induction s as [| c s IH]; simpl; [reflexivity | by rewrite IH]. Qed.

Lemma string_drop_loop (backing : string) : string_drop 5 ("loop@" +:+ backing) = backing.
Proof. unfold string_drop. simpl. rewrite Nat.sub_0_r. apply substring_all. Qed.

Lemma prefix_loop (backing : string) : String.prefix "loop@" ("loop@" +:+ backing) = true.
Proof. simpl. by destruct backing. Qed.

(** The loop branch of [do_mount] once the image has been opened. *)
Lemma do_mount_loop (w : World) (fuel : nat) (system backing target : string)
    (rest : list string) (fd : N) (s : InitState) :
  w_open w backing (Z.lor (loop_mode (loop_args system backing target rest)) O_CLOEXEC) = SysOk fd ->
  do_mount w fuel (loop_args system backing target rest) s =
    loop_scan w fuel (loop_mode (loop_args system backing target rest)) target system
      (flags (parse_mount_args (loop_args system backing target rest)))
      (options (parse_mount_args (loop_args system backing target rest))) 0%N
      (add_event (E_open backing
                    (Z.lor (loop_mode (loop_args system backing target rest)) O_CLOEXEC)) s).
Proof.
  intros Hopen. unfold do_mount.
  change (arg (loop_args system backing target rest) 1) with system.
  change (arg (loop_args system backing target rest) 2) with ("loop@" +:+ backing).
  change (arg (loop_args system backing target rest) 3) with target.
  rewrite prefix_loop, string_drop_loop.
  fold (loop_mode (loop_args system backing target rest)).
  unfold mbind, M_bind. rewrite syscall_run, Hopen, of_N_not_negative. reflexivity.
Qed.

(** C4: a loop mount whose image opens looks at /dev/block/loop0,
    loop1, ... in order, passes over every device that is not unbound,
    and on the first unbound device [k] issues the bind; when the bind
    succeeds the mount follows on that very device and the scan ends
    (given fuel for k+1 turns), and when the bind fails no mount on that
    device is ever added, whatever the fuel. *)
Theorem loop_mount_first_unbound (w : World) (fuel : nat) (system backing target : string)
    (rest : list string) (k : N) (s : InitState) :
  opens w backing (loop_mode (loop_args system backing target rest)) ->
  (forall i, (i < k)%N ->
     opens w (loop_device i) (loop_mode (loop_args system backing target rest)) /\
     ~ unbound w (loop_device i)) ->
  opens w (loop_device k) (loop_mode (loop_args system backing target rest)) ->
  unbound w (loop_device k) ->
  (k < 2 ^ 64)%N ->
  (N.to_nat k < fuel)%nat ->
  (forall b, w_ioctl w (loop_device k) LOOP_SET_FD = SysOk b ->
     trace (snd (do_mount w fuel (loop_args system backing target rest) s)) =
       trace s ++
       [ E_open backing (Z.lor (loop_mode (loop_args system backing target rest)) O_CLOEXEC) ] ++
       passed_over (loop_mode (loop_args system backing target rest)) 0 (N.to_nat k) ++
       [ E_open (loop_device k)
           (Z.lor (loop_mode (loop_args system backing target rest)) O_CLOEXEC);
         E_ioctl (loop_device k) LOOP_GET_STATUS;
         E_ioctl (loop_device k) LOOP_SET_FD;
         E_mount (loop_device k) target system
           (flags (parse_mount_args (loop_args system backing target rest)))
           (options (parse_mount_args (loop_args system backing target rest))) ] ++
       match w_mount w (loop_device k) target system
               (flags (parse_mount_args (loop_args system backing target rest)))
               (options (parse_mount_args (loop_args system backing target rest))) with
       | SysOk _ => []
       | SysFail _ => [ E_ioctl (loop_device k) LOOP_CLR_FD ]
       end
     /\ is_Some (fst (do_mount w fuel (loop_args system backing target rest) s))
     /\ (fst (do_mount w fuel (loop_args system backing target rest) s) = Some (Ok tt) <->
         exists v, w_mount w (loop_device k) target system
                     (flags (parse_mount_args (loop_args system backing target rest)))
                     (options (parse_mount_args (loop_args system backing target rest)))
                   = SysOk v))
  /\ (forall e fuel', w_ioctl w (loop_device k) LOOP_SET_FD = SysFail e ->
       no_mount_on (loop_device k) (trace s) ->
       no_mount_on (loop_device k)
         (trace (snd (do_mount w fuel' (loop_args system backing target rest) s)))).
Proof.
  intros [fd Hopen] Hpass Hopens Hunbound Hsmall Hfuel.
  split.
  - intros b Hbind.
    rewrite (do_mount_loop w fuel system backing target rest fd s Hopen).
    set (args := loop_args system backing target rest) in *.
    set (mode := loop_mode args) in *.
    set (fl := flags (parse_mount_args args)).
    set (opts := options (parse_mount_args args)).
    destruct (loop_scan_pass w mode target system fl opts (N.to_nat k)
                (S (fuel - S (N.to_nat k))) 0%N
                (add_event (E_open backing (Z.lor mode O_CLOEXEC)) s))
      as (s1 & Hscan & Htrace1).
    { lia. }
    { intros i Hi. apply Hpass. lia. }
    replace (N.to_nat k + S (fuel - S (N.to_nat k)))%nat with fuel in Hscan by lia.
    replace (0 + N.of_nat (N.to_nat k))%N with k in Hscan by lia.
    rewrite Hscan.
    destruct (loop_scan_bind w mode target system fl opts (fuel - S (N.to_nat k)) k b s1
                Hopens Hunbound Hbind) as [Htrace Hresult].
    rewrite Htrace, Hresult, Htrace1. simpl trace.
    split; [by rewrite <- !app_assoc |].
    destruct (w_mount w (loop_device k) target system fl opts) as [v | err].
    + split; [by eexists |]. split; [by eexists | done].
    + split; [by eexists |]. split; [intros [=] | intros [v [=]]].
  - intros e fuel' Hrefuse Hs.
    rewrite (do_mount_loop w fuel' system backing target rest fd s Hopen).
    apply (loop_scan_no_mount w _ _ _ _ _ _ e fuel' Hrefuse).
    simpl. apply no_mount_on_snoc; [exact Hs | discriminate].
Qed.

Lemma loop_mount_first_unbound_witness :
  trace (snd (do_mount samples.fair_world 3
                (loop_args "ext4" "/system/app.img" "/mnt/app" ["ro"]) boot_state)) =
    [ E_open "/system/app.img" (Z.lor O_RDONLY O_CLOEXEC);
      E_open "/dev/block/loop0" (Z.lor O_RDONLY O_CLOEXEC);
      E_ioctl "/dev/block/loop0" LOOP_GET_STATUS;
      E_open "/dev/block/loop1" (Z.lor O_RDONLY O_CLOEXEC);
      E_ioctl "/dev/block/loop1" LOOP_GET_STATUS;
      E_open "/dev/block/loop2" (Z.lor O_RDONLY O_CLOEXEC);
      E_ioctl "/dev/block/loop2" LOOP_GET_STATUS;
      E_ioctl "/dev/block/loop2" LOOP_SET_FD;
      E_mount "/dev/block/loop2" "/mnt/app" "ext4" MS_RDONLY None ].
Proof.
  assert (Hopen : forall path, opens samples.fair_world path
                    (loop_mode (loop_args "ext4" "/system/app.img" "/mnt/app" ["ro"])))
    by (intros path; exists 3%N; reflexivity).
  assert (Hpass : forall i, (i < 2)%N ->
            opens samples.fair_world (loop_device i)
              (loop_mode (loop_args "ext4" "/system/app.img" "/mnt/app" ["ro"])) /\
            ~ unbound samples.fair_world (loop_device i)).
  { intros i Hi. split; [apply Hopen |].
    assert (Hcases : i = 0%N \/ i = 1%N) by lia.
    destruct Hcases as [-> | ->]; unfold unbound; vm_compute; discriminate. }
  assert (Hunbound : unbound samples.fair_world (loop_device 2)) by reflexivity.
  assert (Hsmall : (2 < 2 ^ 64)%N) by reflexivity.
  assert (Hfuel : (N.to_nat 2 < 3)%nat) by (simpl; lia).
  destruct (loop_mount_first_unbound samples.fair_world 3 "ext4" "/system/app.img" "/mnt/app"
              ["ro"] 2 boot_state (Hopen "/system/app.img") Hpass (Hopen (loop_device 2))
              Hunbound Hsmall Hfuel) as [Hbind _].
  destruct (Hbind 0%N eq_refl) as [Htrace _].
  exact Htrace.
Defined.

(** On a device whose loop driver refuses every bind the scan goes from
    device to device and no mount is attempted; four turns of fuel are
    used up without a result. *)
Example loop_bind_refused :
  do_mount samples.bind_fails_world 4
    (loop_args "ext4" "/system/app.img" "/mnt/app" []) boot_state
  = (None,
     set_errno 16
       (add_events
          [ E_open "/system/app.img" (Z.lor O_RDWR O_CLOEXEC);
            E_open "/dev/block/loop0" (Z.lor O_RDWR O_CLOEXEC);
            E_ioctl "/dev/block/loop0" LOOP_GET_STATUS;
            E_open "/dev/block/loop1" (Z.lor O_RDWR O_CLOEXEC);
            E_ioctl "/dev/block/loop1" LOOP_GET_STATUS;
            E_open "/dev/block/loop2" (Z.lor O_RDWR O_CLOEXEC);
            E_ioctl "/dev/block/loop2" LOOP_GET_STATUS;
            E_ioctl "/dev/block/loop2" LOOP_SET_FD;
            E_open "/dev/block/loop3" (Z.lor O_RDWR O_CLOEXEC);
            E_ioctl "/dev/block/loop3" LOOP_GET_STATUS;
            E_ioctl "/dev/block/loop3" LOOP_SET_FD ] boot_state)).
Proof. reflexivity. Qed.

End loop_mount_command.

(** * Further properties *)

(** ** mount: what the flag tokens do *)

Section mount_flag_facts.
Import init expected.

Lemma flag_bits_cons (a : string) (l : list string) :
  flag_bits (a :: l) = Z.lor (default 0 (find_mount_flag mount_flags a)) (flag_bits l).
Proof.
  change (a :: l) with ([a] ++ l). rewrite flag_bits_app. f_equal.
  unfold flag_bits. cbn [omap list_omap].
  destruct (find_mount_flag mount_flags a); reflexivity.
Qed.

Lemma wait_given_cons (a : string) (l : list string) :
  wait_given (a :: l) = String.eqb a "wait" || wait_given l.
Proof. reflexivity. Qed.

Lemma land_lor_absorb (a b : Z) : Z.land a (Z.lor a b) = a.
Proof.
  apply Z.bits_inj'; intros n _. rewrite Z.land_spec, Z.lor_spec.
  destruct (Z.testbit a n), (Z.testbit b n); reflexivity.
Qed.

(** X1.  The argument loop only ever ORs into [flags]: a flag set by the
    tokens read so far stays set whatever tokens follow, so no token
    (not even rw or defaults) clears a flag given before it. *)
Theorem mount_flags_never_cleared (system source target : string) (pre post : list string) :
  Z.land (flags (parse_mount_args (["mount"; system; source; target] ++ pre)))
         (flags (parse_mount_args (["mount"; system; source; target] ++ pre ++ post)))
  = flags (parse_mount_args (["mount"; system; source; target] ++ pre)).
Proof.
  cbn [app]. rewrite !parse_mount_args_closed. cbn [flags].
  rewrite flag_bits_app. apply land_lor_absorb.
Qed.

(** X2.  The flag set and the wait modifier do not depend on the order of
    the tokens. *)
Theorem mount_flags_order_irrelevant (system source target : string) (rest rest' : list string) :
  rest ≡ₚ rest' ->
  flags (parse_mount_args (["mount"; system; source; target] ++ rest)) =
    flags (parse_mount_args (["mount"; system; source; target] ++ rest'))
  /\ wait (parse_mount_args (["mount"; system; source; target] ++ rest)) =
     wait (parse_mount_args (["mount"; system; source; target] ++ rest')).
Proof.
  intros Hperm. cbn [app]. rewrite !parse_mount_args_closed. cbn [flags wait].
  induction Hperm as [| a l l' _ [IHf IHw] | a b l | l1 l2 l3 _ [IH1f IH1w] _ [IH2f IH2w]].
  - by split.
  - rewrite !flag_bits_cons, !wait_given_cons, IHf, IHw. by split.
  - rewrite !flag_bits_cons, !wait_given_cons. split.
    + rewrite !Z.lor_assoc. f_equal. apply Z.lor_comm.
    + rewrite !orb_assoc. f_equal. apply orb_comm.
  - split; congruence.
Qed.

Lemma mount_flags_order_irrelevant_witness :
  ["ro"; "noatime"; "wait"] ≡ₚ ["wait"; "ro"; "noatime"] /\
  flags (parse_mount_args (["mount"; "ext4"; "/dev/block/sda1"; "/mnt"] ++ ["ro"; "noatime"; "wait"])) =
  flags (parse_mount_args (["mount"; "ext4"; "/dev/block/sda1"; "/mnt"] ++ ["wait"; "ro"; "noatime"])).
Proof.
  assert (Hperm : ["ro"; "noatime"; "wait"] ≡ₚ ["wait"; "ro"; "noatime"]).
  { change ["wait"; "ro"; "noatime"] with (["wait"] ++ ["ro"; "noatime"]).
    change ["ro"; "noatime"; "wait"] with (["ro"; "noatime"] ++ ["wait"]).
    apply Permutation_app_comm. }
  split; [exact Hperm |].
  exact (proj1 (mount_flags_order_irrelevant "ext4" "/dev/block/sda1" "/mnt" _ _ Hperm)).
Defined.




End mount_flag_facts.

(** ** mount: the two branches in full *)

Section mount_branches.
Import init expected further.

(** X4.  A source that is not a loop@ specification is mounted directly:
    the file is waited for first when wait is among the tokens, then
    [mount(2)] is called exactly once with the parsed flags and option
    string, whatever the wait gave; success is the empty result and a
    failure goes through the ENOENT filter.  No fuel is used. *)
Theorem direct_mount_run (w : World) (fuel : nat) (system source target : string)
    (rest : list string) (s : InitState) :
  String.prefix "loop@" source = false ->
  do_mount w fuel ("mount" :: system :: source :: target :: rest) s =
    match w_mount w source target system (flag_bits rest) (option_string rest) with
    | SysOk _ =>
      (Some (Ok tt),
       add_events ((if wait_given rest then [E_wait_for_file source] else []) ++
                   [E_mount source target system (flag_bits rest) (option_string rest)]) s)
    | SysFail e =>
      (Some (ErrorIgnoreEnoent w e "mount() failed"),
       set_errno e
         (add_events ((if wait_given rest then [E_wait_for_file source] else []) ++
                      [E_mount source target system (flag_bits rest) (option_string rest)]) s))
    end.
Proof.
  intros Hdirect. unfold do_mount.
  rewrite parse_mount_args_closed. cbn [flags wait options].
  change (arg ("mount" :: system :: source :: target :: rest) 1) with system.
  change (arg ("mount" :: system :: source :: target :: rest) 2) with source.
  change (arg ("mount" :: system :: source :: target :: rest) 3) with target.
  rewrite Hdirect. unfold ErrnoErrorIgnoreEnoent.
  destruct (wait_given rest); run; rewrite syscall_run;
    destruct (w_mount w source target system (flag_bits rest) (option_string rest));
    simpl; rewrite ?of_N_not_negative; simpl; f_equal; same_state.
Qed.

Lemma direct_mount_run_witness :
  String.prefix "loop@" "/dev/block/sda1" = false /\
  do_mount samples.fair_world 0 ["mount"; "ext4"; "/dev/block/sda1"; "/mnt"; "wait"; "noatime"]
    boot_state =
  (Some (Ok tt),
   add_events [E_wait_for_file "/dev/block/sda1";
               E_mount "/dev/block/sda1" "/mnt" "ext4" MS_NOATIME None] boot_state).
Proof.
  split; [reflexivity |].
  exact (direct_mount_run samples.fair_world 0 "ext4" "/dev/block/sda1" "/mnt"
           ["wait"; "noatime"] boot_state eq_refl).
Defined.

Lemma loop_scan_leave (w : World) (mode : Z) (target system : string) (fl : Z)
    (opts : option string) (fuel : nat) (n : N) (s : InitState) :
  left w mode (loop_device n) ->
  exists s1,
    loop_scan w (S fuel) mode target system fl opts n s =
      loop_scan w fuel mode target system fl opts (size_t_succ n) s1
    /\ trace s1 = trace s ++ turn_events w mode n.
Proof.
  intros [[fd Hopen] Hrefuse]. unfold unbound in Hrefuse. unfold turn_events.
  cbn [loop_scan]. unfold mbind, M_bind, get.
  rewrite !syscall_run, Hopen, of_N_not_negative, syscall_run.
  destruct (w_ioctl w (loop_device n) LOOP_GET_STATUS) as [v | err] eqn:Hstatus.
  - rewrite of_N_not_negative. simpl. eexists; split; [reflexivity |].
    simpl. by rewrite <- app_assoc.
  - simpl. destruct (Z.eqb_spec err ENXIO) as [-> | Hne].
    + destruct (Hrefuse eq_refl) as [e He]. rewrite syscall_run, He. simpl.
      eexists; split; [reflexivity |]. simpl. by rewrite <- !app_assoc.
    + eexists; split; [reflexivity |]. simpl. by rewrite <- app_assoc.
Qed.

Lemma loop_scan_leave_many (w : World) (mode : Z) (target system : string) (fl : Z)
    (opts : option string) (d : nat) : forall (fuel : nat) (n : N) (s : InitState),
  (n + N.of_nat d < 2 ^ 64)%N ->
  (forall i, (n <= i < n + N.of_nat d)%N -> left w mode (loop_device i)) ->
  exists s1,
    loop_scan w (d + fuel) mode target system fl opts n s =
      loop_scan w fuel mode target system fl opts (n + N.of_nat d)%N s1
    /\ trace s1 = trace s ++ left_behind w mode n d.
Proof.
  induction d as [| d IH]; intros fuel n s Hsmall Hleft.
  - exists s. rewrite N.add_0_r, app_nil_r. by split.
  - destruct (loop_scan_leave w mode target system fl opts (d + fuel) n s
                (Hleft n ltac:(lia))) as (s1 & Hturn & Htrace1).
    rewrite size_t_succ_small in Hturn by lia.
    destruct (IH fuel (N.succ n) s1 ltac:(lia)) as (s2 & Hrest & Htrace2).
    { intros i Hi. apply Hleft. lia. }
    exists s2. split.
    + change (S d + fuel)%nat with (S (d + fuel)). rewrite Hturn, Hrest.
      f_equal. lia.
    + rewrite Htrace2, Htrace1. cbn [left_behind]. by rewrite <- app_assoc.
Qed.

Lemma do_mount_image_unopened (w : World) (fuel : nat) (system backing target : string)
    (rest : list string) (e : Z) (s : InitState) :
  w_open w backing (Z.lor (loop_mode (loop_args system backing target rest)) O_CLOEXEC)
    = SysFail e ->
  do_mount w fuel (loop_args system backing target rest) s =
    (Some (Err (ErrnoError_with w e
                  ("open(" +:+ backing +:+ ", " +:+
                   pretty (loop_mode (loop_args system backing target rest)) +:+ ") failed"))),
     set_errno e
       (add_events
          [E_open backing (Z.lor (loop_mode (loop_args system backing target rest)) O_CLOEXEC)]
          s)).
Proof.
  intros Hopen. unfold do_mount.
  change (arg (loop_args system backing target rest) 1) with system.
  change (arg (loop_args system backing target rest) 2) with ("loop@" +:+ backing).
  change (arg (loop_args system backing target rest) 3) with target.
  rewrite prefix_loop, string_drop_loop.
  fold (loop_mode (loop_args system backing target rest)).
  unfold mbind, M_bind, ErrnoError. rewrite syscall_run, Hopen. reflexivity.
Qed.

(** X5.  A loop mount whose image cannot be opened fails at once: the error
    carries the open's errno text (ENOENT included, there is no filter
    on this path) and no loop device is touched. *)
Theorem loop_image_open_fails (w : World) (fuel : nat) (system backing target : string)
    (rest : list string) (e : Z) (s : InitState) :
  w_open w backing (Z.lor (loop_mode (loop_args system backing target rest)) O_CLOEXEC)
    = SysFail e ->
  do_mount w fuel (loop_args system backing target rest) s =
    (Some (Err (ErrnoError_with w e
                  ("open(" +:+ backing +:+ ", " +:+
                   pretty (loop_mode (loop_args system backing target rest)) +:+ ") failed"))),
     set_errno e
       (add_events
          [E_open backing (Z.lor (loop_mode (loop_args system backing target rest)) O_CLOEXEC)]
          s)).
Proof. apply do_mount_image_unopened. Qed.

(** X6.  The scan ends with an error at the first loop device node that
    cannot be opened: with the devices before number [k] all looked at
    and left (bound, or unbound and refusing the bind), a failing open
    of device [k] is returned with its errno text and nothing is
    mounted. *)
Theorem loop_device_open_fails (w : World) (fuel : nat) (system backing target : string)
    (rest : list string) (k : N) (e : Z) (s : InitState) :
  opens w backing (loop_mode (loop_args system backing target rest)) ->
  (forall i, (i < k)%N ->
     left w (loop_mode (loop_args system backing target rest)) (loop_device i)) ->
  w_open w (loop_device k)
    (Z.lor (loop_mode (loop_args system backing target rest)) O_CLOEXEC) = SysFail e ->
  (k < 2 ^ 64)%N ->
  (N.to_nat k < fuel)%nat ->
  fst (do_mount w fuel (loop_args system backing target rest) s) =
    Some (Err (ErrnoError_with w e
                 ("open(" +:+ loop_device k +:+ ", " +:+
                  pretty (loop_mode (loop_args system backing target rest)) +:+ ") failed")))
  /\ trace (snd (do_mount w fuel (loop_args system backing target rest) s)) =
     trace s ++
     [E_open backing (Z.lor (loop_mode (loop_args system backing target rest)) O_CLOEXEC)] ++
     left_behind w (loop_mode (loop_args system backing target rest)) 0 (N.to_nat k) ++
     [E_open (loop_device k)
        (Z.lor (loop_mode (loop_args system backing target rest)) O_CLOEXEC)].
Proof.
  intros [fd Hopen] Hleft Hfail Hsmall Hfuel.
  rewrite (do_mount_loop w fuel system backing target rest fd s Hopen).
  set (mode := loop_mode (loop_args system backing target rest)) in *.
  set (fl := flags (parse_mount_args (loop_args system backing target rest))).
  set (opts := options (parse_mount_args (loop_args system backing target rest))).
  destruct (loop_scan_leave_many w mode target system fl opts (N.to_nat k)
              (S (fuel - S (N.to_nat k))) 0%N
              (add_event (E_open backing (Z.lor mode O_CLOEXEC)) s))
    as (s1 & Hscan & Htrace1).
  { lia. }
  { intros i Hi. apply Hleft. lia. }
  replace (N.to_nat k + S (fuel - S (N.to_nat k)))%nat with fuel in Hscan by lia.
  replace (0 + N.of_nat (N.to_nat k))%N with k in Hscan by lia.
  rewrite Hscan. cbn [loop_scan]. unfold mbind, M_bind, ErrnoError.
  rewrite syscall_run, Hfail. simpl. split; [reflexivity |].
  rewrite Htrace1. simpl. by rewrite <- !app_assoc.
Qed.

Lemma loop_image_open_fails_witness :
  w_open more_samples.no_image_world "/system/app.img"
    (Z.lor (loop_mode (loop_args "ext4" "/system/app.img" "/mnt/app" [])) O_CLOEXEC)
    = SysFail ENOENT /\
  do_mount more_samples.no_image_world 8 (loop_args "ext4" "/system/app.img" "/mnt/app" [])
    boot_state =
  (Some (Err {| error_message := "open(/system/app.img, 2) failed: No such file or directory";
                error_code := ENOENT |}),
   set_errno ENOENT
     (add_events [E_open "/system/app.img" (Z.lor O_RDWR O_CLOEXEC)] boot_state)).
Proof.
  split; [reflexivity |].
  exact (loop_image_open_fails more_samples.no_image_world 8 "ext4" "/system/app.img"
           "/mnt/app" [] ENOENT boot_state eq_refl).
Defined.

Lemma loop_device_open_fails_witness :
  fst (do_mount more_samples.three_nodes_world 8
         (loop_args "ext4" "/system/app.img" "/mnt/app" ["ro"]) boot_state) =
    Some (Err {| error_message := "open(/dev/block/loop3, 0) failed: No such file or directory";
                 error_code := ENOENT |}).
Proof.
  assert (Hopen : forall path, path <> "/dev/block/loop3" ->
            opens more_samples.three_nodes_world path
              (loop_mode (loop_args "ext4" "/system/app.img" "/mnt/app" ["ro"]))).
  { intros path Hpath. exists 3%N. simpl.
    by destruct (String.eqb_spec path "/dev/block/loop3"). }
  assert (Hleft : forall i, (i < 3)%N ->
            left more_samples.three_nodes_world
              (loop_mode (loop_args "ext4" "/system/app.img" "/mnt/app" ["ro"]))
              (loop_device i)).
  { intros i Hi.
    assert (Hcases : i = 0%N \/ i = 1%N \/ i = 2%N) by lia.
    destruct Hcases as [-> | [-> | ->]];
      (split; [apply Hopen; discriminate | intros _; exists 16; reflexivity]). }
  assert (Hsmall : (3 < 2 ^ 64)%N) by reflexivity.
  assert (Hfuel : (N.to_nat 3 < 8)%nat) by (simpl; lia).
  exact (proj1 (loop_device_open_fails more_samples.three_nodes_world 8 "ext4"
                  "/system/app.img" "/mnt/app" ["ro"] 3 ENOENT boot_state
                  (Hopen "/system/app.img" ltac:(discriminate)) Hleft eq_refl Hsmall Hfuel)).
Defined.

(** X7.  Refused binds do not end the scan: with the devices before number
    [k] all looked at and left, the first unbound device that accepts
    the bind is the one mounted.  When that mount fails the device is
    unbound again and the error carries the errno of the mount, unless
    the unbinding fails too, in which case its errno is the one
    reported. *)
Theorem loop_mount_skips_refusals (w : World) (fuel : nat) (system backing target : string)
    (rest : list string) (k : N) (b : N) (s : InitState) :
  opens w backing (loop_mode (loop_args system backing target rest)) ->
  (forall i, (i < k)%N ->
     left w (loop_mode (loop_args system backing target rest)) (loop_device i)) ->
  opens w (loop_device k) (loop_mode (loop_args system backing target rest)) ->
  unbound w (loop_device k) ->
  w_ioctl w (loop_device k) LOOP_SET_FD = SysOk b ->
  (k < 2 ^ 64)%N ->
  (N.to_nat k < fuel)%nat ->
  trace (snd (do_mount w fuel (loop_args system backing target rest) s)) =
    trace s ++
    [E_open backing (Z.lor (loop_mode (loop_args system backing target rest)) O_CLOEXEC)] ++
    left_behind w (loop_mode (loop_args system backing target rest)) 0 (N.to_nat k) ++
    [ E_open (loop_device k)
        (Z.lor (loop_mode (loop_args system backing target rest)) O_CLOEXEC);
      E_ioctl (loop_device k) LOOP_GET_STATUS;
      E_ioctl (loop_device k) LOOP_SET_FD;
      E_mount (loop_device k) target system
        (flags (parse_mount_args (loop_args system backing target rest)))
        (options (parse_mount_args (loop_args system backing target rest))) ] ++
    match w_mount w (loop_device k) target system
            (flags (parse_mount_args (loop_args system backing target rest)))
            (options (parse_mount_args (loop_args system backing target rest))) with
    | SysOk _ => []
    | SysFail _ => [ E_ioctl (loop_device k) LOOP_CLR_FD ]
    end
  /\ fst (do_mount w fuel (loop_args system backing target rest) s) =
     match w_mount w (loop_device k) target system
             (flags (parse_mount_args (loop_args system backing target rest)))
             (options (parse_mount_args (loop_args system backing target rest))) with
     | SysOk _ => Some (Ok tt)
     | SysFail e =>
       Some (Err (ErrnoError_with w
                    match w_ioctl w (loop_device k) LOOP_CLR_FD with
                    | SysOk _ => e
                    | SysFail e' => e'
                    end "mount() failed"))
     end.
Proof.
  intros [fd Hopen] Hleft Hopens Hunbound Hbind Hsmall Hfuel.
  rewrite (do_mount_loop w fuel system backing target rest fd s Hopen).
  set (mode := loop_mode (loop_args system backing target rest)) in *.
  set (fl := flags (parse_mount_args (loop_args system backing target rest))).
  set (opts := options (parse_mount_args (loop_args system backing target rest))).
  destruct (loop_scan_leave_many w mode target system fl opts (N.to_nat k)
              (S (fuel - S (N.to_nat k))) 0%N
              (add_event (E_open backing (Z.lor mode O_CLOEXEC)) s))
    as (s1 & Hscan & Htrace1).
  { lia. }
  { intros i Hi. apply Hleft. lia. }
  replace (N.to_nat k + S (fuel - S (N.to_nat k)))%nat with fuel in Hscan by lia.
  replace (0 + N.of_nat (N.to_nat k))%N with k in Hscan by lia.
  rewrite Hscan.
  destruct (loop_scan_bind w mode target system fl opts (fuel - S (N.to_nat k)) k b s1
              Hopens Hunbound Hbind) as [Htrace Hresult].
  rewrite Htrace, Hresult, Htrace1. simpl trace.
  split; [by rewrite <- !app_assoc | reflexivity].
Qed.

Lemma loop_mount_skips_refusals_witness :
  trace (snd (do_mount more_samples.picky_world 8
                (loop_args "ext4" "/system/app.img" "/mnt/app" []) boot_state)) =
    [ E_open "/system/app.img" (Z.lor O_RDWR O_CLOEXEC);
      E_open "/dev/block/loop0" (Z.lor O_RDWR O_CLOEXEC);
      E_ioctl "/dev/block/loop0" LOOP_GET_STATUS;
      E_open "/dev/block/loop1" (Z.lor O_RDWR O_CLOEXEC);
      E_ioctl "/dev/block/loop1" LOOP_GET_STATUS;
      E_ioctl "/dev/block/loop1" LOOP_SET_FD;
      E_open "/dev/block/loop2" (Z.lor O_RDWR O_CLOEXEC);
      E_ioctl "/dev/block/loop2" LOOP_GET_STATUS;
      E_ioctl "/dev/block/loop2" LOOP_SET_FD;
      E_mount "/dev/block/loop2" "/mnt/app" "ext4" 0 None;
      E_ioctl "/dev/block/loop2" LOOP_CLR_FD ]
  /\ fst (do_mount more_samples.picky_world 8
            (loop_args "ext4" "/system/app.img" "/mnt/app" []) boot_state) =
     Some (Err {| error_message := "mount() failed: No such device or address";
                  error_code := ENXIO |}).
Proof.
  assert (Hopen : forall path, opens more_samples.picky_world path
                    (loop_mode (loop_args "ext4" "/system/app.img" "/mnt/app" [])))
    by (intros path; exists 3%N; reflexivity).
  assert (Hleft : forall i, (i < 2)%N ->
            left more_samples.picky_world
              (loop_mode (loop_args "ext4" "/system/app.img" "/mnt/app" []))
              (loop_device i)).
  { intros i Hi. assert (Hcases : i = 0%N \/ i = 1%N) by lia.
    destruct Hcases as [-> | ->]; (split; [apply Hopen |]).
    - intros Hu. vm_compute in Hu. discriminate.
    - intros _. exists 16. reflexivity. }
  assert (Hsmall : (2 < 2 ^ 64)%N) by reflexivity.
  assert (Hfuel : (N.to_nat 2 < 8)%nat) by (simpl; lia).
  exact (loop_mount_skips_refusals more_samples.picky_world 8 "ext4" "/system/app.img"
           "/mnt/app" [] 2 0 boot_state (Hopen "/system/app.img") Hleft
           (Hopen (loop_device 2)) eq_refl eq_refl Hsmall Hfuel).
Defined.

Lemma loop_scan_events (w : World) (mode : Z) (target system : string) (fl : Z)
    (opts : option string) (fuel : nat) : forall (n : N) (s : InitState),
  exists evs,
    trace (snd (loop_scan w fuel mode target system fl opts n s)) = trace s ++ evs
    /\ Forall (fun e => is_loop_event e = true) evs.
Proof.
  induction fuel as [| fuel IH]; intros n s.
  { exists []. split; [by rewrite app_nil_r | constructor]. }
  assert (Hnext : forall (s1 : InitState) (pre : list Event),
            trace s1 = trace s ++ pre ->
            Forall (fun e => is_loop_event e = true) pre ->
            exists evs,
              trace (snd (loop_scan w fuel mode target system fl opts (size_t_succ n) s1))
                = trace s ++ evs
              /\ Forall (fun e => is_loop_event e = true) evs).
  { intros s1 pre Hs1 Hpre. destruct (IH (size_t_succ n) s1) as (evs & Hevs & Hall).
    exists (pre ++ evs). split.
    - by rewrite Hevs, Hs1, <- app_assoc.
    - by apply Forall_app. }
  cbn [loop_scan]. unfold mbind, M_bind, get, ErrnoError.
  rewrite !syscall_run.
  destruct (w_open w (loop_device n) _) as [fd | err]; simpl.
  2: { eexists; split; [reflexivity | by repeat constructor]. }
  rewrite of_N_not_negative, syscall_run.
  destruct (w_ioctl w (loop_device n) LOOP_GET_STATUS) as [v | err]; simpl.
  { rewrite of_N_not_negative. simpl.
    apply (Hnext _ [E_open (loop_device n) (Z.lor mode O_CLOEXEC);
                    E_ioctl (loop_device n) LOOP_GET_STATUS]).
    - simpl. by rewrite <- app_assoc.
    - by repeat constructor. }
  destruct (err =? ENXIO); simpl.
  2: { apply (Hnext _ [E_open (loop_device n) (Z.lor mode O_CLOEXEC);
                       E_ioctl (loop_device n) LOOP_GET_STATUS]).
       - simpl. by rewrite <- app_assoc.
       - by repeat constructor. }
  rewrite syscall_run.
  destruct (w_ioctl w (loop_device n) LOOP_SET_FD) as [b | err'] eqn:Hbind; simpl.
  2: { apply (Hnext _ [E_open (loop_device n) (Z.lor mode O_CLOEXEC);
                       E_ioctl (loop_device n) LOOP_GET_STATUS;
                       E_ioctl (loop_device n) LOOP_SET_FD]).
       - simpl. by rewrite <- !app_assoc.
       - by repeat constructor. }
  assert (Hb : (0 <=? Z.of_N b) = true) by (apply Z.leb_le; lia).
  rewrite Hb, syscall_run.
  destruct (w_mount w (loop_device n) target system fl opts) as [v | err']; simpl.
  { rewrite of_N_not_negative. simpl.
    exists [E_open (loop_device n) (Z.lor mode O_CLOEXEC);
            E_ioctl (loop_device n) LOOP_GET_STATUS;
            E_ioctl (loop_device n) LOOP_SET_FD;
            E_mount (loop_device n) target system fl opts].
    split; [by rewrite <- !app_assoc | by repeat constructor]. }
  rewrite syscall_run.
  exists [E_open (loop_device n) (Z.lor mode O_CLOEXEC);
          E_ioctl (loop_device n) LOOP_GET_STATUS;
          E_ioctl (loop_device n) LOOP_SET_FD;
          E_mount (loop_device n) target system fl opts;
          E_ioctl (loop_device n) LOOP_CLR_FD].
  split; [| by repeat constructor].
  destruct (w_ioctl w (loop_device n) LOOP_CLR_FD); simpl; by rewrite <- !app_assoc.
Qed.

(** X8.  A loop mount never waits for a file: whatever the tokens (wait
    included), the answers of the kernel and the fuel, the command only
    adds opens, loop ioctls and mounts to the trace. *)
Theorem loop_mount_never_waits (w : World) (fuel : nat) (system backing target : string)
    (rest : list string) (s : InitState) :
  exists evs,
    trace (snd (do_mount w fuel (loop_args system backing target rest) s)) = trace s ++ evs
    /\ Forall (fun e => is_loop_event e = true) evs.
Proof.
  destruct (w_open w backing
              (Z.lor (loop_mode (loop_args system backing target rest)) O_CLOEXEC))
    as [fd | e] eqn:Hopen.
  - rewrite (do_mount_loop w fuel system backing target rest fd s Hopen).
    destruct (loop_scan_events w (loop_mode (loop_args system backing target rest)) target
                system (flags (parse_mount_args (loop_args system backing target rest)))
                (options (parse_mount_args (loop_args system backing target rest))) fuel 0%N
                (add_event (E_open backing
                   (Z.lor (loop_mode (loop_args system backing target rest)) O_CLOEXEC)) s))
      as (evs & Hevs & Hall).
    eexists (_ :: evs). split.
    + rewrite Hevs. simpl. by rewrite <- app_assoc.
    + by constructor.
  - rewrite (do_mount_image_unopened w fuel system backing target rest e s Hopen).
    eexists. split; [reflexivity | by repeat constructor].
Qed.

End mount_branches.

(** ** The state machine, whatever the codes *)

(** Shows that an event is not in an explicit list, possibly followed
    by a list known not to hold it. *)
Ltac absent :=
  solve [ intros Hin;
          repeat (apply elem_of_app in Hin as [Hin | Hin]);
          repeat (apply elem_of_cons in Hin as [Hin | Hin]; [try discriminate Hin |]);
          try (by apply elem_of_nil in Hin); try contradiction;
          try (destruct (_ =? _); discriminate Hin) ].

Section state_machine_shape.
Import init expected further.

(** The runs of [queue_fs_event], with no assumption on the codes. *)
Lemma queue_fs_event_cases (codes : MntAllCodes) (w : World) (code : Z)
    (userdata_remount : bool) (s : InitState) :
  queue_fs_event codes w code userdata_remount s ∈
    [ (Ok tt, add_events (fde_panic userdata_remount ++ [E_QueueEventTrigger "encrypt"]) s);
      (Ok tt, add_events (fde_panic userdata_remount ++
                          [E_property_set "ro.crypto.state" "encrypted";
                           E_property_set "ro.crypto.type" "block";
                           E_QueueEventTrigger "defaultcrypto"]) s);
      (Ok tt, add_events [E_property_set "ro.crypto.state" "unencrypted";
                          E_QueueEventTrigger "nonencrypted"] s);
      (Ok tt, add_events [E_property_set "ro.crypto.state" "unsupported";
                          E_QueueEventTrigger "nonencrypted"] s);
      appending (recovery_row w s) s;
      appending (file_encrypted_row w userdata_remount) s;
      (Err (Error ("Invalid code: " +:+ pretty code)), add_events [] s) ].
Proof.
  pose proof (recovery_branch_run w s) as Hrec.
  pose proof (file_encrypted_branch_run w userdata_remount s) as Hfile.
  unfold queue_fs_event.
  repeat match goal with
         | |- context [Z.eqb code ?c] => destruct (Z.eqb code c)
         end.
  - run. rewrite fde_remount_panic_run. rewrite !add_event_events, !add_events_app.
    set_solver.
  - run. rewrite fde_remount_panic_run. rewrite !add_event_events, !add_events_app.
    set_solver.
  - run. rewrite !add_event_events, !add_events_app. set_solver.
  - run. rewrite !add_event_events, !add_events_app. set_solver.
  - rewrite Hrec. set_solver.
  - rewrite Hfile. set_solver.
  - rewrite Hfile. set_solver.
  - rewrite Hfile. set_solver.
  - rewrite add_events_nil. set_solver.
Qed.

(** X9.  [queue_fs_event] fails safely: whatever the code and the codes of
    the header, when it returns an error it has written no property,
    queued no event and requested no shutdown. *)
Theorem queue_fs_event_fails_safely (codes : MntAllCodes) (w : World) (code : Z)
    (userdata_remount : bool) (s : InitState) (e : ResultError) :
  fst (queue_fs_event codes w code userdata_remount s) = Err e ->
  exists evs,
    snd (queue_fs_event codes w code userdata_remount s) = add_events evs s
    /\ Forall (fun ev => is_visible_effect ev = false) evs.
Proof.
  pose proof (queue_fs_event_cases codes w code userdata_remount s) as Hcases.
  rewrite !elem_of_cons, elem_of_nil in Hcases.
  destruct Hcases as [H | [H | [H | [H | [H | [H | [H | []]]]]]]]; rewrite H; clear H;
    try (intros Hfail; discriminate Hfail).
  - unfold appending, recovery_row.
    destruct (w_IsGsiRunning w); simpl.
    + intros _. eexists; split; [reflexivity | constructor].
    + destruct (w_write_bootloader_message w _); simpl; [| intros Hfail; discriminate Hfail].
      intros _. eexists; split; [reflexivity | by repeat constructor].
  - unfold appending, file_encrypted_row.
    destruct userdata_remount; simpl; [intros Hfail; discriminate Hfail |].
    destruct (w_FscryptInstallKeyring w); simpl; [intros Hfail; discriminate Hfail |].
    intros _. eexists; split; [reflexivity | by repeat constructor].
  - intros _. eexists; split; [reflexivity | constructor].
Qed.

Lemma queue_fs_event_fails_safely_witness :
  fst (queue_fs_event samples.fs_mgr_h samples.no_keyring_world 6 false boot_state)
    = Err (Error "FscryptInstallKeyring() failed") /\
  exists evs,
    snd (queue_fs_event samples.fs_mgr_h samples.no_keyring_world 6 false boot_state)
      = add_events evs boot_state
    /\ Forall (fun ev => is_visible_effect ev = false) evs.
Proof.
  split; [reflexivity |].
  exact (queue_fs_event_fails_safely samples.fs_mgr_h samples.no_keyring_world 6 false
           boot_state (Error "FscryptInstallKeyring() failed") eq_refl).
Defined.

(** X10.  A successful [queue_fs_event] ends on exactly one completing
    effect: its last effect is one of the events encrypt, defaultcrypto
    and nonencrypted, or the reboot request of the recovery row, and no
    event is queued before it. *)
Theorem queue_fs_event_success_shape (codes : MntAllCodes) (w : World) (code : Z)
    (userdata_remount : bool) (s : InitState) :
  fst (queue_fs_event codes w code userdata_remount s) = Ok tt ->
  exists pre final,
    snd (queue_fs_event codes w code userdata_remount s) = add_events (pre ++ [final]) s
    /\ (is_fs_trigger final = true \/ is_reboot_request final = true)
    /\ Forall (fun ev => is_event_trigger ev = false) pre.
Proof.
  pose proof (queue_fs_event_cases codes w code userdata_remount s) as Hcases.
  rewrite !elem_of_cons, elem_of_nil in Hcases.
  destruct Hcases as [H | [H | [H | [H | [H | [H | [H | []]]]]]]]; rewrite H; clear H;
    try (intros Hok; discriminate Hok); intros Hok; simpl snd.
  - exists (fde_panic userdata_remount), (E_QueueEventTrigger "encrypt").
    split; [reflexivity |]. split; [by left |].
    destruct userdata_remount; by repeat constructor.
  - exists (fde_panic userdata_remount ++
            [E_property_set "ro.crypto.state" "encrypted";
             E_property_set "ro.crypto.type" "block"]),
           (E_QueueEventTrigger "defaultcrypto").
    split; [by rewrite <- app_assoc |]. split; [by left |].
    destruct userdata_remount; by repeat constructor.
  - exists [E_property_set "ro.crypto.state" "unencrypted"], (E_QueueEventTrigger "nonencrypted").
    split; [reflexivity |]. split; [by left | by repeat constructor].
  - exists [E_property_set "ro.crypto.state" "unsupported"], (E_QueueEventTrigger "nonencrypted").
    split; [reflexivity |]. split; [by left | by repeat constructor].
  - revert Hok. unfold appending, recovery_row.
    destruct (w_IsGsiRunning w); simpl; [intros Hok; discriminate Hok |].
    destruct (w_write_bootloader_message w _); simpl; [intros Hok; discriminate Hok |].
    intros _.
    exists [ E_LOG ERROR ("fs_mgr_mount_all suggested recovery, so wiping data via recovery."
                          +:+ ": " +:+ w_strerror w (errno s));
             E_LOG ERROR "Rebooting into recovery";
             E_write_bootloader_message ["--wipe_data"; "--reason=fs_mgr_mount_all"] ],
           (if w_getpid w =? 1 then E_TriggerShutdown "reboot,recovery"
            else E_property_set "sys.powerctl" "reboot,recovery").
    split; [reflexivity |].
    split; [right; by destruct (w_getpid w =? 1) | by repeat constructor].
  - revert Hok. unfold appending, file_encrypted_row.
    destruct userdata_remount; simpl.
    + intros _.
      exists [E_property_set "ro.crypto.state" "encrypted";
              E_property_set "ro.crypto.type" "file"], (E_QueueEventTrigger "nonencrypted").
      split; [reflexivity |]. split; [by left | by repeat constructor].
    + destruct (w_FscryptInstallKeyring w); simpl; [| intros Hok; discriminate Hok].
      intros _.
      exists [E_FscryptInstallKeyring;
              E_property_set "ro.crypto.state" "encrypted";
              E_property_set "ro.crypto.type" "file"], (E_QueueEventTrigger "nonencrypted").
      split; [reflexivity |]. split; [by left | by repeat constructor].
Qed.

Lemma queue_fs_event_success_shape_witness :
  fst (queue_fs_event samples.fs_mgr_h samples.fair_world 4 false boot_state) = Ok tt /\
  exists pre final,
    snd (queue_fs_event samples.fs_mgr_h samples.fair_world 4 false boot_state)
      = add_events (pre ++ [final]) boot_state
    /\ (is_fs_trigger final = true \/ is_reboot_request final = true)
    /\ Forall (fun ev => is_event_trigger ev = false) pre.
Proof.
  split; [reflexivity |].
  exact (queue_fs_event_success_shape samples.fs_mgr_h samples.fair_world 4 false
           boot_state eq_refl).
Defined.

Lemma queue_fs_event_reentry_events (codes : MntAllCodes) (w : World) (code : Z)
    (s : InitState) :
  exists evs,
    snd (queue_fs_event codes w code true s) = add_events evs s
    /\ E_FscryptInstallKeyring ∉ evs.
Proof.
  pose proof (queue_fs_event_cases codes w code true s) as Hcases.
  rewrite !elem_of_cons, elem_of_nil in Hcases.
  destruct Hcases as [H | [H | [H | [H | [H | [H | [H | []]]]]]]]; rewrite H; clear H;
    simpl; try (eexists; split; [reflexivity | absent]).
  unfold appending, recovery_row.
  destruct (w_IsGsiRunning w); simpl; [eexists; split; [reflexivity | absent] |].
  destruct (w_write_bootloader_message w _); simpl;
    [eexists; split; [reflexivity | absent] |].
  destruct (w_getpid w =? 1); eexists; (split; [reflexivity | absent]).
Qed.

(** X11.  [remount_userdata] never installs the keyring, whatever outcome is
    recorded and whatever the collaborators answer. *)
Theorem remount_userdata_never_installs_keyring (codes : MntAllCodes) (w : World)
    (args : list string) (s : InitState) :
  exists evs,
    snd (do_remount_userdata codes w args s) = add_events evs s
    /\ E_FscryptInstallKeyring ∉ evs.
Proof.
  unfold do_remount_userdata. run.
  destruct (initial_mount_fstab_return_code s =? -1).
  { exists []. split; [by rewrite add_events_nil | absent]. }
  destruct (w_ReadDefaultFstab w) as [fstab |].
  2: { exists []. split; [by rewrite add_events_nil | absent]. }
  destruct (w_fs_mgr_remount_userdata_into_checkpointing w fstab <? 0); simpl;
    match goal with
    | |- context [queue_fs_event codes w ?c true ?s1] =>
      destruct (queue_fs_event_reentry_events codes w c s1) as (evs & Hevs & Hno);
      destruct (queue_fs_event codes w c true s1) as [[u | e] s2]
    end; simpl in *; subst s2.
  - exists ([E_fs_mgr_remount_userdata_into_checkpointing fstab;
             E_TriggerShutdown "reboot,mount-userdata-failed"] ++ evs).
    split; [by rewrite !add_event_events, !add_events_app | absent].
  - exists ([E_fs_mgr_remount_userdata_into_checkpointing fstab;
             E_TriggerShutdown "reboot,mount-userdata-failed"] ++ evs).
    split; [by rewrite !add_event_events, !add_events_app | absent].
  - exists ([E_fs_mgr_remount_userdata_into_checkpointing fstab] ++ evs).
    split; [by rewrite !add_event_events, !add_events_app | absent].
  - exists ([E_fs_mgr_remount_userdata_into_checkpointing fstab] ++ evs).
    split; [by rewrite !add_event_events, !add_events_app | absent].
Qed.

End state_machine_shape.

(** ** mount_all *)

Section mount_all_facts.
Import init expected further.

Lemma for_each_emit {A} (f : A -> Event) (l : list A) (s : InitState) :
  for_each l (fun x => emit (f x)) s = (tt, add_events (f <$> l) s).
Proof.
  revert s. induction l as [| x l IH]; intros s; simpl.
  - by rewrite add_events_nil.
  - unfold mbind, M_bind. unfold emit at 1, modify. rewrite IH.
    by rewrite add_events_cons.
Qed.

Lemma import_late_run (args : list string) (start_index end_index : nat) (s : InitState) :
  import_late args start_index end_index s =
    if (end_index <=? start_index)%nat then
      (tt, set_late_import_paths [] (add_events (E_ParseConfig <$> late_import_paths s) s))
    else
      (tt, add_events (E_ParseConfig <$> args_range args start_index end_index) s).
Proof.
  unfold import_late, args_range.
  destruct (end_index <=? start_index)%nat.
  - unfold mbind, M_bind, get. rewrite for_each_emit. reflexivity.
  - rewrite (for_each_emit (fun i => E_ParseConfig (arg args i))).
    by rewrite <- list_fmap_compose.
Qed.

(** X12.  The fallback import drains the queue: with an empty path range
    [import_late] parses the queued paths in order and empties the
    queue, so that running it again parses nothing; with a non-empty
    range it parses exactly that range of arguments and leaves the queue
    alone. *)
Theorem import_late_drains_queue (args : list string) (start_index end_index : nat)
    (s : InitState) :
  ((end_index <= start_index)%nat ->
   import_late args start_index end_index s =
     (tt, set_late_import_paths [] (add_events (E_ParseConfig <$> late_import_paths s) s))
   /\ import_late args start_index end_index (snd (import_late args start_index end_index s)) =
      (tt, snd (import_late args start_index end_index s)))
  /\ ((start_index < end_index)%nat ->
      import_late args start_index end_index s =
        (tt, add_events (E_ParseConfig <$> args_range args start_index end_index) s)
      /\ late_import_paths (snd (import_late args start_index end_index s)) =
         late_import_paths s).
Proof.
  split.
  - intros Hempty. rewrite !import_late_run.
    assert (Hle : (end_index <=? start_index)%nat = true) by (apply Nat.leb_le; lia).
    rewrite Hle. split; [reflexivity |]. simpl. by rewrite add_events_nil.
  - intros Hrange. rewrite !import_late_run.
    assert (Hle : (end_index <=? start_index)%nat = false) by (apply Nat.leb_gt; lia).
    rewrite Hle. by split.
Qed.

Lemma import_late_drains_queue_witness :
  (2 <= 2)%nat /\
  import_late ["mount_all"; "/vendor/etc/fstab"] 2 2 samples.early_state =
    (tt, set_late_import_paths []
           (add_events [E_ParseConfig "/vendor/etc/init"] samples.early_state)).
Proof.
  split; [lia |].
  apply (import_late_drains_queue ["mount_all"; "/vendor/etc/fstab"] 2 2 samples.early_state).
  lia.
Defined.

Lemma parse_mount_all_loop (rest pre : list string) (acc : MountAllArgs) :
  fold_right (fun na acc => mount_all_arg_step (pre ++ rest) acc na) acc
    (seq (length pre) (length rest)) =
  {| import_rc := if bool_decide ("--late" ∈ rest) then false else import_rc acc;
     queue_event := if bool_decide ("--early" ∈ rest) then false else queue_event acc;
     mount_mode := match list_find is_mount_all_option rest with
                   | Some (_, a) => if String.eqb a "--early" then MOUNT_MODE_EARLY
                                    else MOUNT_MODE_LATE
                   | None => mount_mode acc
                   end;
     path_arg_end := match list_find is_mount_all_option rest with
                     | Some (i, _) => length pre + i
                     | None => path_arg_end acc
                     end;
     prop_post_fix := match list_find is_mount_all_option rest with
                      | Some (_, a) => if String.eqb a "--early" then "early" else "late"
                      | None => prop_post_fix acc
                      end |}.
Proof.
  revert pre. induction rest as [| a rest IH]; intros pre.
  - by destruct acc.
  - cbn [length seq fold_right].
    replace (pre ++ a :: rest) with ((pre ++ [a]) ++ rest) by (by rewrite <- app_assoc).
    replace (S (length pre)) with (length (pre ++ [a])) by (rewrite length_app; simpl; lia).
    rewrite IH. clear IH.
    replace ((pre ++ [a]) ++ rest) with (pre ++ a :: rest) by (by rewrite <- app_assoc).
    unfold mount_all_arg_step. rewrite arg_middle.
    cbn [import_rc queue_event mount_mode path_arg_end prop_post_fix].
    cbn [list_find].
    assert (Hmem : forall o, o ∈ a :: rest <-> a = o \/ o ∈ rest)
      by (intros o; rewrite elem_of_cons; split; intros [? | ?]; auto).
    destruct (decide (is_mount_all_option a)) as [[-> | ->] | Hnot].
    + simpl String.eqb. rewrite Nat.add_0_r.
      f_equal; repeat case_bool_decide; try done; exfalso;
        rewrite ?Hmem in *; intuition congruence.
    + simpl String.eqb. rewrite Nat.add_0_r.
      f_equal; repeat case_bool_decide; try done; exfalso;
        rewrite ?Hmem in *; intuition congruence.
    + assert (Hne : a <> "--early") by (intros ->; apply Hnot; by left).
      assert (Hne' : a <> "--late") by (intros ->; apply Hnot; by right).
      destruct (String.eqb_spec a "--early") as [? | _]; [done |].
      destruct (String.eqb_spec a "--late") as [? | _]; [done |].
      destruct (list_find is_mount_all_option rest) as [[i b] |];
        cbn [fmap option_fmap option_map prod_map fst snd id];
        (f_equal; try (repeat case_bool_decide; try done; exfalso;
                       rewrite ?Hmem in *; intuition congruence)).
      rewrite length_app. simpl. lia.
Qed.

Lemma parse_mount_all_args_closed (cmd fstab_file : string) (rest : list string) :
  parse_mount_all_args (cmd :: fstab_file :: rest) =
  {| import_rc := negb (bool_decide ("--late" ∈ rest));
     queue_event := negb (bool_decide ("--early" ∈ rest));
     mount_mode := match list_find is_mount_all_option rest with
                   | Some (_, a) => if String.eqb a "--early" then MOUNT_MODE_EARLY
                                    else MOUNT_MODE_LATE
                   | None => MOUNT_MODE_DEFAULT
                   end;
     path_arg_end := match list_find is_mount_all_option rest with
                     | Some (i, _) => 2 + i
                     | None => 2 + length rest
                     end;
     prop_post_fix := match list_find is_mount_all_option rest with
                      | Some (_, a) => if String.eqb a "--early" then "early" else "late"
                      | None => "default"
                      end |}.
Proof.
  unfold parse_mount_all_args.
  set (init := {| import_rc := true; queue_event := true; mount_mode := MOUNT_MODE_DEFAULT;
                  path_arg_end := length (cmd :: fstab_file :: rest);
                  prop_post_fix := "default" |}).
  replace (length (cmd :: fstab_file :: rest) - 2)%nat with (length rest) by (simpl; lia).
  assert (Hfold : fold_left (mount_all_arg_step (cmd :: fstab_file :: rest))
                    (rev (seq 2 (length rest))) init =
                  fold_right (fun na acc => mount_all_arg_step ([cmd; fstab_file] ++ rest) acc na)
                    init (seq (length [cmd; fstab_file]) (length rest))).
  { rewrite <- (rev_involutive (seq (length [cmd; fstab_file]) (length rest))).
    rewrite fold_left_rev_right. reflexivity. }
  rewrite Hfold, parse_mount_all_loop. unfold init.
  cbn [import_rc queue_event mount_mode path_arg_end prop_post_fix length].
  f_equal; by repeat case_bool_decide.
Qed.


Lemma do_mount_all_run (codes : MntAllCodes) (w : World) (args : list string)
    (fstab : Fstab) (s : InitState) :
  w_ReadFstabFromFile w (arg args 1) = Some fstab ->
  do_mount_all codes w args s =
    if queue_event (parse_mount_all_args args) then
      (match fst (queue_fs_event codes w
                    (w_fs_mgr_mount_all w fstab (mount_mode (parse_mount_all_args args))) false
                    (set_initial_mount_fstab_return_code
                       (w_fs_mgr_mount_all w fstab (mount_mode (parse_mount_all_args args)))
                       (mounted_and_imported w args fstab s))) with
       | Err e => Err (Error_from "queue_fs_event() failed: " e)
       | Ok _ => Ok tt
       end,
       snd (queue_fs_event codes w
              (w_fs_mgr_mount_all w fstab (mount_mode (parse_mount_all_args args))) false
              (set_initial_mount_fstab_return_code
                 (w_fs_mgr_mount_all w fstab (mount_mode (parse_mount_all_args args)))
                 (mounted_and_imported w args fstab s))))
    else (Ok tt, mounted_and_imported w args fstab s).
Proof.
  intros Hfstab. unfold do_mount_all, mounted_and_imported, imported. rewrite Hfstab.
  set (parsed := parse_mount_all_args args).
  set (rc := w_fs_mgr_mount_all w fstab (mount_mode parsed)).
  unfold mbind, M_bind, property_set, emit, modify, when, mret, M_ret.
  assert (Htail : forall st st' : InitState, st = st' ->
            (let '(a0, s'0) := queue_fs_event codes w rc false st in
             match a0 with
             | Ok _ => fun s0 : InitState => (Ok tt, s0)
             | Err e => fun s0 : InitState =>
                          (Err (Error_from "queue_fs_event() failed: " e), s0)
             end s'0) =
            (match fst (queue_fs_event codes w rc false st') with
             | Err e => Err (Error_from "queue_fs_event() failed: " e)
             | Ok _ => Ok tt
             end, snd (queue_fs_event codes w rc false st'))).
  { intros st st' ->. by destruct (queue_fs_event codes w rc false st') as [[u | e] s2]. }
  destruct (import_rc parsed && (w_SelinuxGetVendorAndroidVersion w <=? __ANDROID_API_Q__));
    cbn [andb].
  - rewrite import_late_run. cbn [late_import_paths add_event].
    destruct (path_arg_end parsed <=? 2)%nat; cbn [snd];
      (destruct (queue_event parsed);
       [ apply Htail | f_equal ];
       unfold add_events, add_event, set_initial_mount_fstab_return_code,
         set_late_import_paths; simpl; by rewrite <- ?app_assoc).
  - destruct (queue_event parsed);
      [ apply Htail | f_equal ];
      unfold add_events, add_event, set_initial_mount_fstab_return_code; simpl;
      by rewrite <- ?app_assoc.
Qed.

Lemma invalid_code_row (codes : MntAllCodes) (w : World) (code : Z)
    (userdata_remount : bool) (s : InitState) :
  code ∉ enumerated_codes codes ->
  queue_fs_event codes w code userdata_remount s =
    (Err (Error ("Invalid code: " +:+ pretty code)), s).
Proof.
  destruct codes as [c_ne c_mbe c_nen c_nea c_rec c_fe c_ime c_nme].
  unfold enumerated_codes, queue_fs_event; simpl. rewrite !not_elem_of_cons.
  intros Hout. destruct_and?. decide_tests. reflexivity.
Qed.

Lemma file_encrypted_codes_row (codes : MntAllCodes) (w : World) (code : Z)
    (userdata_remount : bool) (s : InitState) :
  codes_wf codes ->
  code ∈ [ FS_MGR_MNTALL_DEV_FILE_ENCRYPTED codes;
           FS_MGR_MNTALL_DEV_IS_METADATA_ENCRYPTED codes;
           FS_MGR_MNTALL_DEV_NEEDS_METADATA_ENCRYPTION codes ] ->
  queue_fs_event codes w code userdata_remount s =
    appending (file_encrypted_row w userdata_remount) s.
Proof.
  intros Hwf Hcode.
  pose proof (file_encrypted_branch_run w userdata_remount s) as Hfile.
  split_codes codes Hwf. simpl in Hcode.
  rewrite !elem_of_cons, elem_of_nil in Hcode.
  unfold queue_fs_event; simpl.
  destruct Hcode as [-> | [-> | [-> | []]]]; decide_tests; exact Hfile.
Qed.

Lemma remount_too_early (codes : MntAllCodes) (w : World) (args : list string)
    (s : InitState) :
  initial_mount_fstab_return_code s = -1 ->
  do_remount_userdata codes w args s =
    (Err (Error "Calling remount_userdata too early"), s).
Proof. intros Hboot. unfold do_remount_userdata. run. by rewrite Hboot. Qed.

Lemma mounted_and_imported_keeps (w : World) (args : list string) (fstab : Fstab)
    (s : InitState) :
  initial_mount_fstab_return_code (mounted_and_imported w args fstab s) =
    initial_mount_fstab_return_code s.
Proof. unfold mounted_and_imported. by destruct (_ && _ && _). Qed.

(** X14.  An early [mount_all] records nothing: with --early among its
    options it mounts, writes the boot-time property and imports, but
    it does not run the state machine and leaves the recorded outcome
    alone; if no outcome was recorded before, a [remount_userdata] that
    follows still fails as too early. *)
Theorem mount_all_early_records_nothing (codes : MntAllCodes) (w : World)
    (cmd fstab_file : string) (rest args' : list string) (fstab : Fstab) (s : InitState) :
  w_ReadFstabFromFile w fstab_file = Some fstab ->
  "--early" ∈ rest ->
  do_mount_all codes w (cmd :: fstab_file :: rest) s =
    (Ok tt, mounted_and_imported w (cmd :: fstab_file :: rest) fstab s)
  /\ initial_mount_fstab_return_code (snd (do_mount_all codes w (cmd :: fstab_file :: rest) s))
     = initial_mount_fstab_return_code s
  /\ (initial_mount_fstab_return_code s = -1 ->
      do_remount_userdata codes w args' (snd (do_mount_all codes w (cmd :: fstab_file :: rest) s))
      = (Err (Error "Calling remount_userdata too early"),
         snd (do_mount_all codes w (cmd :: fstab_file :: rest) s))).
Proof.
  intros Hfstab Hearly.
  assert (Hrun : do_mount_all codes w (cmd :: fstab_file :: rest) s =
                 (Ok tt, mounted_and_imported w (cmd :: fstab_file :: rest) fstab s)).
  { rewrite (do_mount_all_run codes w (cmd :: fstab_file :: rest) fstab s Hfstab).
    assert (Hq : queue_event (parse_mount_all_args (cmd :: fstab_file :: rest)) = false).
    { rewrite parse_mount_all_args_closed. cbn [queue_event].
      by rewrite bool_decide_eq_true_2. }
    by rewrite Hq. }
  rewrite Hrun. cbn [snd].
  split; [reflexivity |]. split; [apply mounted_and_imported_keeps |].
  intros Hboot. apply remount_too_early. by rewrite mounted_and_imported_keeps.
Qed.

Lemma mount_all_early_records_nothing_witness :
  w_ReadFstabFromFile samples.fair_world "/vendor/etc/fstab" = Some [samples.userdata] /\
  "--early" ∈ ["/vendor/etc/init/hw.rc"; "--early"] /\
  do_mount_all samples.fs_mgr_h samples.fair_world
    ["mount_all"; "/vendor/etc/fstab"; "/vendor/etc/init/hw.rc"; "--early"] boot_state =
  (Ok tt,
   add_events [ E_fs_mgr_mount_all [samples.userdata] MOUNT_MODE_EARLY;
                E_property_set "ro.boottime.init.mount_all.early" "42";
                E_ParseConfig "/vendor/etc/init/hw.rc" ] boot_state).
Proof.
  assert (Hearly : "--early" ∈ ["/vendor/etc/init/hw.rc"; "--early"])
    by (apply list_elem_of_further, list_elem_of_here).
  split; [reflexivity |]. split; [exact Hearly |].
  exact (proj1 (mount_all_early_records_nothing samples.fs_mgr_h samples.fair_world
                  "mount_all" "/vendor/etc/fstab" ["/vendor/etc/init/hw.rc"; "--early"]
                  [] [samples.userdata] boot_state eq_refl Hearly)).
Defined.

(** X15.  A failed [mount_all] looks like none: when [fs_mgr_mount_all]
    returns -1 and the event is to be queued, the command returns the
    state machine's "Invalid code: -1" error and records -1, the very
    value that means nothing is recorded; whatever was recorded before
    is lost and a [remount_userdata] that follows fails as too early. *)
Theorem mount_all_failure_is_too_early (codes : MntAllCodes) (w : World)
    (cmd fstab_file : string) (rest args' : list string) (fstab : Fstab) (s : InitState) :
  codes_wf codes ->
  w_ReadFstabFromFile w fstab_file = Some fstab ->
  "--early" ∉ rest ->
  w_fs_mgr_mount_all w fstab (mount_mode (parse_mount_all_args (cmd :: fstab_file :: rest)))
    = (-1) ->
  fst (do_mount_all codes w (cmd :: fstab_file :: rest) s) =
    Err (Error "queue_fs_event() failed: Invalid code: -1")
  /\ initial_mount_fstab_return_code
       (snd (do_mount_all codes w (cmd :: fstab_file :: rest) s)) = -1
  /\ do_remount_userdata codes w args'
       (snd (do_mount_all codes w (cmd :: fstab_file :: rest) s))
     = (Err (Error "Calling remount_userdata too early"),
        snd (do_mount_all codes w (cmd :: fstab_file :: rest) s)).
Proof.
  intros Hwf Hfstab Hlate Hrc.
  assert (Hq : queue_event (parse_mount_all_args (cmd :: fstab_file :: rest)) = true).
  { rewrite parse_mount_all_args_closed. cbn [queue_event].
    by rewrite bool_decide_eq_false_2. }
  assert (Hout : -1 ∉ enumerated_codes codes).
  { intros Hin. by apply (proj2 (codes_wf_distinct codes Hwf) (-1) Hin). }
  rewrite (do_mount_all_run codes w (cmd :: fstab_file :: rest) fstab s Hfstab).
  rewrite Hq, Hrc, (invalid_code_row codes w (-1) false _ Hout). cbn [fst snd].
  split; [reflexivity |]. split; [reflexivity |].
  by apply remount_too_early.
Qed.

Lemma mount_all_failure_is_too_early_witness :
  codes_wf samples.fs_mgr_h /\
  ("--early" ∉ ["--late"]) /\
  do_remount_userdata samples.fs_mgr_h more_samples.mount_all_fails_world ["remount_userdata"]
    (snd (do_mount_all samples.fs_mgr_h more_samples.mount_all_fails_world
            ["mount_all"; "/vendor/etc/fstab"; "--late"] (samples.recorded 5)))
  = (Err (Error "Calling remount_userdata too early"),
     snd (do_mount_all samples.fs_mgr_h more_samples.mount_all_fails_world
            ["mount_all"; "/vendor/etc/fstab"; "--late"] (samples.recorded 5))).
Proof.
  assert (Hno : "--early" ∉ ["--late"]).
  { intros Hin. apply list_elem_of_singleton in Hin. discriminate Hin. }
  split; [exact fs_mgr_h_wf |]. split; [exact Hno |].
  exact (proj2 (proj2 (mount_all_failure_is_too_early samples.fs_mgr_h
           more_samples.mount_all_fails_world "mount_all" "/vendor/etc/fstab" ["--late"]
           ["remount_userdata"] [samples.userdata] (samples.recorded 5)
           fs_mgr_h_wf eq_refl Hno eq_refl))).
Defined.

Lemma do_remount_userdata_run (codes : MntAllCodes) (w : World) (args : list string)
    (fstab : Fstab) (s : InitState) :
  initial_mount_fstab_return_code s <> (-1) ->
  w_ReadDefaultFstab w = Some fstab ->
  snd (do_remount_userdata codes w args s) =
    snd (queue_fs_event codes w (initial_mount_fstab_return_code s) true
           (add_events
              (E_fs_mgr_remount_userdata_into_checkpointing fstab ::
               if w_fs_mgr_remount_userdata_into_checkpointing w fstab <? 0
               then [E_TriggerShutdown "reboot,mount-userdata-failed"] else []) s)).
Proof.
  intros Hrec Hfstab. unfold do_remount_userdata. run. rewrite Hfstab.
  destruct (Z.eqb_spec (initial_mount_fstab_return_code s) (-1)) as [? | _]; [done |].
  destruct (w_fs_mgr_remount_userdata_into_checkpointing w fstab <? 0); simpl;
    rewrite !add_event_events, ?add_events_app; simpl;
    by destruct (queue_fs_event codes w _ true _) as [[u | e] s2].
Qed.

Lemma keyring_installs_app (t1 t2 : list Event) :
  keyring_installs (t1 ++ t2) = (keyring_installs t1 + keyring_installs t2)%nat.
Proof. unfold keyring_installs. by rewrite filter_app, length_app. Qed.

Lemma keyring_installs_imports (paths : list string) :
  keyring_installs (E_ParseConfig <$> paths) = 0%nat.
Proof.
  unfold keyring_installs. induction paths as [| p paths IH]; [reflexivity |].
  rewrite fmap_cons, filter_cons_False by discriminate. exact IH.
Qed.

Lemma mounted_and_imported_trace (w : World) (args : list string) (fstab : Fstab)
    (s : InitState) :
  trace (mounted_and_imported w args fstab s) =
    trace s ++
    [ E_fs_mgr_mount_all fstab (mount_mode (parse_mount_all_args args));
      E_property_set ("ro.boottime.init.mount_all." +:+
                      prop_post_fix (parse_mount_all_args args))
        (pretty (w_timer_duration w)) ] ++
    (E_ParseConfig <$> imported w args s).
Proof. unfold mounted_and_imported. by destruct (_ && _ && _). Qed.

Lemma file_row_installs (w : World) :
  keyring_installs (snd (file_encrypted_row w false)) = 1%nat
  /\ keyring_installs (snd (file_encrypted_row w true)) = 0%nat.
Proof. unfold file_encrypted_row. by destruct (w_FscryptInstallKeyring w). Qed.

(** X16.  The keyring is installed once: when [mount_all] finds one of the
    three file-encryption outcomes and [remount_userdata] follows, the
    two commands together install the keyring exactly once (in
    [mount_all]), whether or not the installation succeeds. *)
Theorem keyring_installed_once (codes : MntAllCodes) (w : World)
    (cmd fstab_file : string) (rest args' : list string) (fstab fstab' : Fstab)
    (s : InitState) :
  codes_wf codes ->
  w_ReadFstabFromFile w fstab_file = Some fstab ->
  "--early" ∉ rest ->
  w_fs_mgr_mount_all w fstab (mount_mode (parse_mount_all_args (cmd :: fstab_file :: rest)))
    ∈ [ FS_MGR_MNTALL_DEV_FILE_ENCRYPTED codes;
        FS_MGR_MNTALL_DEV_IS_METADATA_ENCRYPTED codes;
        FS_MGR_MNTALL_DEV_NEEDS_METADATA_ENCRYPTION codes ] ->
  w_ReadDefaultFstab w = Some fstab' ->
  keyring_installs (trace (snd (do_mount_all codes w (cmd :: fstab_file :: rest) s))) =
    S (keyring_installs (trace s))
  /\ keyring_installs
       (trace (snd (do_remount_userdata codes w args'
                      (snd (do_mount_all codes w (cmd :: fstab_file :: rest) s))))) =
     S (keyring_installs (trace s)).
Proof.
  intros Hwf Hfstab Hnoearly Hrc Hdefault.
  set (args := cmd :: fstab_file :: rest) in *.
  set (rc := w_fs_mgr_mount_all w fstab (mount_mode (parse_mount_all_args args))) in *.
  assert (Hq : queue_event (parse_mount_all_args args) = true).
  { unfold args. rewrite parse_mount_all_args_closed. cbn [queue_event].
    by rewrite bool_decide_eq_false_2. }
  assert (Hne : rc <> -1).
  { apply (proj2 (codes_wf_distinct codes Hwf)).
    unfold enumerated_codes. rewrite !elem_of_cons in *. tauto. }
  assert (Hs1 : snd (do_mount_all codes w args s) =
                add_events (snd (file_encrypted_row w false))
                  (set_initial_mount_fstab_return_code rc
                     (mounted_and_imported w args fstab s))).
  { rewrite (do_mount_all_run codes w args fstab s Hfstab). fold rc. rewrite Hq.
    by rewrite (file_encrypted_codes_row codes w rc false _ Hwf Hrc). }
  assert (Hcount1 : keyring_installs (trace (snd (do_mount_all codes w args s))) =
                    S (keyring_installs (trace s))).
  { rewrite Hs1. cbn [trace add_events set_initial_mount_fstab_return_code].
    rewrite mounted_and_imported_trace, !keyring_installs_app, keyring_installs_imports.
    rewrite (proj1 (file_row_installs w)).
    change (keyring_installs [_; _]) with 0%nat. lia. }
  split; [exact Hcount1 |].
  rewrite (do_remount_userdata_run codes w args' fstab' _); [| by rewrite Hs1 | done].
  assert (Hcode : initial_mount_fstab_return_code (snd (do_mount_all codes w args s)) = rc)
    by (by rewrite Hs1).
  rewrite Hcode, (file_encrypted_codes_row codes w rc true _ Hwf Hrc).
  unfold appending. cbn [snd trace add_events].
  rewrite !keyring_installs_app, Hcount1, (proj2 (file_row_installs w)).
  destruct (w_fs_mgr_remount_userdata_into_checkpointing w fstab' <? 0);
    [change (keyring_installs [_; _]) with 0%nat
    | change (keyring_installs [_]) with 0%nat]; lia.
Qed.

Lemma keyring_installed_once_witness :
  keyring_installs
    (trace (snd (do_remount_userdata samples.fs_mgr_h more_samples.file_encrypted_world
                   ["remount_userdata"]
                   (snd (do_mount_all samples.fs_mgr_h more_samples.file_encrypted_world
                           ["mount_all"; "/vendor/etc/fstab"] boot_state))))) = 1%nat.
Proof.
  assert (Hno : "--early" ∉ []) by apply not_elem_of_nil.
  assert (Hin : w_fs_mgr_mount_all more_samples.file_encrypted_world [samples.userdata]
                  (mount_mode (parse_mount_all_args ["mount_all"; "/vendor/etc/fstab"]))
                ∈ [ FS_MGR_MNTALL_DEV_FILE_ENCRYPTED samples.fs_mgr_h;
                    FS_MGR_MNTALL_DEV_IS_METADATA_ENCRYPTED samples.fs_mgr_h;
                    FS_MGR_MNTALL_DEV_NEEDS_METADATA_ENCRYPTION samples.fs_mgr_h ])
    by apply list_elem_of_here.
  exact (proj2 (keyring_installed_once samples.fs_mgr_h more_samples.file_encrypted_world
                  "mount_all" "/vendor/etc/fstab" [] ["remount_userdata"]
                  [samples.userdata] [samples.userdata] boot_state
                  fs_mgr_h_wf eq_refl Hno Hin eq_refl)).
Defined.

End mount_all_facts.

(** ** Device mapper: the control block and the decoded name *)

Section dm_more.
Import fs_mgr_dm further.

Lemma testbit_ff (n : Z) : 0 <= n -> Z.testbit 0xff n = (n <? 8).
Proof. intros Hn. change 0xff with (Z.ones 8). by apply Z.testbit_ones_nonneg. Qed.

Lemma testbit_fff00 (n : Z) : 0 <= n -> Z.testbit 0xfff00 n = (8 <=? n) && (n <? 20).
Proof.
  intros Hn. change 0xfff00 with (Z.shiftl (Z.ones 12) 8).
  rewrite Z.shiftl_spec by lia.
  destruct (Z.leb_spec 8 n).
  - rewrite Z.testbit_ones_nonneg by lia. simpl.
    destruct (Z.ltb_spec (n - 8) 12), (Z.ltb_spec n 20); (reflexivity || lia).
  - by rewrite Z.testbit_neg_r by lia.
Qed.

Lemma small_bits (x k n : Z) : 0 <= x < 2 ^ k -> 0 <= k <= n -> Z.testbit x n = false.
Proof.
  intros Hx Hk. rewrite <- (Z.mod_small x (2 ^ k)) by lia.
  apply Z.mod_pow2_bits_high. lia.
Qed.

Lemma decode_huge_encode (major minor : Z) :
  0 <= major < 2 ^ 12 -> 0 <= minor < 2 ^ 20 ->
  spec_dev_num (huge_encode_dev major minor) = minor.
Proof.
  intros Hmajor Hminor. apply Z.bits_inj'. intros n Hn.
  unfold spec_dev_num, huge_encode_dev.
  rewrite Z.lor_spec, !Z.land_spec, Z.shiftr_spec by lia.
  rewrite !Z.lor_spec, !Z.land_spec, !Z.shiftl_spec by lia.
  rewrite (testbit_ff n), (testbit_fff00 n) by lia.
  destruct (Z.ltb_spec n 8) as [Hlow | Hhigh].
  - rewrite (Z.testbit_neg_r major (n - 8)), (Z.testbit_neg_r _ (n - 12)) by lia.
    assert (H8 : (8 <=? n) = false) by (apply Z.leb_gt; lia).
    rewrite H8. simpl. by rewrite !andb_true_r, !andb_false_r, !orb_false_r.
  - assert (H8 : (8 <=? n) = true) by (apply Z.leb_le; lia).
    rewrite H8, !andb_false_r. simpl.
    destruct (Z.ltb_spec n 20) as [Hmid | Htop].
    + rewrite andb_true_r.
      rewrite (small_bits major 12 (n + 12 - 8)) by lia.
      replace (n + 12 - 12) with n by lia.
      rewrite Z.land_spec, Z.lnot_spec by lia.
      rewrite (testbit_ff (n + 12)), (testbit_ff n) by lia.
      assert (H20 : (n + 12 <? 8) = false) by (apply Z.ltb_ge; lia).
      assert (Hn8 : (n <? 8) = false) by (apply Z.ltb_ge; lia).
      rewrite H20, Hn8. simpl. by rewrite andb_false_r, andb_true_r.
    + rewrite andb_false_r. symmetry. apply (small_bits minor 20 n); lia.
Qed.

(** X17.  The name round trip: when the kernel reports the packed number of
    the device with major [major] and minor [minor], the decoded name is
    "/dev/block/dm-" followed by the minor; the major plays no part. *)
Theorem device_name_is_minor (k : dm_kernel) (nm : string) (fd major minor : Z)
    (io' : dm_ioctl) :
  0 <= major < 2 ^ 12 ->
  0 <= minor < 2 ^ 20 ->
  k fd DM_DEV_STATUS (fs_mgr_dm_ioctl_init sizeof_dm_ioctl nm) = (0, io') ->
  dev io' = huge_encode_dev major minor ->
  fs_mgr_dm_get_device_name k nm fd =
    {| dm_ret := true;
       dm_out_dev_name := Some ("/dev/block/dm-" +:+ pretty minor);
       dm_perror := [] |}.
Proof.
  intros Hmajor Hminor Hk Hdev.
  unfold fs_mgr_dm_get_device_name. rewrite Hk. simpl.
  by rewrite Hdev, dev_num_of_spec, decode_huge_encode.
Qed.

Lemma device_name_is_minor_witness :
  fs_mgr_dm_get_device_name (samples.dm_reports (huge_encode_dev 253 300)) "vendor" 3 =
    {| dm_ret := true; dm_out_dev_name := Some "/dev/block/dm-300"; dm_perror := [] |}.
Proof.
  apply (device_name_is_minor (samples.dm_reports (huge_encode_dev 253 300)) "vendor" 3 253 300
           (snd (samples.dm_reports (huge_encode_dev 253 300) 3 DM_DEV_STATUS
                   (fs_mgr_dm_ioctl_init sizeof_dm_ioctl "vendor"))));
    (lia || reflexivity).
Defined.



(** X19.  [fs_mgr_dm_get_device_name] stores a name exactly when it returns
    true, and a stored name is always "/dev/block/dm-" followed by a
    number between 0 and 2^20 - 1, whatever the kernel left in the
    [dev] field; on failure nothing is stored and one error is
    logged. *)
Theorem device_name_shape (k : dm_kernel) (nm : string) (fd : Z) :
  match dm_out_dev_name (fs_mgr_dm_get_device_name k nm fd) with
  | Some path =>
    dm_ret (fs_mgr_dm_get_device_name k nm fd) = true
    /\ dm_perror (fs_mgr_dm_get_device_name k nm fd) = []
    /\ exists n, 0 <= n < 2 ^ 20 /\ path = "/dev/block/dm-" +:+ pretty n
  | None =>
    dm_ret (fs_mgr_dm_get_device_name k nm fd) = false
    /\ dm_perror (fs_mgr_dm_get_device_name k nm fd) =
       ["Error fetching device-mapper device number"]
    /\ fst (k fd DM_DEV_STATUS (fs_mgr_dm_ioctl_init sizeof_dm_ioctl nm)) <> 0
  end.
Proof.
  unfold fs_mgr_dm_get_device_name.
  destruct (k fd DM_DEV_STATUS (fs_mgr_dm_ioctl_init sizeof_dm_ioctl nm)) as [rc io'].
  case_bool_decide as Hrc; simpl.
  - by repeat split.
  - repeat split. exists (spec_dev_num (dev io')).
    split; [apply spec_dev_num_range | by rewrite dev_num_of_spec].
Qed.

End dm_more.

(** ** [get_mode], [do_loglevel] and the class commands without a gate *)

Section builtins_more.
Import init init_more further more_samples.

Lemma octal_digit_range (c : Ascii.ascii) :
  is_octal_digit c = true -> 0 <= digit_value c < 8.
Proof.
  unfold is_octal_digit, digit_value. intros H.
  apply andb_prop in H as [H1 H2].
  apply N.leb_le in H1. apply N.leb_le in H2. lia.
Qed.

Lemma octal_digit_not_nul (c : Ascii.ascii) :
  is_octal_digit c = true -> (Ascii.N_of_ascii c =? 0)%N = false.
Proof.
  unfold is_octal_digit. intros H.
  apply andb_prop in H as [H1 _]. apply N.leb_le in H1.
  apply N.eqb_neq. lia.
Qed.

Lemma lor_shift_digit (m d : Z) :
  0 <= d < 8 -> Z.lor (Z.shiftl m 3) d = 8 * m + d.
Proof.
  intros Hd.
  assert (Hland : Z.land (Z.shiftl m 3) d = 0).
  { apply Z.bits_inj'. intros i Hi.
    rewrite Z.land_spec, Z.bits_0.
    destruct (Z.lt_ge_cases i 3) as [Hlt | Hge].
    - rewrite Z.shiftl_spec_low by lia. reflexivity.
    - replace (Z.testbit d i) with false; [apply andb_false_r |].
      symmetry. destruct (Z.eq_dec d 0) as [-> | Hnz]; [apply Z.bits_0 |].
      apply Z.bits_above_log2; [lia |].
      apply Z.log2_lt_pow2; [lia |].
      apply Z.lt_le_trans with (2 ^ 3); [simpl; lia |].
      apply Z.pow_le_mono_r; lia. }
  rewrite <- Z.lxor_lor by exact Hland.
  rewrite <- Z.add_nocarry_lxor by exact Hland.
  rewrite Z.shiftl_mul_pow2 by lia. simpl. lia.
Qed.

Definition octal_step (acc : Z) (c : Ascii.ascii) : Z := 8 * acc + digit_value c.

Lemma get_mode_from_octal (bits : Z) (s : string) (x : Z) :
  0 <= bits -> all_octal s ->
  get_mode_from bits (x mod 2 ^ bits) s =
    fold_left octal_step (String.list_ascii_of_string s) x mod 2 ^ bits.
Proof.
  intros Hbits. unfold all_octal. revert x.
  induction s as [| c s IH]; intros x Hall; simpl in *.
  - reflexivity.
  - apply Forall_cons in Hall as [Hc Hall].
    rewrite (octal_digit_not_nul c Hc), Hc.
    rewrite lor_shift_digit by (apply octal_digit_range; exact Hc).
    assert (Hpos : 0 < 2 ^ bits) by (apply Z.pow_pos_nonneg; lia).
    replace ((8 * (x mod 2 ^ bits) + digit_value c) mod 2 ^ bits)
      with (octal_step x c mod 2 ^ bits).
    + apply IH. exact Hall.
    + unfold octal_step.
      rewrite (Z.add_mod (8 * (x mod 2 ^ bits))), Z.mul_mod_idemp_r by lia.
      rewrite <- Z.add_mod by lia. reflexivity.
Qed.

Lemma octal_fold_bound (l : list Ascii.ascii) (x k : Z) :
  Forall (fun c => is_octal_digit c = true) l ->
  0 <= k -> 0 <= x < 2 ^ (3 * k) ->
  0 <= fold_left octal_step l x < 2 ^ (3 * (k + Z.of_nat (length l))).
Proof.
  revert x k. induction l as [| c l IH]; intros x k Hall Hk Hx; simpl length.
  - simpl. replace (k + Z.of_nat 0) with k by lia. exact Hx.
  - apply Forall_cons in Hall as [Hc Hall].
    pose proof (octal_digit_range c Hc) as Hd.
    simpl fold_left.
    replace (k + Z.of_nat (S (length l))) with ((k + 1) + Z.of_nat (length l)) by lia.
    apply IH; [exact Hall | lia |].
    unfold octal_step.
    replace (3 * (k + 1)) with (3 + 3 * k) by lia.
    rewrite Z.pow_add_r by lia. simpl (2 ^ 3). lia.
Qed.

Lemma length_list_ascii (s : string) :
  length (String.list_ascii_of_string s) = String.length s.
Proof. induction s as [| c s IH]; simpl; congruence. Qed.

(** X20.  A text of octal digits is read as its octal value, reduced to
    the width of [mode_t]; the empty text is mode 0.  A text of at most
    [bits / 3] digits is not reduced at all. *)
Theorem get_mode_octal (bits : Z) (s : string) :
  0 <= bits -> all_octal s ->
  get_mode bits s = octal_value s mod 2 ^ bits /\
  (3 * Z.of_nat (String.length s) <= bits -> get_mode bits s = octal_value s).
Proof.
  intros Hbits Hall.
  assert (Hpos : 0 < 2 ^ bits) by (apply Z.pow_pos_nonneg; lia).
  assert (Hmode : get_mode bits s = octal_value s mod 2 ^ bits).
  { unfold get_mode, octal_value.
    rewrite <- (Z.mod_0_l (2 ^ bits)) at 1 by lia.
    apply get_mode_from_octal; assumption. }
  split; [exact Hmode |].
  intros Hshort. rewrite Hmode. apply Z.mod_small.
  pose proof (octal_fold_bound (String.list_ascii_of_string s) 0 0 Hall) as Hb.
  rewrite length_list_ascii in Hb.
  specialize (Hb ltac:(lia) ltac:(simpl; lia)).
  unfold octal_value. fold octal_step.
  split; [lia |].
  apply Z.lt_le_trans with (2 ^ (3 * (0 + Z.of_nat (String.length s)))); [lia |].
  apply Z.pow_le_mono_r; lia.
Qed.

Lemma get_mode_octal_witness :
  get_mode 32 "0755" = octal_value "0755" mod 2 ^ 32 /\
  (3 * Z.of_nat (String.length "0755") <= 32 -> get_mode 32 "0755" = octal_value "0755").
Proof.
  apply (get_mode_octal 32 "0755"); [lia |].
  unfold all_octal. simpl. repeat constructor.
Defined.

Lemma get_mode_from_rejects (bits : Z) (pre : string) (c : Ascii.ascii) (post : string)
    (mode : Z) :
  all_octal pre -> is_octal_digit c = false -> Ascii.N_of_ascii c <> 0%N ->
  get_mode_from bits mode (pre +:+ String c post) = (-1) mod 2 ^ bits.
Proof.
  unfold all_octal. revert mode.
  induction pre as [| d pre IH]; intros mode Hall Hc Hnul; simpl in *.
  - apply N.eqb_neq in Hnul. rewrite Hnul, Hc. reflexivity.
  - apply Forall_cons in Hall as [Hd Hall].
    rewrite (octal_digit_not_nul d Hd), Hd. apply IH; assumption.
Qed.

(** X21.  A character other than an octal digit, anywhere before the end
    of the text, makes [get_mode] return [(mode_t)-1], all bits set,
    whatever digits come before or after it. *)
Theorem get_mode_rejects (bits : Z) (pre : string) (c : Ascii.ascii) (post : string) :
  0 <= bits ->
  all_octal pre -> is_octal_digit c = false -> Ascii.N_of_ascii c <> 0%N ->
  get_mode bits (pre +:+ String c post) = 2 ^ bits - 1 /\
  forall i, 0 <= i < bits -> Z.testbit (get_mode bits (pre +:+ String c post)) i = true.
Proof.
  intros Hbits Hall Hc Hnul.
  assert (Hpos : 0 < 2 ^ bits) by (apply Z.pow_pos_nonneg; lia).
  assert (Hval : get_mode bits (pre +:+ String c post) = 2 ^ bits - 1).
  { unfold get_mode. rewrite get_mode_from_rejects by assumption.
    symmetry. apply (Z.mod_unique _ _ (-1)); lia. }
  split; [exact Hval |].
  intros i Hi. rewrite Hval.
  replace (2 ^ bits - 1) with (Z.ones bits) by (rewrite Z.ones_equiv; lia).
  apply Z.ones_spec_low. lia.
Qed.

Lemma get_mode_rejects_witness :
  get_mode 32 ("75" +:+ String (Ascii.ascii_of_nat 56) "5") = 2 ^ 32 - 1 /\
  forall i, 0 <= i < 32 -> Z.testbit (get_mode 32 ("75" +:+ String (Ascii.ascii_of_nat 56) "5")) i = true.
Proof.
  apply (get_mode_rejects 32 "75" (Ascii.ascii_of_nat 56) "5"); [lia | | reflexivity | discriminate].
  unfold all_octal. simpl. repeat constructor.
Defined.

Lemma loglevel_severity_range (v : Z) :
  is_Some (loglevel_severity v) <-> 0 <= v <= 7.
Proof.
  split.
  - intros [sev Hsev].
    destruct v as [| p | p]; [lia | | discriminate].
    do 3 (destruct p as [p | p |]; try discriminate; try lia).
  - intros Hv.
    assert (v = 0 \/ v = 1 \/ v = 2 \/ v = 3 \/ v = 4 \/ v = 5 \/ v = 6 \/ v = 7)
      as Hcases by lia.
    destruct_or!; subst v; eexists; reflexivity.
Qed.

(** X22.  [loglevel] succeeds exactly when its argument parses as one of
    the levels 0 to 7.  Otherwise the minimum severity stays as it was
    and the error names the rejected level, which reads -1 when the
    argument is not a number at all. *)
Theorem loglevel_range (ParseInt : string -> option Z) (args : list string)
    (minimum : LogSeverity) :
  ((exists severity, do_loglevel ParseInt args minimum = (Ok tt, severity)) <->
   (exists v, ParseInt (arg args 1) = Some v /\ 0 <= v <= 7)) /\
  ((forall v, ParseInt (arg args 1) = Some v -> ~ 0 <= v <= 7) ->
   do_loglevel ParseInt args minimum =
     (Err (Error ("invalid log level " +:+ pretty (default (-1) (ParseInt (arg args 1))))),
      minimum)).
Proof.
  unfold do_loglevel.
  pose proof (loglevel_severity_range (default (-1) (ParseInt (arg args 1)))) as Hrange.
  destruct (loglevel_severity (default (-1) (ParseInt (arg args 1)))) as [sev |] eqn:Hsev.
  - assert (Hin : 0 <= default (-1) (ParseInt (arg args 1)) <= 7)
      by (apply Hrange; eexists; reflexivity).
    destruct (ParseInt (arg args 1)) as [v |] eqn:Hparse; simpl in Hin; [| lia].
    split.
    + split; [intros _; exists v; split; [reflexivity | exact Hin] |].
      intros _. exists sev. reflexivity.
    + intros Hout. destruct (Hout v eq_refl Hin).
  - split.
    + split; [intros [severity Heq]; discriminate |].
      intros (v & Hparse & Hv). rewrite Hparse in Hrange. simpl in Hrange.
      apply Hrange in Hv as [sev' Hsev']. discriminate.
    + intros _. reflexivity.
Qed.

Lemma loglevel_range_witness :
  do_loglevel parse_digit ["loglevel"; "8"] INFO =
    (Err (Error ("invalid log level " +:+
       pretty (default (-1) (parse_digit (arg ["loglevel"; "8"] 1))))), INFO).
Proof.
  apply (loglevel_range parse_digit ["loglevel"; "8"] INFO).
  intros v Hv. vm_compute in Hv. injection Hv as <-. lia.
Defined.

(** X23.  A higher level never makes logging less verbose: for two
    accepted levels [v1 <= v2] the minimum severity chosen for [v2] is at
    most the one chosen for [v1]. *)
Theorem loglevel_monotone (ParseInt : string -> option Z) (args1 args2 : list string)
    (minimum1 minimum2 : LogSeverity) (v1 v2 : Z) :
  ParseInt (arg args1 1) = Some v1 -> ParseInt (arg args2 1) = Some v2 ->
  0 <= v1 -> v1 <= v2 -> v2 <= 7 ->
  severity_value (snd (do_loglevel ParseInt args2 minimum2)) <=
  severity_value (snd (do_loglevel ParseInt args1 minimum1)).
Proof.
  intros H1 H2 Hlow Hle Hhigh. unfold do_loglevel. rewrite H1, H2. simpl.
  assert (v1 = 0 \/ v1 = 1 \/ v1 = 2 \/ v1 = 3 \/ v1 = 4 \/ v1 = 5 \/ v1 = 6 \/ v1 = 7)
    as Hc1 by lia.
  assert (v2 = 0 \/ v2 = 1 \/ v2 = 2 \/ v2 = 3 \/ v2 = 4 \/ v2 = 5 \/ v2 = 6 \/ v2 = 7)
    as Hc2 by lia.
  destruct_or!; subst v1 v2; simpl; lia.
Qed.

Lemma loglevel_monotone_witness :
  severity_value (snd (do_loglevel parse_digit ["loglevel"; "6"] FATAL)) <=
  severity_value (snd (do_loglevel parse_digit ["loglevel"; "3"] DEBUG)).
Proof.
  apply (loglevel_monotone parse_digit ["loglevel"; "3"] ["loglevel"; "6"] DEBUG FATAL 3 6);
    [reflexivity | reflexivity | lia | lia | lia].
Defined.

(** X24.  After an accepted [loglevel], a failure with [ENOENT] is
    reported by the commands that use [ErrorIgnoreEnoent] only if the
    level was 7; at every other accepted level it is turned into
    success.  Any other error number is reported at every level. *)
Theorem loglevel_enoent_reporting (w : World) (ParseInt : string -> option Z)
    (args : list string) (minimum severity : LogSeverity) (e : Z) (msg : string) :
  do_loglevel ParseInt args minimum = (Ok tt, severity) ->
  ErrorIgnoreEnoent (with_min_severity severity w) e msg =
    if (e =? ENOENT) && negb (bool_decide (ParseInt (arg args 1) = Some 7))
    then Ok tt
    else Err (ErrnoError_with (with_min_severity severity w) e msg).
Proof.
  unfold do_loglevel. intros Hrun.
  unfold ErrorIgnoreEnoent, ignore_error_. simpl w_GetMinimumLogSeverity.
  destruct (e =? ENOENT); [| reflexivity]. simpl.
  destruct (ParseInt (arg args 1)) as [v |] eqn:Hparse; simpl in Hrun;
    [| discriminate].
  destruct (loglevel_severity v) as [sev |] eqn:Hsev; [| discriminate].
  injection Hrun as <-.
  assert (Hv : 0 <= v <= 7) by (apply loglevel_severity_range; eexists; exact Hsev).
  assert (v = 0 \/ v = 1 \/ v = 2 \/ v = 3 \/ v = 4 \/ v = 5 \/ v = 6 \/ v = 7)
    as Hcases by lia.
  destruct_or!; subst v; simpl in Hsev; injection Hsev as <-; reflexivity.
Qed.

Lemma loglevel_enoent_reporting_witness :
  ErrorIgnoreEnoent (with_min_severity INFO samples.fair_world) ENOENT "open() failed" =
    Ok tt.
Proof.
  exact (loglevel_enoent_reporting samples.fair_world parse_digit ["loglevel"; "6"]
           DEBUG INFO ENOENT "open() failed" eq_refl).
Defined.



Lemma do_chmod_run (w : World) (bits : Z) (fchmodat : string -> Z -> SysResult)
    (args : list string) (s : InitState) :
  do_chmod w bits fchmodat args s =
    match fchmodat (arg args 2) (get_mode bits (arg args 1)) with
    | SysOk _ => (Ok tt, s)
    | SysFail e => (ErrorIgnoreEnoent w e "fchmodat() failed", set_errno e s)
    end.
Proof.
  unfold do_chmod, answer, mbind, M_bind.
  destruct (fchmodat (arg args 2) (get_mode bits (arg args 1))) as [v | e]; simpl.
  - replace (Z.of_N v <? 0) with false by (symmetry; apply Z.ltb_ge; lia).
    reflexivity.
  - reflexivity.
Qed.

(** X26.  [chmod] does not reject a malformed mode: when the mode text
    has a character that is not an octal digit, [fchmodat] is still
    called, with every bit of the mode set, and the command's result is
    that call's: success, or its error through the ENOENT filter. *)
Theorem chmod_malformed_mode_not_rejected (w : World) (bits : Z)
    (fchmodat : string -> Z -> SysResult) (cmd pre post path : string) (c : Ascii.ascii)
    (s : InitState) :
  0 <= bits ->
  all_octal pre -> is_octal_digit c = false -> Ascii.N_of_ascii c <> 0%N ->
  do_chmod w bits fchmodat [cmd; pre +:+ String c post; path] s =
    match fchmodat path (2 ^ bits - 1) with
    | SysOk _ => (Ok tt, s)
    | SysFail e => (ErrorIgnoreEnoent w e "fchmodat() failed", set_errno e s)
    end.
Proof.
  intros Hbits Hall Hc Hnul. rewrite do_chmod_run.
  change (arg [cmd; pre +:+ String c post; path] 1) with (pre +:+ String c post).
  change (arg [cmd; pre +:+ String c post; path] 2) with path.
  unfold get_mode. rewrite get_mode_from_rejects by assumption.
  assert (Hpos : 0 < 2 ^ bits) by (apply Z.pow_pos_nonneg; lia).
  replace ((-1) mod 2 ^ bits) with (2 ^ bits - 1)
    by (apply (Z.mod_unique _ _ (-1)); lia).
  reflexivity.
Qed.

Lemma chmod_malformed_mode_not_rejected_witness :
  do_chmod samples.fair_world 32
    (fun _ mode => if mode =? 2 ^ 32 - 1 then SysOk 0 else SysFail ENOENT)
    ["chmod"; "" +:+ String (Ascii.ascii_of_nat 117) "+x"; "/data/file"] samples.early_state =
  (Ok tt, samples.early_state).
Proof.
  exact (chmod_malformed_mode_not_rejected samples.fair_world 32
           (fun _ mode => if mode =? 2 ^ 32 - 1 then SysOk 0 else SysFail ENOENT)
           "chmod" "" "+x" "/data/file" (Ascii.ascii_of_nat 117) samples.early_state
           ltac:(lia) ltac:(constructor) eq_refl ltac:(discriminate)).
Defined.

End builtins_more.
